(** * cfRegTest: the Cloudflare IP performance tester

    A shallow embedding of [scripts/cfRegTest.py] and the properties of its
    selection pipeline.

    Modelling conventions.
    - Python [int] is [Z].  A [float] that is a number is the rational it
      denotes ([Q]); its arithmetic is the platform's (a part of [Host]),
      so no result is assumed exact.  A number read from the configuration
      may also be an infinity or NaN ([Py.float]); clock readings, probe
      delays and speeds are numbers.
    - Python [str] is [string]; only ASCII whitespace and line separators are
      recognised by [strip] and [splitlines].
    - The outside world (network, wall clock, random generator, I/O faults,
      the [ipaddress], [ping3], [requests] and [configparser] libraries) is a
      [Host]: a record of oracles over an abstract world state.  The program
      threads a state made of that world, the log, the standard output and
      the file system through every call; exceptions are values.
    - Only subclasses of [Exception] are modelled. *)

From Stdlib Require Import Ascii String QArith Qround Permutation Sorted.
From stdpp Require Import gmap strings list sorting pretty.

Local Open Scope string_scope.
Local Open Scope list_scope.
Local Open Scope Z_scope.

(** ** Python primitives *)

Module Py.

(** [str.isspace] on one ASCII character: TAB, LF, VT, FF, CR,
    FS, GS, RS, US and the space. *)
Definition is_space (c : ascii) : bool :=
  let n := nat_of_ascii c in
  ((9 <=? n) && (n <=? 13) || (28 <=? n) && (n <=? 32))%nat.

Fixpoint lstrip (s : string) : string :=
  match s with
  | String c s' => if is_space c then lstrip s' else s
  | EmptyString => EmptyString
  end.

(** [str.strip()] *)
Definition strip (s : string) : string :=
  String.rev (lstrip (String.rev (lstrip s))).

(** [s.replace(a, b)] for one-character [a] and [b]. *)
Fixpoint replace_char (a b : ascii) (s : string) : string :=
  match s with
  | String c s' =>
      String (if Ascii.eqb c a then b else c) (replace_char a b s')
  | EmptyString => EmptyString
  end.

Fixpoint startswith (p s : string) : bool :=
  match p, s with
  | EmptyString, _ => true
  | String a p', String b s' => Ascii.eqb a b && startswith p' s'
  | String _ _, EmptyString => false
  end.

(** [s.split(sep)] for a one-character separator: never empty. *)
Fixpoint split_char (sep : ascii) (s : string) : list string :=
  match s with
  | EmptyString => [EmptyString]
  | String c s' =>
      if Ascii.eqb c sep then EmptyString :: split_char sep s'
      else match split_char sep s' with
           | piece :: rest => String c piece :: rest
           | [] => [String c EmptyString]
           end
  end.

(** Line boundaries of [str.splitlines] in the ASCII range. *)
Definition is_linebreak (c : ascii) : bool :=
  let n := nat_of_ascii c in
  ((10 <=? n) && (n <=? 13) || (28 <=? n) && (n <=? 30))%nat.

(** [go cur s]: [cur] is the line being read, reversed. *)
Fixpoint splitlines_go (cur : string) (s : string) : list string :=
  match s with
  | EmptyString =>
      match cur with EmptyString => [] | _ => [String.rev cur] end
  | String c s' =>
      if is_linebreak c then
        String.rev cur ::
          match c, s' with
          | "013"%char, String "010"%char s'' => splitlines_go EmptyString s''
          | _, _ => splitlines_go EmptyString s'
          end
      else splitlines_go (String c cur) s'
  end.

Definition splitlines : string → list string := splitlines_go EmptyString.

(** [int(x)] on a float: truncation towards zero. *)
Definition int (x : Q) : Z := Z.quot (Qnum x) (Z.pos (Qden x)).

(** Nearest integer, ties to even. *)
Definition round_half_even (x : Q) : Z :=
  let fl := Qfloor x in
  match (x - inject_Z fl ?= 1 # 2)%Q with
  | Lt => fl
  | Gt => fl + 1
  | Eq => if Z.even fl then fl else fl + 1
  end.

(** [round(x, 2)] *)
Definition round2 (x : Q) : Q := (inject_Z (round_half_even (x * 100)) / 100)%Q.

Definition Qltb (x y : Q) : bool := negb (Qle_bool y x).

(** A [float] that need not be a number, as [float(s)] gives for the
    strings ["inf"], ["-inf"] and ["nan"]. *)
Inductive float :=
| Finite (q : Q)
| PosInf
| NegInf
| NaN.

(** [x < y] for a number [x]: no number is below [nan]. *)
Definition lt_float (x : Q) (y : float) : bool :=
  match y with
  | Finite t => Qltb x t
  | PosInf => true
  | NegInf | NaN => false
  end.

(** [x >= y], that is [y <= x], for a number [x]: false for [nan]. *)
Definition ge_float (x : Q) (y : float) : bool :=
  match y with
  | Finite t => Qle_bool t x
  | NegInf => true
  | PosInf | NaN => false
  end.

(** [l[:n]]: a negative [n] counts from the end. *)
Definition slice_to {A} (n : Z) (l : list A) : list A :=
  if 0 <=? n then take (Z.to_nat n) l
  else take (Z.to_nat (Z.of_nat (length l) + n)) l.

(** [list.sort(key=...)] is a stable sort by an integer key; insertion
    from the right computes the stable ordering. *)
Section Sort.
Context {A : Type} (key : A → Z).

Fixpoint insert_by (x : A) (l : list A) : list A :=
  match l with
  | [] => [x]
  | y :: l' => if key x <=? key y then x :: l else y :: insert_by x l'
  end.

Fixpoint sort_by (l : list A) : list A :=
  match l with
  | [] => []
  | x :: l' => insert_by x (sort_by l')
  end.
End Sort.

(** [f"{x:.2f}"] *)
Definition format_2f (x : Q) : string :=
  let n := Z.abs (round_half_even (x * 100)) in
  let frac := n mod 100 in
  (if Qltb x 0 then "-" else "") +:+ pretty (n / 100) +:+ "." +:+
  (if frac <? 10 then "0" else "") +:+ pretty frac.

End Py.

(** ** Exceptions, log records and the program state *)

Inductive ExnClass :=
| FileNotFoundError | PermissionError | OSError
| UnicodeDecodeError | ValueError | RuntimeError
| HTTPError | RequestException
| ZeroDivisionError | IndexError
| AttributeError | CsvError
| Exception.

Global Instance ExnClass_eq_dec : EqDecision ExnClass.
Proof. solve_decision. Defined.

(** [issubclass c target], for the classes named in [except] clauses. *)
Definition issubclass (c target : ExnClass) : bool :=
  match target, c with
  | Exception, _ => true
  | OSError, (FileNotFoundError | PermissionError | HTTPError | RequestException) => true
  | RequestException, HTTPError => true
  | ValueError, UnicodeDecodeError => true
  | _, _ => bool_decide (c = target)
  end.

(** An exception value: its class and [str(e)]. *)
Record Exn := mkExn { exn_cls : ExnClass; exn_msg : string }.

Inductive Res (A : Type) :=
| Ok (a : A)
| Raise (e : Exn).
Arguments Ok {A} a.
Arguments Raise {A} e.

Inductive Level := INFO | WARNING | ERROR | CRITICAL.

(** A call of [logging.<level>]: the message, with the float it
    interpolates (if any) kept as a number. *)
Inductive LogRecord :=
| Log (lvl : Level) (msg : string)
| LogNum (lvl : Level) (before : string) (x : Q) (after : string).

(** [IPPerformanceMetrics] *)
Record IPPerformanceMetrics := {
  ip : string;
  region : string;
  ping : Z;
  upload_speed : Q;
  download_speed : Q;
}.

Definition to_csv_row (self : IPPerformanceMetrics) : list string :=
  [ self.(ip);
    self.(region);
    pretty self.(ping);
    Py.format_2f self.(upload_speed);
    Py.format_2f self.(download_speed) ].

(** What [print] wrote. *)
Inductive Printed :=
| PrintStr (s : string)
| PrintMetrics (before : string) (m : IPPerformanceMetrics).

Record State (W : Type) := mkState {
  world : W;
  logs : list LogRecord;
  stdout : list Printed;
  disk : gmap string (list string);
}.
Arguments mkState {W}.
Arguments world {W}.
Arguments logs {W}.
Arguments stdout {W}.
Arguments disk {W}.

(** ** The state-and-exception monad *)

Definition M (W A : Type) : Type := State W → Res A * State W.

Definition ret {W A} (a : A) : M W A := λ s, (Ok a, s).

Definition bind {W A B} (m : M W A) (k : A → M W B) : M W B :=
  λ s, match m s with
       | (Ok a, s') => k a s'
       | (Raise e, s') => (Raise e, s')
       end.

Declare Scope prog_scope.
Delimit Scope prog_scope with prog.
Notation "x ← y ; z" := (bind y (λ x, z))
  (at level 20, y at level 100, z at level 200, only parsing) : prog_scope.
Notation "x ;; z" := (bind x (λ _, z))
  (at level 100, z at level 200, only parsing, right associativity) : prog_scope.
Local Open Scope prog_scope.

Section Effects.
Context {W : Type}.

Definition raise {A} (c : ExnClass) (msg : string) : M W A :=
  λ s, (Raise (mkExn c msg), s).

Definition reraise {A} (e : Exn) : M W A := λ s, (Raise e, s).

(** A call that returns or raises without touching the state. *)
Definition of_res {A} (r : Res A) : M W A := λ s, (r, s).

(** [try: body  except c1 as e: h1 e  except c2 as e: h2 e ...]: the
    first clause whose class matches handles the exception; what a
    handler raises is not handled by its siblings. *)
Fixpoint dispatch {A} (clauses : list (ExnClass * (Exn → M W A)))
    (e : Exn) : M W A :=
  match clauses with
  | [] => reraise e
  | (c, handler) :: rest =>
      if issubclass (exn_cls e) c then handler e else dispatch rest e
  end.

Definition try_except {A} (body : M W A)
    (clauses : list (ExnClass * (Exn → M W A))) : M W A :=
  λ s, match body s with
       | (Ok a, s') => (Ok a, s')
       | (Raise e, s') => dispatch clauses e s'
       end.

Definition logging (r : LogRecord) : M W unit :=
  λ s, (Ok (), mkState s.(world) (s.(logs) ++ [r]) s.(stdout) s.(disk)).

Definition print (p : Printed) : M W unit :=
  λ s, (Ok (), mkState s.(world) s.(logs) (s.(stdout) ++ [p]) s.(disk)).

(** A call into the outside world. *)
Definition ask {A} (f : W → A * W) : M W A :=
  λ s, let '(a, w) := f s.(world) in
       (Ok a, mkState w s.(logs) s.(stdout) s.(disk)).

Definition ask_res {A} (f : W → Res A * W) : M W A :=
  λ s, let '(r, w) := f s.(world) in
       (r, mkState w s.(logs) s.(stdout) s.(disk)).

Definition get_disk : M W (gmap string (list string)) :=
  λ s, (Ok s.(disk), s).

Definition set_disk (d : gmap string (list string)) : M W unit :=
  λ s, (Ok (), mkState s.(world) s.(logs) s.(stdout) d).

End Effects.

(** ** The outside world *)

(** [self.*] of [CloudflareIPTester], as set by [__init__]. *)
Record Config := {
  max_ips : Z;
  max_ping : Z;
  test_size : Z;
  min_download_speed : Py.float;
  min_upload_speed : Py.float;
  regions : list string;
  output_file : string;
  ip_file : string;
  openssl_available : bool;
}.

(** What [ping3.ping] returns: the delay in seconds, [None] (no reply
    within the timeout) or [False] (an error reported without raising). *)
Inductive PingReply :=
| Delay (seconds : Q)
| NoReply
| PingFalse.

Record Request := {
  url : string;
  headers : list (string * string);
  params : list (string * string);
  files : option (string * string * Z); (* field, file name, count of zero bytes *)
  timeout : Z;
}.

Record Response := {
  status_code : Z;
  text : string;
}.

Inductive IoOp :=
| OpOpenRead (path : string)
| OpReadLine (path : string)
| OpOpenWrite (path : string)
| OpWrite (path : string)
| OpClose (path : string).

Record Host (W : Type) := {
  (** whether [import ping3] succeeded *)
  PING_AVAILABLE : bool;
  (** whether [ipaddress.ip_address] accepts the literal *)
  ipaddress_ip_address : string → bool;
  ping3_ping : string → Q → W → Res PingReply * W;
  time_time : W → Q * W;
  requests_get : Request → W → Res Response * W;
  requests_post : Request → W → Res Response * W;
  (** [list(csv.DictReader(StringIO(text)))]: it raises [csv.Error] on a
      malformed text; a row shorter than the header has [None] for the
      fields it lacks *)
  csv_DictReader : string → Res (list (gmap string (option string)));
  random_shuffle : list string → W → list string * W;
  random_shuffle_perm : ∀ l w, (random_shuffle l w).1 ≡ₚ l;
  (** the exception, if any, an I/O operation fails with *)
  io_fault : IoOp → W → option Exn * W;
  (** [CloudflareIPTester()]: reading [config.ini] *)
  read_config : W → Res Config * W;
  (** the arithmetic of the platform on [float]s that are numbers:
      [x - y], [x * y], [x / y] for a [y] that is not zero, and
      [round(x, 2)]; each result is rounded as the platform rounds it *)
  float_sub : Q → Q → Q;
  float_mul : Q → Q → Q;
  float_div : Q → Q → Q;
  float_round2 : Q → Q;
  (** equal numbers have the difference 0.0 *)
  float_sub_diag : ∀ x y, (x == y)%Q → (float_sub x y == 0)%Q;
  (** a positive number below 0.001, times 1000, is below 1.0 *)
  float_mul_below_one :
    ∀ x, (0 < x)%Q → (x < 1 # 1000)%Q → Py.int (float_mul x 1000) = 0;
  (** [round(x, 2)] of a number so rounded, and of 0.0, is that number *)
  float_round2_idem :
    ∀ x, (float_round2 (float_round2 x) == float_round2 x)%Q;
  float_round2_0 : (float_round2 0 == 0)%Q;
}.
Arguments PING_AVAILABLE {W}.
Arguments ipaddress_ip_address {W}.
Arguments ping3_ping {W}.
Arguments time_time {W}.
Arguments requests_get {W}.
Arguments requests_post {W}.
Arguments csv_DictReader {W}.
Arguments random_shuffle {W}.
Arguments random_shuffle_perm {W}.
Arguments io_fault {W}.
Arguments read_config {W}.
Arguments float_sub {W}.
Arguments float_mul {W}.
Arguments float_div {W}.
Arguments float_round2 {W}.
Arguments float_sub_diag {W}.
Arguments float_mul_below_one {W}.
Arguments float_round2_idem {W}.
Arguments float_round2_0 {W}.

(** ** File and CSV operations *)

Module Csv.
Definition quotechar : ascii := "034"%char.

Fixpoint needs_quote (s : string) : bool :=
  match s with
  | EmptyString => false
  | String c s' =>
      Ascii.eqb c "," || Ascii.eqb c quotechar ||
      Ascii.eqb c "013" || Ascii.eqb c "010" || needs_quote s'
  end.

Fixpoint double_quotes (s : string) : string :=
  match s with
  | EmptyString => EmptyString
  | String c s' =>
      if Ascii.eqb c quotechar
      then String c (String c (double_quotes s'))
      else String c (double_quotes s')
  end.

Definition field (s : string) : string :=
  if needs_quote s
  then String quotechar (double_quotes s) +:+ String quotechar EmptyString
  else s.

Fixpoint join (cells : list string) : string :=
  match cells with
  | [] => EmptyString
  | [c] => c
  | c :: rest => c +:+ "," +:+ join rest
  end.

(** The line [csv.writer(...).writerow(row)] writes. *)
Definition line (row : list string) : string :=
  join (field <$> row) +:+ String "013" (String "010" EmptyString).
End Csv.

Section Files.
Context {W : Type} (host : Host W).

Definition io_check (op : IoOp) : M W unit :=
  fault ← ask (io_fault host op);
  match fault with
  | Some e => reraise e
  | None => ret ()
  end.

(** [open(path, 'r')] *)
Definition open_read (path : string) : M W (list string) :=
  io_check (OpOpenRead path);;
  d ← get_disk;
  match d !! path with
  | Some lines => ret lines
  | None =>
      raise FileNotFoundError
        ("[Errno 2] No such file or directory: '" +:+ path +:+ "'")
  end.

(** [open(path, 'w', newline='')]: the file is created or truncated. *)
Definition open_write (path : string) : M W unit :=
  io_check (OpOpenWrite path);;
  d ← get_disk;
  set_disk (<[path := []]> d).

(** [csv.writer(csvfile).writerow(row)] *)
Definition writerow (path : string) (row : list string) : M W unit :=
  io_check (OpWrite path);;
  d ← get_disk;
  set_disk (alter (λ lines, lines ++ [Csv.line row]) path d).

Definition close (path : string) : M W unit :=
  io_check (OpClose path).
End Files.

(** ** [CloudflareIPTester] *)

Section CloudflareIPTester.
Context {W : Type} (host : Host W).

(** *** Static methods *)

Definition validate_ip (ip : string) : M W bool :=
  if ipaddress_ip_address host ip then ret true
  else
    logging (Log WARNING ("Invalid IP address: " +:+ ip));;
    ret false.

(** The list comprehension of [read_ips]: one iteration per line. *)
Fixpoint read_ips_lines (file_path : string) (file : list string)
    (ips : list string) : M W (list string) :=
  match file with
  | [] => ret ips
  | line :: rest =>
      io_check host (OpReadLine file_path);;
      keep ← (if bool_decide (Py.strip line = "") then ret false
              else validate_ip (Py.strip line));
      read_ips_lines file_path rest
        (if keep then ips ++ [Py.strip line] else ips)
  end.

Definition read_ips (file_path : string) : M W (list string) :=
  try_except
    (ips ← (file ← open_read host file_path;
            read_ips_lines file_path file []);
     if bool_decide (ips = []) then
       raise ValueError "No valid IP addresses found in the file"
     else ret ips)
    [ (FileNotFoundError, λ _,
         raise FileNotFoundError ("IP file not found: " +:+ file_path));
      (Exception, λ e,
         raise FileNotFoundError ("Error reading IP file: " +:+ exn_msg e)) ].

(** *** Methods *)

Context (self : Config).

(** [response.raise_for_status()] *)
Definition raise_for_status (response : Response) : M W unit :=
  if (400 <=? status_code response) && (status_code response <? 600) then
    raise HTTPError (pretty (status_code response) +:+ " Error")
  else ret ().

Definition fetch_cloudflare_colo_data
    : M W (list (gmap string (option string))) :=
  try_except
    (let csv_url := "https://raw.githubusercontent.com/Netrvin/cloudflare-colo-list/refs/heads/main/DC-Colos.csv" in
     response ← ask_res (requests_get host
       {| url := csv_url; headers := []; params := []; files := None;
          timeout := 10 |});
     raise_for_status response;;
     of_res (csv_DictReader host (text response)))
    [ (RequestException, λ e,
         logging (Log ERROR ("Error fetching Cloudflare colo data: " +:+ exn_msg e));;
         ret []) ].

(** The [params] dictionary shared by the three probes. *)
Definition probe_params (ip : string) : list (string * string) :=
  ("resolve", "speed.cloudflare.com:443:" +:+ ip) ::
  (if openssl_available self
   then [("alpn", "h2,http/1.1"); ("utls", "random")] else []).

(** [l[1]] *)
Definition index1 (l : list string) : M W string :=
  match l !! 1%nat with
  | Some x => ret x
  | None => raise IndexError "list index out of range"
  end.

(** The [for line in response.text.splitlines()] loop. *)
Fixpoint find_colo (lines : list string) : M W (option string) :=
  match lines with
  | [] => ret None
  | line :: rest =>
      if Py.startswith "colo=" line then
        shown ← index1 (Py.split_char "=" line);
        logging (Log INFO ("Colo: " +:+ shown));;
        colo ← index1 (Py.split_char "=" line);
        ret (Some colo)
      else find_colo rest
  end.

Definition get_colo_from_ip (ip : string) : M W (option string) :=
  try_except
    (let url := "https://speed.cloudflare.com/cdn-cgi/trace" in
     let headers := [("Host", "speed.cloudflare.com")] in
     let params := probe_params ip in
     response ← ask_res (requests_get host
       {| url := url; headers := headers; params := params; files := None;
          timeout := 10 |});
     raise_for_status response;;
     find_colo (Py.splitlines (text response)))
    [ (RequestException, λ e,
         logging (Log ERROR ("Error fetching colo for IP " +:+ ip +:+ ": " +:+ exn_msg e));;
         ret None) ].

(** [row.get('region', 'Unknown')] is the default only for a row without
    the key; on the [None] of a short row, [.replace] raises. *)
Fixpoint get_region_from_colo (colo : string)
    (colo_data : list (gmap string (option string))) : Res string :=
  match colo_data with
  | [] => Ok "Unknown"
  | row :: rest =>
      if bool_decide (row !! "colo" = Some (Some colo)) then
        match default (Some "Unknown") (row !! "region") with
        | Some region => Ok (Py.replace_char " " "_" region)
        | None =>
            Raise (mkExn AttributeError
                     "'NoneType' object has no attribute 'replace'")
        end
      else get_region_from_colo colo rest
  end.

Definition get_ping (ip : string) : M W Z :=
  if negb (PING_AVAILABLE host) then
    raise RuntimeError "Ping functionality unavailable. Install the ping3 library."
  else
    try_except
      (start_time ← ask (time_time host);
       response_time ← ask_res
         (ping3_ping host ip (float_div host (inject_Z (max_ping self)) 1000));
       let timing_fallback :=
         now ← ask (time_time host);
         logging (LogNum INFO "Ping time: "
                    (float_mul host (float_sub host now start_time) 1000) "");;
         now ← ask (time_time host);
         ret (Py.int (float_mul host (float_sub host now start_time) 1000)) in
       match response_time with
       | Delay seconds =>
           if Py.Qltb 0 seconds
           then ret (Py.int (float_mul host seconds 1000))
           else timing_fallback
       | NoReply | PingFalse => timing_fallback
       end)
      [ (Exception, λ e,
           logging (Log ERROR ("Ping failed for " +:+ ip +:+ ": " +:+ exn_msg e));;
           ret (-1)) ].

(** [round(size / seconds * 8 / 1_000_000, 2)] *)
Definition mbps (size : Z) (seconds : Q) : M W Q :=
  if Qeq_bool seconds 0 then
    raise ZeroDivisionError "float division by zero"
  else
    ret (float_round2 host
           (float_div host
              (float_mul host (float_div host (inject_Z size) seconds) 8)
              1000000)).

Definition get_download_speed (ip : string) : M W Q :=
  let download_size := test_size self * 1024 in
  let url := "https://speed.cloudflare.com/__down?bytes=" +:+ pretty download_size in
  let headers := [("Host", "speed.cloudflare.com")] in
  let params := probe_params ip in
  try_except
    (start_time ← ask (time_time host);
     response ← ask_res (requests_get host
       {| url := url; headers := headers; params := params; files := None;
          timeout := 30 |});
     now ← ask (time_time host);
     let download_time := float_sub host now start_time in
     shown ← mbps download_size download_time;
     logging (LogNum INFO "Download speed: " shown " Mbps");;
     mbps download_size download_time)
    [ (RequestException, λ _, ret 0%Q) ].

Definition get_upload_speed (ip : string) : M W Q :=
  let upload_size := test_size self * 1024 in
  let url := "https://speed.cloudflare.com/__up" in
  let headers := [("Content-Type", "multipart/form-data");
                  ("Host", "speed.cloudflare.com")] in
  let params := probe_params ip in
  let files := Some ("file", "sample.bin", upload_size) in
  try_except
    (start_time ← ask (time_time host);
     _ ← ask_res (requests_post host
       {| url := url; headers := headers; params := params; files := files;
          timeout := 30 |});
     now ← ask (time_time host);
     let upload_time := float_sub host now start_time in
     shown ← mbps upload_size upload_time;
     logging (LogNum INFO "Upload speed: " shown " Mbps");;
     mbps upload_size upload_time)
    [ (RequestException, λ _, ret 0%Q) ].

(** One iteration of the loop of [filter_ips_by_ping]. *)
Definition ping_iteration (ip : string)
    (ip_ping_results : list (string * Z)) : M W (list (string * Z)) :=
  try_except
    (ping_time ← get_ping ip;
     if (0 <? ping_time) && (ping_time <=? max_ping self) then
       ret (ip_ping_results ++ [(ip, ping_time)])
     else ret ip_ping_results)
    [ (Exception, λ e,
         logging (Log WARNING ("Ping test failed for " +:+ ip +:+ ": " +:+ exn_msg e));;
         ret ip_ping_results) ].

Fixpoint ping_loop (ip_list : list string)
    (ip_ping_results : list (string * Z)) : M W (list (string * Z)) :=
  match ip_list with
  | [] => ret ip_ping_results
  | ip :: rest =>
      ip_ping_results ← ping_iteration ip ip_ping_results;
      ping_loop rest ip_ping_results
  end.

Definition filter_ips_by_ping (ip_list : list string)
    : M W (list (string * Z)) :=
  ip_ping_results ← ping_loop ip_list [];
  let ip_ping_results := Py.sort_by snd ip_ping_results in
  ret (Py.slice_to (max_ips self) ip_ping_results).

(** One iteration of the detailed-test loop of [run_tests]. *)
Definition test_iteration (colo_data : list (gmap string (option string)))
    (ip : string) (ping : Z)
    (successful_ips : list IPPerformanceMetrics)
    : M W (list IPPerformanceMetrics) :=
  logging (Log INFO ("Testing IP: " +:+ ip));;
  try_except
    (colo ← get_colo_from_ip ip;
     let no_colo :=
       logging (Log INFO ("Could not determine colo for IP " +:+ ip));;
       ret successful_ips in
     match colo with
     | None | Some EmptyString => no_colo
     | Some colo =>
         region ← of_res (get_region_from_colo colo colo_data);
         if bool_decide (region ∉ regions self) then
           logging (Log INFO ("IP " +:+ ip +:+ " not in desired regions"));;
           ret successful_ips
         else
           download_speed ← get_download_speed ip;
           upload_speed ← get_upload_speed ip;
           if Py.lt_float download_speed (min_download_speed self)
              || Py.lt_float upload_speed (min_upload_speed self) then
             logging (Log INFO ("IP " +:+ ip +:+ " did not meet speed thresholds."));;
             ret successful_ips
           else
             ret (successful_ips ++
                    [ {| ip := ip; region := region; ping := ping;
                         upload_speed := upload_speed;
                         download_speed := download_speed |} ])
     end)
    [ (Exception, λ e,
         logging (Log ERROR ("Unexpected error testing IP " +:+ ip +:+ ": " +:+ exn_msg e));;
         ret successful_ips) ].

Fixpoint test_loop (colo_data : list (gmap string (option string)))
    (filtered_ip_ping_results : list (string * Z))
    (successful_ips : list IPPerformanceMetrics)
    : M W (list IPPerformanceMetrics) :=
  match filtered_ip_ping_results with
  | [] => ret successful_ips
  | (ip, ping) :: rest =>
      successful_ips ← test_iteration colo_data ip ping successful_ips;
      test_loop colo_data rest successful_ips
  end.

Definition run_tests : M W (list IPPerformanceMetrics) :=
  ip_list ← try_except
    (ip_list ← read_ips (ip_file self);
     ask (random_shuffle host ip_list))
    [ (Exception, λ e,
         raise ValueError ("Failed to read 'ip_list': " +:+ exn_msg e)) ];
  logging (Log INFO "Starting ping tests to filter IPs.");;
  filtered_ip_ping_results ← filter_ips_by_ping ip_list;
  match filtered_ip_ping_results with
  | [] => raise RuntimeError "No IPs passed the ping filter."
  | _ :: _ =>
      logging (Log INFO "Fetching Cloudflare colo data.");;
      colo_data ← fetch_cloudflare_colo_data;
      match colo_data with
      | [] =>
          raise RuntimeError
            "Critical error: Failed to fetch Cloudflare colo data."
      | _ :: _ => test_loop colo_data filtered_ip_ping_results []
      end
  end.

Fixpoint write_results (results : list IPPerformanceMetrics) : M W unit :=
  match results with
  | [] => ret ()
  | result :: rest =>
      writerow host (output_file self) (to_csv_row result);;
      write_results rest
  end.

(** [with open(self.output_file, 'w', newline='') as csvfile: body]:
    the file is closed on both exits. *)
Definition with_output_file (body : M W unit) : M W unit :=
  open_write host (output_file self);;
  try_except body
    [ (Exception, λ e, close host (output_file self);; reraise e) ];;
  close host (output_file self).

Definition export_results (results : list IPPerformanceMetrics)
    : M W unit :=
  try_except
    (with_output_file
       (writerow host (output_file self)
          ["IP"; "Region"; "Ping (ms)"; "Upload (Mbps)"; "Download (Mbps)"];;
        write_results results);;
     logging (Log INFO ("Results exported to " +:+ output_file self)))
    [ (Exception, λ e,
         raise OSError
           ("Critical error: Failed to export results: " +:+ exn_msg e)) ].
End CloudflareIPTester.

(** ** The script *)

Section Script.
Context {W : Type} (host : Host W).

(** The module body up to the class definitions: [import ping3]. *)
Definition import_ping3 : M W unit :=
  if PING_AVAILABLE host then ret ()
  else
    logging (Log WARNING
      "ping3 module not found. Ping functionality will be limited.").

Fixpoint print_results (results : list IPPerformanceMetrics) : M W unit :=
  match results with
  | [] => ret ()
  | result :: rest =>
      print (PrintMetrics "  - " result);;
      print_results rest
  end.

Definition main : M W unit :=
  try_except
    (tester ← ask_res (read_config host);
     results ← run_tests host tester;
     export_results host tester results;;
     match results with
     | _ :: _ =>
         print (PrintStr (String "010" "Successful IPs:"));;
         print_results results
     | [] => print (PrintStr "No suitable IPs found.")
     end)
    [ (Exception, λ e,
         logging (Log CRITICAL ("Critical error occurred: " +:+ exn_msg e));;
         reraise e) ].

(** Running the file as a program. *)
Definition script : M W unit :=
  import_ping3;;
  main.
End Script.

(** ** Reading the configuration

    [configparser] is a library: the parser after [config.read] is the
    map from each section to its options as they are written (defaults
    merged); the interpolation [get] applies to a value, and [int] and
    [float] on a string, are parameters. *)

(** What [config.get] and its typed variants raise. *)
Inductive ConfigError :=
| NoSectionError (section : string)
| NoOptionError (option section : string)
| ConfigValueError (value : string)
| InterpolationError (msg : string).

Section ConfigFile.
Context {W : Type}.

(** The parser after [read]: the options of each section, those it
    inherits from [DEFAULT] included, with their raw values. *)
Context (config : gmap string (gmap string string)).
Context (py_int : string → option Z) (py_float : string → option Py.float).

(** [BasicInterpolation.before_get]: the value of an option after the
    [%(name)s] references in it are replaced by the options of its
    section, or the message of the [InterpolationError] it raises (a
    lone [%], a missing option, too deep a nesting). *)
Context (interpolate : gmap string string → string → string + string).

(** [self.config.get(section, key)] *)
Definition config_get (section key : string) : ConfigError + string :=
  match config !! section with
  | None => inl (NoSectionError section)
  | Some options =>
      match options !! key with
      | Some raw =>
          match interpolate options raw with
          | inr value => inr value
          | inl msg => inl (InterpolationError msg)
          end
      | None => inl (NoOptionError key section)
      end
  end.

(** [self.config.getint(section, key)] *)
Definition config_getint (section key : string) : ConfigError + Z :=
  match config_get section key with
  | inr value =>
      match py_int value with
      | Some n => inr n
      | None => inl (ConfigValueError value)
      end
  | inl e => inl e
  end.

(** [self.config.getfloat(section, key)] *)
Definition config_getfloat (section key : string)
    : ConfigError + Py.float :=
  match config_get section key with
  | inr value =>
      match py_float value with
      | Some x => inr x
      | None => inl (ConfigValueError value)
      end
  | inl e => inl e
  end.

(** An error no [except] clause of the getters names: it leaves
    [__init__]. *)
Definition config_raise {A} (e : ConfigError) : M W A :=
  match e with
  | NoSectionError section =>
      raise Exception ("No section: '" +:+ section +:+ "'")
  | NoOptionError option section =>
      raise Exception
        ("No option '" +:+ option +:+ "' in section: '" +:+ section +:+ "'")
  | ConfigValueError value =>
      raise ValueError ("invalid literal: '" +:+ value +:+ "'")
  | InterpolationError msg => raise Exception msg
  end.

Definition _get_config_int (section key : string) (default : Z) : M W Z :=
  match config_getint section key with
  | inr n => ret n
  | inl (NoOptionError _ _ | ConfigValueError _) =>
      logging (Log WARNING
        ("Using default value " +:+ pretty default +:+ " for " +:+ key));;
      ret default
  | inl e => config_raise e
  end.

Definition _get_config_float (section key : string) (default : Q)
    : M W Py.float :=
  match config_getfloat section key with
  | inr x => ret x
  | inl (NoOptionError _ _ | ConfigValueError _) =>
      logging (LogNum WARNING "Using default value " default (" for " +:+ key));;
      ret (Py.Finite default)
  | inl e => config_raise e
  end.

Definition _get_config_str (section key : string) (default : string)
    : M W string :=
  match config_get section key with
  | inr value => ret value
  | inl (NoOptionError _ _) =>
      logging (Log WARNING
        ("Using default value " +:+ default +:+ " for " +:+ key));;
      ret default
  | inl e => config_raise e
  end.

(** [repr] of a list of strings that need no escaping. *)
Definition repr_list (l : list string) : string :=
  "[" +:+ String.concat ", " ((λ s, "'" +:+ s +:+ "'") <$> l) +:+ "]".

(** [[region.strip() for region in value.split(',') if region.strip()]] *)
Definition strip_regions (value : string) : list string :=
  omap (λ region, if bool_decide (Py.strip region = "") then None
                  else Some (Py.strip region))
       (Py.split_char "," value).

Definition _get_config_list (section key : string) (default : list string)
    : M W (list string) :=
  match config_get section key with
  | inr value => ret (strip_regions value)
  | inl (NoOptionError _ _) =>
      logging (Log WARNING
        ("Using default value " +:+ repr_list default +:+ " for " +:+ key));;
      ret default
  | inl e => config_raise e
  end.

(** [CloudflareIPTester.__init__], after [self.config.read(config_path)];
    [openssl] is [bool(ssl.OPENSSL_VERSION)]. *)
Definition __init__ (openssl : bool) : M W Config :=
  max_ips ← _get_config_int "cfRegTest" "max_ips" 10;
  max_ping ← _get_config_int "cfRegTest" "max_ping" 100;
  test_size ← _get_config_int "cfRegTest" "test_size" 1024;
  min_download_speed ← _get_config_float "cfRegTest" "min_download_speed" 5%Q;
  min_upload_speed ← _get_config_float "cfRegTest" "min_upload_speed" 2%Q;
  regions ← _get_config_list "cfRegTest" "regions" ["Europe, "; "Asia_Pacific"];
  output_file ← _get_config_str "cfRegTest" "output_file" "ip_performance.csv";
  ip_file ← _get_config_str "cfRegTest" "file_ips" "ips.txt";
  ret {| max_ips := max_ips; max_ping := max_ping; test_size := test_size;
         min_download_speed := min_download_speed;
         min_upload_speed := min_upload_speed;
         regions := regions; output_file := output_file; ip_file := ip_file;
         openssl_available := openssl |}.
End ConfigFile.

(** ** Exact arithmetic

    Facts on the rationals, for a host whose arithmetic is exact. *)

Lemma int_floor_ceiling (x : Q) :
  Py.int x = if Qnum x <? 0 then Qceiling x else Qfloor x.
Proof.
  destruct x as [n d]. unfold Py.int, Qceiling, Qfloor. simpl.
  destruct (Z.ltb_spec n 0) as [Hn|Hn].
  - rewrite <- (Z.opp_involutive n) at 1.
    rewrite Z.quot_opp_l by done.
    rewrite Z.quot_div_nonneg by lia. done.
  - by rewrite Z.quot_div_nonneg by lia.
Qed.

Lemma int_Qeq (x y : Q) : (x == y)%Q → Py.int x = Py.int y.
Proof.
  intros Hxy. rewrite !int_floor_ceiling.
  assert ((Qnum x <? 0) = (Qnum y <? 0)) as ->.
  { unfold Qeq in Hxy.
    destruct (Z.ltb_spec (Qnum x) 0), (Z.ltb_spec (Qnum y) 0); try done; nia. }
  destruct (Qnum y <? 0); by rewrite Hxy.
Qed.

Lemma round_half_even_Qeq (x y : Q) :
  (x == y)%Q → Py.round_half_even x = Py.round_half_even y.
Proof.
  intros Hxy. unfold Py.round_half_even.
  rewrite (Qfloor_comp _ _ Hxy).
  assert ((x - inject_Z (Qfloor y) ?= 1 # 2)%Q
          = (y - inject_Z (Qfloor y) ?= 1 # 2)%Q) as ->; [|done].
  by rewrite Hxy.
Qed.

Lemma round2_Qeq (x y : Q) : (x == y)%Q → Py.round2 x = Py.round2 y.
Proof.
  intros Hxy. unfold Py.round2.
  rewrite (round_half_even_Qeq (x * 100) (y * 100)); [done|].
  by rewrite Hxy.
Qed.

Lemma int_below_one (x : Q) : (0 < x)%Q → (x < 1)%Q → Py.int x = 0.
Proof.
  destruct x as [n d]. unfold Qlt, Py.int. simpl. intros H0 H1.
  apply Z.quot_small. lia.
Qed.

Lemma round_half_even_inject_Z (n : Z) : Py.round_half_even (inject_Z n) = n.
Proof.
  unfold Py.round_half_even. cbv zeta. rewrite Qfloor_Z.
  assert ((inject_Z n - inject_Z n ?= 1 # 2)%Q = Lt) as ->; [|done].
  apply (proj1 (Qlt_alt _ _)). unfold Qlt. simpl. lia.
Qed.

Lemma round2_idem (x : Q) : (Py.round2 (Py.round2 x) == Py.round2 x)%Q.
Proof.
  unfold Py.round2 at 1 3.
  rewrite (round_half_even_Qeq (Py.round2 x * 100)
             (inject_Z (Py.round_half_even (x * 100)))).
  - by rewrite round_half_even_inject_Z.
  - unfold Py.round2. field.
Qed.

Lemma round2_0 : (Py.round2 0 == 0)%Q.
Proof. reflexivity. Qed.

Lemma exact_sub_diag (x y : Q) : (x == y)%Q → (x - y == 0)%Q.
Proof. intros ->. ring. Qed.

Lemma exact_mul_below_one (x : Q) :
  (0 < x)%Q → (x < 1 # 1000)%Q → Py.int (x * 1000) = 0.
Proof.
  intros H0 H1. destruct x as [n d].
  apply int_below_one; unfold Qlt in *; simpl in *; lia.
Qed.

(** ** A scripted host

    A deterministic stand-in for the outside world, used to run the program
    on concrete inputs: a platform whose arithmetic is exact, a simulated
    clock that each network call advances,
    a random generator that either keeps or reverses the list it shuffles,
    and a disk that fails after a given number of writes. *)

Module Mock.

Record World := {
  clock : Q;
  flip : bool;
  write_budget : option nat;
}.

(** How one address answers the probes. *)
Record Profile := {
  p_ping : Res PingReply;
  p_ping_secs : Q;
  p_trace : Res Response;
  p_down_secs : Res Q;
  p_up_secs : Res Q;
}.

Record Script := {
  ping_available : bool;
  profile : string → Profile;
  colo_csv : Res Response;
  config : Res Config;
}.

(** Dotted-quad IPv4 literals, as [ipaddress.ip_address] reads them. *)
Definition octet (s : string) : bool :=
  match mapM Ascii.is_nat (list_ascii_of_string s) with
  | Some [] | None => false
  | Some (d :: ds) =>
      (length ds <? 3)%nat
      && (bool_decide (d ≠ 0%nat) || bool_decide (ds = []))
      && (foldl (λ acc x, 10 * acc + x) 0 (d :: ds) <=? 255)%nat
  end.

Definition ipv4 (s : string) : bool :=
  match Py.split_char "." s with
  | [a; b; c; d] => octet a && octet b && octet c && octet d
  | _ => false
  end.

(** A row of [csv.DictReader]: the fields a short row lacks are [None],
    and of two columns of one name the later one counts. *)
Definition dict_row (header row : list string) : gmap string (option string) :=
  list_to_map
    (reverse (zip header ((Some <$> row)
                          ++ replicate (length header - length row) None))).

(** [csv.field_size_limit()] *)
Definition field_size_limit : Z := 131072.

(** The fields of one line: a blank line has none. *)
Definition fields (line : string) : list string :=
  if bool_decide (line = "") then [] else Py.split_char "," line.

(** [list(csv.DictReader(StringIO(text)))] on text without quoted fields
    whose lines end in LF or CR: the first line is the header, blank
    lines after it are skipped, and a field longer than the limit is an
    error.  The fields a row has beyond the header, which the reader
    keeps under the key [None], are left out. *)
Definition dict_reader (text : string)
    : Res (list (gmap string (option string))) :=
  if bool_decide (Exists (λ line,
                    Exists (λ field,
                              field_size_limit < Z.of_nat (String.length field))
                           (fields line))
                    (Py.splitlines text))
  then Raise (mkExn CsvError "field larger than field limit (131072)")
  else
    match Py.splitlines text with
    | [] => Ok []
    | header :: rows =>
        Ok ((λ row, dict_row (fields header) (fields row))
            <$> filter (λ row, row ≠ "") rows)
    end.

Definition advance (d : Q) (w : World) : World :=
  {| clock := Qred (clock w + d); flip := flip w;
     write_budget := write_budget w |}.

(** The address a request is routed to: the [resolve] parameter without
    its ["speed.cloudflare.com:443:"] prefix. *)
Definition target (req : Request) : string :=
  match params req with
  | (_, v) :: _ => String.substring 25 (String.length v - 25) v
  | [] => ""
  end.

Definition timed (r : Res Q) (w : World) : Res Response * World :=
  match r with
  | Ok secs => (Ok {| status_code := 200; text := "" |}, advance secs w)
  | Raise e => (Raise e, w)
  end.

Definition get (sc : Script) (req : Request) (w : World)
    : Res Response * World :=
  if Py.startswith "https://raw.githubusercontent.com/" (url req) then
    (colo_csv sc, w)
  else if Py.startswith "https://speed.cloudflare.com/cdn-cgi/trace" (url req) then
    (p_trace (profile sc (target req)), w)
  else timed (p_down_secs (profile sc (target req))) w.

Definition post (sc : Script) (req : Request) (w : World)
    : Res Response * World :=
  timed (p_up_secs (profile sc (target req))) w.

Definition shuffle (l : list string) (w : World) : list string * World :=
  (if flip w then reverse l else l, w).

Lemma shuffle_perm l w : (shuffle l w).1 ≡ₚ l.
Proof. unfold shuffle. destruct (flip w); simpl; [apply reverse_Permutation | done]. Qed.

Definition fault (op : IoOp) (w : World) : option Exn * World :=
  match op, write_budget w with
  | OpWrite _, Some O =>
      (Some (mkExn OSError "[Errno 28] No space left on device"), w)
  | OpWrite _, Some (S n) =>
      (None, {| clock := clock w; flip := flip w; write_budget := Some n |})
  | _, _ => (None, w)
  end.

Definition host (sc : Script) : Host World := {|
  PING_AVAILABLE := ping_available sc;
  ipaddress_ip_address := ipv4;
  ping3_ping := λ ip _ w,
    (p_ping (profile sc ip), advance (p_ping_secs (profile sc ip)) w);
  time_time := λ w, (clock w, w);
  requests_get := get sc;
  requests_post := post sc;
  csv_DictReader := dict_reader;
  random_shuffle := shuffle;
  random_shuffle_perm := shuffle_perm;
  io_fault := fault;
  read_config := λ w, (config sc, w);
  float_sub := Qminus;
  float_mul := Qmult;
  float_div := Qdiv;
  float_round2 := Py.round2;
  float_sub_diag := exact_sub_diag;
  float_mul_below_one := exact_mul_below_one;
  float_round2_idem := round2_idem;
  float_round2_0 := round2_0;
|}.

Definition boot (flip : bool) (write_budget : option nat)
    (files : gmap string (list string)) : State World :=
  mkState {| clock := 0; flip := flip; write_budget := write_budget |}
          [] [] files.

End Mock.

(** ** A concrete run

    Five addresses: [1.1.1.1] and [1.0.0.1] answer in 30 ms from London,
    [8.8.8.8] in 10 ms from San Jose, [9.9.9.9] does not answer the ping
    within the 100 ms timeout (the call returns after 100.4 ms), and any
    other address is unreachable. *)

Module Scenario.

Definition nl : string := String "010" "".

Definition ok200 (body : string) : Res Response :=
  Ok {| status_code := 200; text := body |}.

Definition unreachable : Mock.Profile := {|
  Mock.p_ping := Raise (mkExn OSError "[Errno 101] Network is unreachable");
  Mock.p_ping_secs := 0;
  Mock.p_trace := Raise (mkExn RequestException "Connection refused");
  Mock.p_down_secs := Raise (mkExn RequestException "Connection refused");
  Mock.p_up_secs := Raise (mkExn RequestException "Connection refused");
|}.

Definition profile (ip : string) : Mock.Profile :=
  if bool_decide (ip = "1.1.1.1") then
    {| Mock.p_ping := Ok (Delay (30 # 1000)); Mock.p_ping_secs := 30 # 1000;
       Mock.p_trace := ok200 ("fl=1" +:+ nl +:+ "colo=LHR" +:+ nl);
       Mock.p_down_secs := Ok 1%Q; Mock.p_up_secs := Ok 2%Q |}
  else if bool_decide (ip = "1.0.0.1") then
    {| Mock.p_ping := Ok (Delay (30 # 1000)); Mock.p_ping_secs := 30 # 1000;
       Mock.p_trace := ok200 ("colo=LHR" +:+ nl);
       Mock.p_down_secs := Ok (1 # 2); Mock.p_up_secs := Ok 1%Q |}
  else if bool_decide (ip = "8.8.8.8") then
    {| Mock.p_ping := Ok (Delay (10 # 1000)); Mock.p_ping_secs := 10 # 1000;
       Mock.p_trace := ok200 ("colo=SJC" +:+ nl);
       Mock.p_down_secs := Ok (1 # 2); Mock.p_up_secs := Ok 1%Q |}
  else if bool_decide (ip = "9.9.9.9") then
    {| Mock.p_ping := Ok NoReply; Mock.p_ping_secs := 1004 # 10000;
       Mock.p_trace := ok200 ("colo=FRA" +:+ nl);
       Mock.p_down_secs := Ok 1%Q; Mock.p_up_secs := Ok 1%Q |}
  else unreachable.

Definition tester (max_ips : Z) : Config := {|
  max_ips := max_ips;
  max_ping := 100;
  test_size := 1024;
  min_download_speed := Py.Finite 5;
  min_upload_speed := Py.Finite 2;
  regions := ["Europe"; "Asia_Pacific"];
  output_file := "ip_performance.csv";
  ip_file := "ips.txt";
  openssl_available := true;
|}.

Definition colo_table : string :=
  "colo,region" +:+ nl +:+ "LHR,Europe" +:+ nl +:+
  "SJC,North America" +:+ nl +:+ "FRA,Europe" +:+ nl.

Definition script (ping_available : bool) (max_ips : Z) : Mock.Script := {|
  Mock.ping_available := ping_available;
  Mock.profile := profile;
  Mock.colo_csv := ok200 colo_table;
  Mock.config := Ok (tester max_ips);
|}.

(** The world with [ping3] installed and the default [max_ips]. *)
Definition host : Host Mock.World := Mock.host (script true 10).

(** [ips.txt] holding the given lines. *)
Definition ips_txt (lines : list string) : gmap string (list string) :=
  {[ "ips.txt" := (λ l, l +:+ nl) <$> lines ]}.

(** The file of the example runs: the five addresses and an invalid line. *)
Definition all_ips : list string :=
  ["1.1.1.1"; "bad-ip"; "8.8.8.8"; "9.9.9.9"; "1.0.0.1"; "10.0.0.1"].

(** The state a run starts in: nothing logged or printed yet. *)
Definition start (flip : bool) (write_budget : option nat)
    (lines : list string) : State Mock.World :=
  Mock.boot flip write_budget (ips_txt lines).

End Scenario.

(** * Properties *)

(** ** The stable sort *)

Section SortFacts.
Context {A : Type} (key : A → Z).

Definition key_le (a b : A) : Prop := key a ≤ key b.

Lemma insert_by_perm x l : Py.insert_by key x l ≡ₚ x :: l.
Proof.
  induction l as [|y l IH]; simpl; [done|].
  destruct (key x <=? key y); [done|].
  rewrite IH. apply perm_swap.
Qed.

Lemma sort_by_perm l : Py.sort_by key l ≡ₚ l.
Proof.
  induction l as [|x l IH]; simpl; [done|].
  by rewrite insert_by_perm, IH.
Qed.

Lemma sort_by_length l : length (Py.sort_by key l) = length l.
Proof. by rewrite (Permutation_length (sort_by_perm l)). Qed.

Lemma insert_by_sorted x l :
  StronglySorted key_le l → StronglySorted key_le (Py.insert_by key x l).
Proof.
  induction 1 as [|y l Hl IH Hy]; simpl.
  - repeat constructor.
  - destruct (Z.leb_spec (key x) (key y)) as [Hxy|Hxy].
    + constructor; [by constructor|].
      constructor; [done|].
      eapply Forall_impl; [exact Hy|]. unfold key_le. intros; lia.
    + constructor; [done|].
      rewrite (insert_by_perm x l). constructor; [|done].
      unfold key_le. lia.
Qed.

Lemma sort_by_sorted l : StronglySorted key_le (Py.sort_by key l).
Proof.
  induction l; simpl; [constructor|]. by apply insert_by_sorted.
Qed.

(** Stability: the entries of any one key keep their order. *)
Lemma insert_by_stable k x l :
  filter (λ a, key a = k) (Py.insert_by key x l)
  = filter (λ a, key a = k) (x :: l).
Proof.
  induction l as [|y l IH]; simpl; [done|].
  destruct (Z.leb_spec (key x) (key y)) as [Hxy|Hxy]; [done|].
  rewrite (filter_cons _ y), IH, !filter_cons.
  repeat case_decide; try done; lia.
Qed.

Lemma sort_by_stable k l :
  filter (λ a, key a = k) (Py.sort_by key l) = filter (λ a, key a = k) l.
Proof.
  induction l as [|x l IH]; simpl; [done|].
  by rewrite insert_by_stable, !filter_cons, IH.
Qed.

(** Two sorted arrangements of the same entries agree when no two
    distinct entries share a key. *)
Lemma sorted_unique l1 l2 :
  StronglySorted key_le l1 → StronglySorted key_le l2 →
  l1 ≡ₚ l2 →
  (∀ a b, a ∈ l1 → b ∈ l1 → key a = key b → a = b) →
  l1 = l2.
Proof.
  intros H1. revert l2.
  induction H1 as [|x l1 Hl1 IH Hx]; intros l2 H2 Hp Hties.
  - by apply Permutation_nil in Hp.
  - destruct H2 as [|y l2 Hl2 Hy].
    { by apply Permutation_sym, Permutation_nil in Hp. }
    assert (x = y) as ->.
    { assert (x ∈ y :: l2) as Hx2 by (rewrite <- Hp; left).
      assert (y ∈ x :: l1) as Hy1 by (rewrite Hp; left).
      apply elem_of_cons in Hx2 as [|Hx2]; [done|].
      apply elem_of_cons in Hy1 as [|Hy1]; [done|].
      rewrite Forall_forall in Hx, Hy.
      apply Hties; [left | by right |].
      specialize (Hx _ Hy1). specialize (Hy _ Hx2).
      unfold key_le in *. lia. }
    f_equal. apply IH; [done | by eapply Permutation_cons_inv |].
    intros a b Ha Hb. apply Hties; by right.
Qed.

(** A sorted list is determined by its entries of each key, in their
    order: [sort_by] computes the one stable ordering, that of
    [list.sort]. *)
Lemma sorted_stable_unique l1 l2 :
  StronglySorted key_le l1 → StronglySorted key_le l2 →
  (∀ k, filter (λ a, key a = k) l1 = filter (λ a, key a = k) l2) →
  l1 = l2.
Proof.
  intros H1. revert l2.
  induction H1 as [|x l1 Hl1 IH Hx]; intros l2 H2 Hfilter.
  - destruct l2 as [|y l2]; [done|].
    specialize (Hfilter (key y)). rewrite filter_cons_True in Hfilter by done.
    done.
  - destruct H2 as [|y l2 Hl2 Hy].
    { specialize (Hfilter (key x)).
      rewrite filter_cons_True in Hfilter by done. done. }
    assert (x ∈ y :: l2) as Hx2.
    { eapply (list_elem_of_filter (λ a, key a = key x)).
      rewrite <- Hfilter, filter_cons_True by done. left. }
    assert (y ∈ x :: l1) as Hy1.
    { eapply (list_elem_of_filter (λ a, key a = key y)).
      rewrite Hfilter, filter_cons_True by done. left. }
    assert (key x = key y) as Hkey.
    { rewrite Forall_forall in Hx, Hy. unfold key_le in *.
      apply elem_of_cons in Hx2 as [->|Hx2]; [done|].
      apply elem_of_cons in Hy1 as [->|Hy1]; [done|].
      specialize (Hx _ Hy1). specialize (Hy _ Hx2). lia. }
    assert (x = y) as <-.
    { specialize (Hfilter (key x)).
      rewrite !filter_cons_True in Hfilter by done. congruence. }
    f_equal. apply IH; [done|]. intros k. specialize (Hfilter k).
    rewrite !filter_cons in Hfilter. case_decide; congruence.
Qed.

Lemma sort_by_only_stable l l' :
  StronglySorted key_le l' →
  (∀ k, filter (λ a, key a = k) l' = filter (λ a, key a = k) l) →
  l' = Py.sort_by key l.
Proof.
  intros Hsorted Hstable. apply sorted_stable_unique; [done|..].
  - apply sort_by_sorted.
  - intros k. by rewrite sort_by_stable.
Qed.

Lemma sort_by_shuffle l1 l2 :
  l1 ≡ₚ l2 →
  (∀ a b, a ∈ l1 → b ∈ l1 → key a = key b → a = b) →
  Py.sort_by key l1 = Py.sort_by key l2.
Proof.
  intros Hp Hties. apply sorted_unique; try apply sort_by_sorted.
  - by rewrite !sort_by_perm.
  - intros a b. rewrite !sort_by_perm. apply Hties.
Qed.
End SortFacts.

(** ** Region lookup *)

Lemma replace_char_get (a b : ascii) (s : string) (n : nat) :
  String.get n (Py.replace_char a b s)
  = (λ c, if Ascii.eqb c a then b else c) <$> String.get n s.
Proof.
  revert n. induction s as [|c s IH]; intros [|n]; simpl; auto.
Qed.

Lemma replace_char_absent (a b : ascii) (s : string) (n : nat) :
  a ≠ b → String.get n (Py.replace_char a b s) ≠ Some a.
Proof.
  intros Hab. rewrite replace_char_get.
  destruct (String.get n s) as [c|]; simpl; [|done].
  destruct (Ascii.eqb_spec c a); congruence.
Qed.

Lemma get_region_from_colo_no_match colo colo_data :
  (∀ row, row ∈ colo_data → row !! "colo" ≠ Some (Some colo)) →
  get_region_from_colo colo colo_data = Ok "Unknown".
Proof.
  induction colo_data as [|row rest IH]; intros Hno; simpl; [done|].
  rewrite bool_decide_eq_false_2 by (apply Hno; left).
  apply IH. intros r Hr. apply Hno. by right.
Qed.

(** What the row that carries the code decides. *)
Definition region_of_row (row : gmap string (option string)) : Res string :=
  match row !! "region" with
  | Some (Some region) => Ok (Py.replace_char " " "_" region)
  | Some None =>
      Raise (mkExn AttributeError
               "'NoneType' object has no attribute 'replace'")
  | None => Ok "Unknown"
  end.

Lemma get_region_from_colo_first colo before row after :
  (∀ r, r ∈ before → r !! "colo" ≠ Some (Some colo)) →
  row !! "colo" = Some (Some colo) →
  get_region_from_colo colo (before ++ row :: after) = region_of_row row.
Proof.
  induction before as [|r before IH]; intros Hno Hrow; simpl.
  - rewrite bool_decide_eq_true_2 by done. unfold region_of_row.
    by destruct (row !! "region") as [[region|]|].
  - rewrite bool_decide_eq_false_2 by (apply Hno; left).
    apply IH; [|done]. intros r' Hr'. apply Hno. by right.
Qed.

Lemma get_region_from_colo_no_space colo colo_data region n :
  get_region_from_colo colo colo_data = Ok region →
  String.get n region ≠ Some " "%char.
Proof.
  induction colo_data as [|row rest IH]; simpl.
  - intros [= <-]. by do 8 (destruct n as [|n]; simpl; [done|]).
  - case_bool_decide; [|done].
    destruct (default _ _) as [name|]; [|done].
    intros [= <-]. by apply replace_char_absent.
Qed.

(** C8. [get_region_from_colo] matches the colo code exactly: when no row
    carries the code the answer is ["Unknown"]; otherwise the first row
    carrying it decides: its region name with every space replaced by an
    underscore, the name ["Unknown"] when the row has no region column,
    and an [AttributeError] when the row is too short to have a region
    (its region is [None]); a row carrying any other code (one that
    differs in case, say) does not match; and no space is left in a name
    that is returned. *)
Theorem get_region_from_colo_exact (colo : string)
    (colo_data : list (gmap string (option string))) :
  ((∀ row, row ∈ colo_data → row !! "colo" ≠ Some (Some colo)) →
   get_region_from_colo colo colo_data = Ok "Unknown")
  ∧ (∀ before row after,
       colo_data = before ++ row :: after →
       (∀ r, r ∈ before → r !! "colo" ≠ Some (Some colo)) →
       row !! "colo" = Some (Some colo) →
       get_region_from_colo colo colo_data
       = match row !! "region" with
         | Some (Some region) => Ok (Py.replace_char " " "_" region)
         | Some None =>
             Raise (mkExn AttributeError
                      "'NoneType' object has no attribute 'replace'")
         | None => Ok "Unknown"
         end)
  ∧ (∀ other row,
       other ≠ Some colo →
       get_region_from_colo colo (<["colo" := other]> row :: colo_data)
       = get_region_from_colo colo colo_data)
  ∧ (∀ s n,
       String.get n (Py.replace_char " " "_" s)
       = (λ c, if Ascii.eqb c " " then "_"%char else c) <$> String.get n s)
  ∧ (∀ region n,
       get_region_from_colo colo colo_data = Ok region →
       String.get n region ≠ Some " "%char).
Proof.
  split_and!.
  - apply get_region_from_colo_no_match.
  - intros before row after ->. apply get_region_from_colo_first.
  - intros other row Hne. simpl.
    rewrite lookup_insert_eq, bool_decide_eq_false_2; [done|congruence].
  - intros. apply replace_char_get.
  - intros region n. apply get_region_from_colo_no_space.
Qed.

Example get_region_from_colo_cases :
  let table : list (gmap string (option string)) :=
    [ {[ "colo" := Some "LHR"; "region" := Some "Europe" ]};
      {[ "colo" := Some "SJC"; "region" := Some "North America" ]};
      {[ "colo" := Some "XXX" ]};
      {[ "colo" := Some "NRT"; "region" := None ]} ] in
  get_region_from_colo "SJC" table = Ok "North_America"
  ∧ get_region_from_colo "sjc" table = Ok "Unknown"
  ∧ get_region_from_colo "XXX" table = Ok "Unknown"
  ∧ get_region_from_colo "LHR" table = Ok "Europe"
  ∧ get_region_from_colo "NRT" table
    = Raise (mkExn AttributeError
               "'NoneType' object has no attribute 'replace'").
Proof. vm_compute. done. Qed.

Example ipv4_cases :
  Mock.ipv4 "1.1.1.1" = true ∧ Mock.ipv4 "bad-ip" = false
  ∧ Mock.ipv4 "256.1.1.1" = false ∧ Mock.ipv4 "1.1.1" = false
  ∧ Mock.ipv4 "01.1.1.1" = false ∧ Mock.ipv4 "104.16.0.255" = true.
Proof. vm_compute. done. Qed.

(** ** Reasoning about programs *)

Section Logic.
Context {W : Type}.

(** [returns m P]: whenever [m] returns a value, the value satisfies [P]. *)
Definition returns {A} (m : M W A) (P : A → Prop) : Prop :=
  ∀ s a s', m s = (Ok a, s') → P a.

Lemma returns_ret {A} (a : A) (P : A → Prop) : P a → returns (ret a) P.
Proof. intros HP s a' s' [= <- _]. exact HP. Qed.

Lemma returns_raise {A} c msg (P : A → Prop) : returns (raise c msg) P.
Proof. intros s a s' [=]. Qed.

Lemma returns_reraise {A} e (P : A → Prop) : returns (reraise e) P.
Proof. intros s a s' [=]. Qed.

Lemma returns_bind {A B} (m : M W A) (k : A → M W B) (Q : A → Prop)
    (P : B → Prop) :
  returns m Q → (∀ a, Q a → returns (k a) P) → returns (bind m k) P.
Proof.
  intros Hm Hk s b s'. unfold bind.
  destruct (m s) as [[a|e] s1] eqn:E; [|done].
  intros Hb. eapply Hk; [|exact Hb]. eapply Hm, E.
Qed.

Lemma returns_any {A} (m : M W A) : returns m (λ _, True).
Proof. done. Qed.

Lemma returns_seq {A B} (m : M W A) (k : M W B) (P : B → Prop) :
  returns k P → returns (bind m (λ _, k)) P.
Proof. intros Hk. apply returns_bind with (Q := λ _, True); [done|auto]. Qed.

Lemma returns_dispatch {A} (clauses : list (ExnClass * (Exn → M W A)))
    (P : A → Prop) e :
  Forall (λ clause, ∀ e, returns (clause.2 e) P) clauses →
  returns (dispatch clauses e) P.
Proof.
  induction 1 as [|[c h] clauses Hh _ IH]; simpl.
  - apply returns_reraise.
  - destruct (issubclass _ _); [apply Hh | apply IH].
Qed.

Lemma returns_try {A} (body : M W A) clauses (P : A → Prop) :
  returns body P →
  Forall (λ clause, ∀ e, returns (clause.2 e) P) clauses →
  returns (try_except body clauses) P.
Proof.
  intros Hb Hc s a s'. unfold try_except.
  destruct (body s) as [[a'|e] s1] eqn:E.
  - intros [= <- _]. eapply Hb, E.
  - apply returns_dispatch, Hc.
Qed.

(** [unchanged_disk m]: running [m] leaves every file as it was. *)
Definition unchanged_disk {A} (m : M W A) : Prop :=
  ∀ s, disk (m s).2 = disk s.

Lemma unchanged_ret {A} (a : A) : unchanged_disk (ret a).
Proof. done. Qed.

Lemma unchanged_raise {A} c msg : unchanged_disk (@raise W A c msg).
Proof. done. Qed.

Lemma unchanged_reraise {A} e : unchanged_disk (@reraise W A e).
Proof. done. Qed.

Lemma unchanged_of_res {A} r : unchanged_disk (@of_res W A r).
Proof. done. Qed.

Lemma unchanged_logging r : unchanged_disk (@logging W r).
Proof. done. Qed.

Lemma unchanged_get_disk : unchanged_disk (@get_disk W).
Proof. done. Qed.

Lemma unchanged_ask {A} (f : W → A * W) : unchanged_disk (ask f).
Proof. intros s. unfold ask. by destruct (f _). Qed.

Lemma unchanged_ask_res {A} (f : W → Res A * W) : unchanged_disk (ask_res f).
Proof. intros s. unfold ask_res. by destruct (f _). Qed.

Lemma unchanged_bind {A B} (m : M W A) (k : A → M W B) :
  unchanged_disk m → (∀ a, unchanged_disk (k a)) → unchanged_disk (bind m k).
Proof.
  intros Hm Hk s. unfold bind. specialize (Hm s).
  destruct (m s) as [[a|e] s1]; simpl in *; [|done].
  by rewrite Hk.
Qed.

Lemma unchanged_dispatch {A} (clauses : list (ExnClass * (Exn → M W A))) e :
  Forall (λ clause, ∀ e, unchanged_disk (clause.2 e)) clauses →
  unchanged_disk (dispatch clauses e).
Proof.
  induction 1 as [|[c h] clauses Hh _ IH]; simpl; [done|].
  destruct (issubclass _ _); [apply Hh | apply IH].
Qed.

Lemma unchanged_try {A} (body : M W A) clauses :
  unchanged_disk body →
  Forall (λ clause, ∀ e, unchanged_disk (clause.2 e)) clauses →
  unchanged_disk (try_except body clauses).
Proof.
  intros Hb Hc s. unfold try_except. specialize (Hb s).
  destruct (body s) as [[a|e] s1]; simpl in *; [done|].
  by rewrite (unchanged_dispatch _ _ Hc).
Qed.
End Logic.

Create HintDb frame.
#[local] Hint Resolve unchanged_ret unchanged_raise unchanged_reraise
  unchanged_of_res unchanged_logging unchanged_get_disk unchanged_ask unchanged_ask_res : frame.

(** Splits a program into its calls, for [returns] and [unchanged_disk]. *)
Ltac frame_step :=
  first
    [ apply unchanged_bind; [|intros ?]
    | apply unchanged_try; [|repeat constructor; simpl; intros ?]
    | solve [auto with frame]
    | case_match ].
Ltac frame := repeat frame_step.

(** ** The acceptance policy *)

Section Acceptance.
Context {W : Type} (host : Host W) (self : Config).

(** An entry of the ranking whose latency is within the ceiling. *)
Definition in_range (entry : string * Z) : Prop :=
  0 < entry.2 ≤ max_ping self.

(** The four conditions on a record of the output, as the gates of the
    code test them: neither speed is below its threshold. *)
Definition accepted (m : IPPerformanceMetrics) : Prop :=
  0 < ping m ≤ max_ping self
  ∧ region m ∈ regions self
  ∧ Py.lt_float (download_speed m) (min_download_speed self) = false
  ∧ Py.lt_float (upload_speed m) (min_upload_speed self) = false.

(** The four conditions with both speeds [>=] their thresholds. *)
Definition meets_thresholds (m : IPPerformanceMetrics) : Prop :=
  0 < ping m ≤ max_ping self
  ∧ region m ∈ regions self
  ∧ Py.ge_float (download_speed m) (min_download_speed self) = true
  ∧ Py.ge_float (upload_speed m) (min_upload_speed self) = true.

Lemma lt_float_false (x : Q) (y : Py.float) :
  Py.lt_float x y = false → y ≠ Py.NaN → Py.ge_float x y = true.
Proof.
  destruct y as [t| | |]; simpl; try done.
  unfold Py.Qltb. by intros ->%negb_false_iff.
Qed.

Lemma ge_float_true (x : Q) (y : Py.float) :
  Py.ge_float x y = true → Py.lt_float x y = false.
Proof.
  destruct y as [t| | |]; simpl; try done.
  unfold Py.Qltb. by intros ->.
Qed.

Lemma Qltb_false x y : Py.Qltb x y = false → (y <= x)%Q.
Proof.
  unfold Py.Qltb. intros H. apply Qle_bool_iff.
  by destruct (Qle_bool y x).
Qed.

Lemma slice_to_sublist {A} n (l : list A) : Py.slice_to n l `sublist_of` l.
Proof. unfold Py.slice_to. destruct (0 <=? n); apply sublist_take. Qed.

Lemma ping_iteration_in_range ip acc :
  Forall in_range acc →
  returns (ping_iteration host self ip acc) (Forall in_range).
Proof.
  intros Hacc. apply returns_try.
  - apply returns_bind with (Q := λ _, True); [done|]. intros p _.
    destruct (_ && _) eqn:E; apply returns_ret; [|done].
    apply Forall_app. split; [done|].
    repeat constructor; unfold in_range; simpl; lia.
  - repeat constructor. simpl. intros e. by apply returns_seq, returns_ret.
Qed.

Lemma ping_loop_in_range ip_list acc :
  Forall in_range acc →
  returns (ping_loop host self ip_list acc) (Forall in_range).
Proof.
  revert acc. induction ip_list as [|ip rest IH]; intros acc Hacc; simpl.
  - by apply returns_ret.
  - eapply returns_bind; [by apply ping_iteration_in_range|]. apply IH.
Qed.

Lemma filter_ips_by_ping_in_range ip_list :
  returns (filter_ips_by_ping host self ip_list) (Forall in_range).
Proof.
  eapply returns_bind; [by apply ping_loop_in_range|].
  intros results Hres. apply returns_ret.
  rewrite Forall_forall in *. intros entry Hentry. apply Hres.
  rewrite <- (sort_by_perm snd results).
  eapply elem_of_sublist; [exact Hentry | apply slice_to_sublist].
Qed.

Lemma test_iteration_accepted colo_data ip ping acc :
  in_range (ip, ping) → Forall accepted acc →
  returns (test_iteration host self colo_data ip ping acc) (Forall accepted).
Proof.
  intros Hping Hacc. unfold test_iteration.
  apply returns_seq, returns_try.
  2: { repeat constructor. simpl. intros e. by apply returns_seq, returns_ret. }
  apply returns_bind with (Q := λ _, True); [done|]. intros colo _.
  assert (returns (logging (W:=W)
      (Log INFO ("Could not determine colo for IP " +:+ ip));; ret acc)
    (Forall accepted)) as Hskip by by apply returns_seq, returns_ret.
  destruct colo as [[|c colo]|]; [done| |done].
  apply returns_bind with (Q := λ _, True); [done|]. intros region _.
  case_bool_decide as Hregion; [by apply returns_seq, returns_ret|].
  apply returns_bind with (Q := λ _, True); [done|]. intros download _.
  apply returns_bind with (Q := λ _, True); [done|]. intros upload _.
  destruct (Py.lt_float download _) eqn:Hdown; simpl;
    [by apply returns_seq, returns_ret|].
  destruct (Py.lt_float upload _) eqn:Hup; simpl;
    [by apply returns_seq, returns_ret|].
  apply returns_ret, Forall_app. split; [done|].
  repeat constructor; simpl; try apply Hping; auto.
Qed.

Lemma test_loop_accepted colo_data ranked acc :
  Forall in_range ranked → Forall accepted acc →
  returns (test_loop host self colo_data ranked acc) (Forall accepted).
Proof.
  intros Hranked. revert acc.
  induction Hranked as [|[ip ping] rest Hping _ IH]; intros acc Hacc; simpl.
  - by apply returns_ret.
  - eapply returns_bind; [by apply test_iteration_accepted|]. apply IH.
Qed.

(** C1 (amended). Every record of the list [run_tests] returns has a
    ping in (0, max_ping], a region that is one of the desired regions, a
    download speed that is not below [min_download_speed] and an upload
    speed that is not below [min_upload_speed]; a speed is then [>=] its
    threshold unless the threshold is NaN. *)
Theorem run_tests_accepted (s s' : State W)
    (results : list IPPerformanceMetrics) :
  run_tests host self s = (Ok results, s') →
  ∀ m, m ∈ results →
    0 < ping m ≤ max_ping self
    ∧ region m ∈ regions self
    ∧ Py.lt_float (download_speed m) (min_download_speed self) = false
    ∧ Py.lt_float (upload_speed m) (min_upload_speed self) = false
    ∧ (min_download_speed self ≠ Py.NaN →
       Py.ge_float (download_speed m) (min_download_speed self) = true)
    ∧ (min_upload_speed self ≠ Py.NaN →
       Py.ge_float (upload_speed m) (min_upload_speed self) = true).
Proof.
  intros Hrun.
  assert (Forall accepted results) as Hall.
  2: { rewrite Forall_forall in Hall. intros m Hm.
       destruct (Hall m Hm) as ([Hlow Hhigh] & Hregion & Hdown & Hup).
       split_and!; auto using lt_float_false. }
  revert s results s' Hrun.
  change (returns (run_tests host self) (Forall accepted)).
  unfold run_tests.
  apply returns_bind with (Q := λ _, True); [done|]. intros ip_list _.
  apply returns_seq.
  eapply returns_bind; [apply filter_ips_by_ping_in_range|].
  intros ranked Hranked.
  destruct ranked as [|entry ranked]; [apply returns_raise|].
  apply returns_seq.
  apply returns_bind with (Q := λ _, True); [done|]. intros colo_data _.
  destruct colo_data; [apply returns_raise|].
  by apply test_loop_accepted.
Qed.
End Acceptance.

Lemma run_eq {W A} (m : M W A) (s : State W) (a : A) :
  (m s).1 = Ok a → m s = (Ok a, (m s).2).
Proof. destruct (m s) as [r s']. simpl. by intros ->. Qed.

(** The run of the scenario with the file holding all five addresses and
    an invalid line: [1.1.1.1], [1.0.0.1] and [9.9.9.9] are accepted. *)
Lemma run_tests_accepted_witness :
  ∃ results,
    (run_tests Scenario.host (Scenario.tester 10)
       (Scenario.start false None Scenario.all_ips)).1 = Ok results
    ∧ length results = 3%nat
    ∧ ∀ m, m ∈ results →
        0 < ping m ≤ 100
        ∧ region m ∈ ["Europe"; "Asia_Pacific"]
        ∧ Py.lt_float (download_speed m) (Py.Finite 5) = false
        ∧ Py.lt_float (upload_speed m) (Py.Finite 2) = false
        ∧ (Py.Finite 5 ≠ Py.NaN →
           Py.ge_float (download_speed m) (Py.Finite 5) = true)
        ∧ (Py.Finite 2 ≠ Py.NaN →
           Py.ge_float (upload_speed m) (Py.Finite 2) = true).
Proof.
  eexists. split; [vm_compute; reflexivity|]. split; [reflexivity|].
  intros m Hm.
  refine (run_tests_accepted Scenario.host (Scenario.tester 10)
            (Scenario.start false None Scenario.all_ips)
            (run_tests Scenario.host (Scenario.tester 10)
               (Scenario.start false None Scenario.all_ips)).2 _ _ m Hm).
  apply (run_eq (run_tests Scenario.host (Scenario.tester 10))).
  vm_compute. reflexivity.
Defined.

(** ** The latency probe and the ranking *)

Section Latency.
Context {W : Type} (host : Host W) (self : Config).

(** What [ping3.ping] answers when [get_ping ip] is called in state [s]:
    the probe is sent after the first reading of the clock. *)
Definition ping3_outcome (ip : string) (s : State W) : Res PingReply :=
  (ping3_ping host ip (float_div host (inject_Z (max_ping self)) 1000)
     (time_time host (world s)).2).1.

(** The wall-clock time, in milliseconds, between the first reading of the
    clock in [get_ping ip] and the third one, taken after the probe. *)
Definition elapsed_ms (ip : string) (s : State W) : Z :=
  let '(start_time, w1) := time_time host (world s) in
  let w2 := (ping3_ping host ip (float_div host (inject_Z (max_ping self)) 1000) w1).2 in
  let w3 := (time_time host w2).2 in
  Py.int (float_mul host
            (float_sub host (time_time host w3).1 start_time) 1000).

(** The probe measured no positive round-trip time: no reply within the
    timeout, an error, or a delay that is not positive. *)
Definition unanswered (r : Res PingReply) : Prop :=
  match r with
  | Ok (Delay seconds) => Py.Qltb 0 seconds = false
  | Ok NoReply | Ok PingFalse | Raise _ => True
  end.

(** The latency filter of [filter_ips_by_ping]. *)
Definition passes (ping_time : Z) : bool :=
  (0 <? ping_time) && (ping_time <=? max_ping self).

(** What one candidate adds to the ranking, given what [get_ping] did. *)
Definition ping_entry (ip : string) (r : Res Z) : list (string * Z) :=
  match r with
  | Ok ping_time => if passes ping_time then [(ip, ping_time)] else []
  | Raise _ => []
  end.

(** The calls of [get_ping] made by the loop of [filter_ips_by_ping],
    started in state [s]: each candidate with
    the state its probe starts in. *)
Fixpoint ping_calls (ip_list : list string) (s : State W)
    : list (string * State W) :=
  match ip_list with
  | [] => []
  | ip :: rest =>
      (ip, s) :: ping_calls rest (ping_iteration host self ip [] s).2
  end.

(** The candidates that pass the latency filter, with their ping, in the
    order they were probed. *)
Definition latency_pass (ip_list : list string) (s : State W)
    : list (string * Z) :=
  ping_calls ip_list s ≫=
    λ call, ping_entry call.1 (get_ping host self call.1 call.2).1.

(** The list a call returned; nothing when it raised. *)
Definition returned {A} (r : Res (list A)) : list A :=
  match r with
  | Ok l => l
  | Raise _ => []
  end.

(** The ranking a call of [filter_ips_by_ping] produced. *)
Definition ranked_of (r : Res (list (string * Z))) : list (string * Z) :=
  match r with
  | Ok ranked => ranked
  | Raise _ => []
  end.

Lemma get_ping_unavailable ip s :
  PING_AVAILABLE host = false →
  get_ping host self ip s
  = (Raise (mkExn RuntimeError
       "Ping functionality unavailable. Install the ping3 library."), s).
Proof. unfold get_ping. by intros ->. Qed.

Lemma get_ping_available ip s :
  PING_AVAILABLE host = true →
  ∃ latency,
    (get_ping host self ip s).1 = Ok latency
    ∧ match ping3_outcome ip s with
      | Raise _ => latency = -1
      | Ok (Delay seconds) =>
          latency = if Py.Qltb 0 seconds
                    then Py.int (float_mul host seconds 1000)
                    else elapsed_ms ip s
      | Ok NoReply | Ok PingFalse => latency = elapsed_ms ip s
      end.
Proof.
  intros Hav. unfold get_ping, ping3_outcome, elapsed_ms.
  rewrite Hav. simpl. unfold try_except, bind, ask, ask_res, logging, ret.
  destruct s as [w lg out d]. simpl.
  destruct (time_time host w) as [t0 w1]. simpl.
  destruct (ping3_ping host ip _ w1) as [[reply|e] w2]; simpl.
  - destruct reply as [seconds| |]; [destruct (Py.Qltb 0 seconds)|..]; simpl;
      try (by eexists);
      destruct (time_time host w2) as [t1 w3]; simpl;
      destruct (time_time host w3) as [t2 w4]; simpl; by eexists.
  - by eexists.
Qed.

Lemma ping_iteration_run ip acc s :
  ping_iteration host self ip acc s
  = (Ok (acc ++ ping_entry ip (get_ping host self ip s).1),
     (ping_iteration host self ip [] s).2).
Proof.
  unfold ping_iteration, try_except, bind, ping_entry, passes.
  destruct (get_ping host self ip s) as [[ping_time|e] s1]; simpl.
  - destruct (_ && _); simpl; by rewrite ?app_nil_r.
  - by rewrite app_nil_r.
Qed.

Lemma ping_loop_run ip_list acc s :
  ∃ s', ping_loop host self ip_list acc s
        = (Ok (acc ++ latency_pass ip_list s), s').
Proof.
  revert acc s. induction ip_list as [|ip rest IH]; intros acc s; simpl.
  - exists s. unfold latency_pass. simpl. by rewrite app_nil_r.
  - unfold bind at 1. rewrite ping_iteration_run.
    destruct (IH (acc ++ ping_entry ip (get_ping host self ip s).1)
                (ping_iteration host self ip [] s).2) as [s' ->].
    exists s'. unfold latency_pass. simpl. by rewrite <- app_assoc.
Qed.

Lemma filter_ips_by_ping_run ip_list s :
  ∃ s', filter_ips_by_ping host self ip_list s
        = (Ok (Py.slice_to (max_ips self)
                 (Py.sort_by snd (latency_pass ip_list s))), s').
Proof.
  unfold filter_ips_by_ping, bind.
  destruct (ping_loop_run ip_list [] s) as [s' ->]. by exists s'.
Qed.

Lemma slice_to_prefix {A} n (l : list A) : Py.slice_to n l `prefix_of` l.
Proof. unfold Py.slice_to. destruct (0 <=? n); apply prefix_take. Qed.

Lemma slice_to_length {A} n (l : list A) :
  0 ≤ n → Z.of_nat (length (Py.slice_to n l)) = Z.min n (Z.of_nat (length l)).
Proof.
  intros Hn. unfold Py.slice_to.
  destruct (Z.leb_spec 0 n); [|lia]. rewrite length_take. lia.
Qed.

Lemma latency_pass_candidates ip_list s :
  (latency_pass ip_list s).*1 `sublist_of` ip_list.
Proof.
  unfold latency_pass. revert s.
  induction ip_list as [|ip rest IH]; intros s; simpl; [done|].
  rewrite fmap_app.
  unfold ping_entry at 1.
  destruct (get_ping host self ip s).1 as [ping_time|e]; simpl.
  - destruct (passes ping_time); simpl.
    + apply sublist_skip, IH.
    + apply sublist_cons, IH.
  - apply sublist_cons, IH.
Qed.

Lemma latency_pass_elem ip latency ip_list s :
  (ip, latency) ∈ latency_pass ip_list s ↔
  ∃ st, (ip, st) ∈ ping_calls ip_list s
        ∧ (get_ping host self ip st).1 = Ok latency
        ∧ passes latency = true.
Proof.
  unfold latency_pass. rewrite list_elem_of_bind. split.
  - intros ([ip' st] & Hentry & Hcall). simpl in Hentry.
    unfold ping_entry in Hentry.
    destruct (get_ping host self ip' st).1 as [p|e] eqn:E;
      [|by apply elem_of_nil in Hentry].
    destruct (passes p) eqn:Hp; [|by apply elem_of_nil in Hentry].
    apply list_elem_of_singleton in Hentry as [= -> ->]. eauto.
  - intros (st & Hcall & Hping & Hp). exists (ip, st). split; [|done].
    simpl. unfold ping_entry. rewrite Hping, Hp. by left.
Qed.
End Latency.

Section Ranking.
Context {W : Type} (host : Host W) (self : Config).

Lemma ranked_elem_pass ip_list s entry :
  entry ∈ Py.slice_to (max_ips self)
            (Py.sort_by snd (latency_pass host self ip_list s)) →
  entry ∈ latency_pass host self ip_list s.
Proof.
  intros Hentry. rewrite <- (sort_by_perm snd).
  eapply elem_of_sublist; [exact Hentry | apply slice_to_sublist].
Qed.

Lemma prefix_filter {A} (P : A → Prop) `{∀ a, Decision (P a)} (l1 l2 : list A) :
  l1 `prefix_of` l2 → filter P l1 `prefix_of` filter P l2.
Proof. intros [k ->]. rewrite filter_app. by apply prefix_app_r. Qed.

(** C3 (amended). With [ping3] installed, [get_ping] never raises.  It
    returns the sentinel -1 when the probe raises an error; the measured
    delay in whole milliseconds when the probe reports a positive delay;
    and otherwise (no reply within the timeout, an error reported as
    [False], a delay that is not positive) the wall-clock time elapsed
    since the probe started, in whole milliseconds. *)
Theorem get_ping_outcomes (ip : string) (s : State W) :
  PING_AVAILABLE host = true →
  ∃ latency,
    (get_ping host self ip s).1 = Ok latency
    ∧ match ping3_outcome host self ip s with
      | Raise _ => latency = -1
      | Ok (Delay seconds) =>
          latency = if Py.Qltb 0 seconds
                    then Py.int (float_mul host seconds 1000)
                    else elapsed_ms host self ip s
      | Ok NoReply | Ok PingFalse => latency = elapsed_ms host self ip s
      end.
Proof. apply get_ping_available. Qed.

(** C4 (amended). [filter_ips_by_ping] always returns, and every entry of
    the ranking carries the value [get_ping] returned for that candidate,
    which is greater than 0 and at most [max_ping]; a candidate is never
    ranked by a probe that raised an error (for which [get_ping] returns
    -1). *)
Theorem filter_ips_by_ping_ranked (ip_list : list string) (s : State W) :
  ∃ ranked s',
    filter_ips_by_ping host self ip_list s = (Ok ranked, s')
    ∧ ∀ ip latency, (ip, latency) ∈ ranked →
        0 < latency ≤ max_ping self
        ∧ ∃ st, (ip, st) ∈ ping_calls host self ip_list s
                ∧ (get_ping host self ip st).1 = Ok latency
                ∧ ∀ e, ping3_outcome host self ip st ≠ Raise e.
Proof.
  destruct (filter_ips_by_ping_run host self ip_list s) as [s' Hrun].
  eexists _, s'. split; [exact Hrun|].
  intros ip latency Hin. apply ranked_elem_pass in Hin.
  apply latency_pass_elem in Hin as (st & Hcall & Hping & Hpass).
  unfold passes in Hpass. split; [lia|].
  exists st. split_and!; [done..|].
  intros e He. destruct (PING_AVAILABLE host) eqn:Hav.
  - destruct (get_ping_available host self ip st Hav) as (l & Hl & Hcase).
    rewrite He in Hcase. rewrite Hping in Hl. injection Hl as <-. lia.
  - by rewrite (get_ping_unavailable host self ip st Hav) in Hping.
Qed.

(** C5. For a non-negative [max_ips], [filter_ips_by_ping] returns a
    ranking of exactly min([max_ips], number of candidates that passed the
    latency filter) entries, in ascending order of ping. *)
Theorem filter_ips_by_ping_size (ip_list : list string) (s : State W) :
  0 ≤ max_ips self →
  ∃ ranked s',
    filter_ips_by_ping host self ip_list s = (Ok ranked, s')
    ∧ Z.of_nat (length ranked)
      = Z.min (max_ips self)
              (Z.of_nat (length (latency_pass host self ip_list s)))
    ∧ StronglySorted (λ a b, a.2 ≤ b.2) ranked.
Proof.
  intros Hmax.
  destruct (filter_ips_by_ping_run host self ip_list s) as [s' Hrun].
  eexists _, s'. split; [exact Hrun|]. split.
  - by rewrite slice_to_length, sort_by_length.
  - destruct (slice_to_prefix (max_ips self)
                (Py.sort_by snd (latency_pass host self ip_list s)))
      as [k Hk].
    pose proof (sort_by_sorted snd (latency_pass host self ip_list s)) as Hs.
    rewrite Hk in Hs. by apply StronglySorted_app_1_l in Hs.
Qed.

(** C6 (amended). The sort is stable with respect to the list
    [filter_ips_by_ping] is given: the ranked entries of any one latency
    are the first of the passing candidates of that latency, in the order
    of that list.  In [run_tests] that list is the candidate list after
    [random.shuffle]. *)
Theorem filter_ips_by_ping_stable (ip_list : list string) (s : State W) :
  ∃ ranked s',
    filter_ips_by_ping host self ip_list s = (Ok ranked, s')
    ∧ (∀ k, filter (λ entry, entry.2 = k) ranked
            `prefix_of`
            filter (λ entry, entry.2 = k) (latency_pass host self ip_list s))
    ∧ (latency_pass host self ip_list s).*1 `sublist_of` ip_list.
Proof.
  destruct (filter_ips_by_ping_run host self ip_list s) as [s' Hrun].
  eexists _, s'. split; [exact Hrun|]. split.
  - intros k. rewrite <- (sort_by_stable snd k (latency_pass _ _ _ _)).
    apply prefix_filter, slice_to_prefix.
  - apply latency_pass_candidates.
Qed.
End Ranking.

(** *** The claims about the probe, as first stated *)

Section ProbeClaims.
Context {W : Type} (host : Host W) (self : Config).

(** The probe got no response within the timeout or met an error. *)
Definition no_response (r : Res PingReply) : Prop :=
  match r with
  | Ok (Delay _) => False
  | Ok NoReply | Ok PingFalse | Raise _ => True
  end.

(** "[get_ping] returns the failure sentinel whenever the probe gets no
    response or meets an error." *)
Definition sentinel_when_no_response (ip : string) (s : State W) : Prop :=
  no_response (ping3_outcome host self ip s) →
  (get_ping host self ip s).1 = Ok (-1).

(** "A candidate whose probe measured no positive round-trip time is never
    in the ranking." *)
Definition ranking_excludes_unanswered (ip_list : list string)
    (s : State W) : Prop :=
  ∀ ip st,
    (ip, st) ∈ ping_calls host self ip_list s →
    unanswered (ping3_outcome host self ip st) →
    ip ∉ (ranked_of (filter_ips_by_ping host self ip_list s).1).*1.

(** The first statements of [run_tests], up to the ranking. *)
Definition ranking_stage : M W (list (string * Z)) :=
  ip_list ← try_except
    (ip_list ← read_ips host (ip_file self);
     ask (random_shuffle host ip_list))
    [ (Exception, λ e,
         raise ValueError ("Failed to read 'ip_list': " +:+ exn_msg e)) ];
  logging (Log INFO "Starting ping tests to filter IPs.");;
  filter_ips_by_ping host self ip_list.

(** The rest of [run_tests]. *)
Definition detailed_stage (filtered_ip_ping_results : list (string * Z))
    : M W (list IPPerformanceMetrics) :=
  match filtered_ip_ping_results with
  | [] => raise RuntimeError "No IPs passed the ping filter."
  | _ :: _ =>
      logging (Log INFO "Fetching Cloudflare colo data.");;
      colo_data ← fetch_cloudflare_colo_data host;
      match colo_data with
      | [] =>
          raise RuntimeError
            "Critical error: Failed to fetch Cloudflare colo data."
      | _ :: _ => test_loop host self colo_data filtered_ip_ping_results []
      end
  end.

Lemma run_tests_stages s :
  run_tests host self s = (ranked ← ranking_stage; detailed_stage ranked) s.
Proof.
  unfold run_tests, ranking_stage, detailed_stage, bind.
  destruct (try_except _ _ s) as [[ip_list|e] s1]; [|done].
  destruct (logging _ s1) as [[[]|e] s2]; [|done].
  by destruct (filter_ips_by_ping host self ip_list s2) as [[ranked|e] s3].
Qed.

(** "Candidates of equal latency are ranked in the order the input file
    lists them." *)
Definition ties_in_file_order (s : State W) : Prop :=
  ∀ file_ips k,
    (read_ips host (ip_file self) s).1 = Ok file_ips →
    (filter (λ entry, entry.2 = k) (ranked_of (ranking_stage s).1)).*1
    `sublist_of` file_ips.

(** "Two runs on the same candidate file and the same probe responses
    return the same list." *)
Definition same_output (s1 s2 : State W) : Prop :=
  (run_tests host self s1).1 = (run_tests host self s2).1.
End ProbeClaims.

(** The tester of the scenario with [min_download_speed = nan], a value
    [getfloat] reads from the configuration. *)
Definition nan_tester : Config := {|
  max_ips := 10;
  max_ping := 100;
  test_size := 1024;
  min_download_speed := Py.NaN;
  min_upload_speed := Py.Finite 2;
  regions := ["Europe"; "Asia_Pacific"];
  output_file := "ip_performance.csv";
  ip_file := "ips.txt";
  openssl_available := true;
|}.

(** C1, as first stated, fails: with a NaN threshold the test
    [download_speed < min_download_speed] is false for every speed, so the
    run of the scenario returns records, and for none of them
    [download_speed >= min_download_speed] holds. *)
Lemma nan_threshold_not_met :
  ¬ Forall (meets_thresholds nan_tester)
      (returned (run_tests Scenario.host nan_tester
                   (Scenario.start false None Scenario.all_ips)).1).
Proof.
  intros H.
  remember (returned (run_tests Scenario.host nan_tester
                        (Scenario.start false None Scenario.all_ips)).1)
    as results eqn:E.
  vm_compute in E. subst results.
  inversion H as [|m l (_ & _ & Hdown & _) _]. discriminate Hdown.
Qed.

(** C3, as first stated, fails: the probe of [9.9.9.9] times out, and
    [get_ping] returns 100, the elapsed 100.4 ms, not the sentinel. *)
Lemma get_ping_timeout_not_sentinel :
  ¬ sentinel_when_no_response Scenario.host (Scenario.tester 10) "9.9.9.9"
      (Scenario.start false None Scenario.all_ips).
Proof.
  intros H.
  assert ((get_ping Scenario.host (Scenario.tester 10) "9.9.9.9"
             (Scenario.start false None Scenario.all_ips)).1 = Ok 100)
    as Hrun by (vm_compute; reflexivity).
  rewrite H in Hrun; [discriminate|]. vm_compute. exact I.
Qed.

Lemma get_ping_outcomes_witness :
  PING_AVAILABLE Scenario.host = true
  ∧ ∃ latency,
      (get_ping Scenario.host (Scenario.tester 10) "10.0.0.1"
         (Scenario.start false None Scenario.all_ips)).1 = Ok latency
      ∧ match ping3_outcome Scenario.host (Scenario.tester 10) "10.0.0.1"
                (Scenario.start false None Scenario.all_ips) with
        | Raise _ => latency = -1
        | Ok (Delay seconds) =>
            latency = if Py.Qltb 0 seconds
                      then Py.int (float_mul Scenario.host seconds 1000)
                      else elapsed_ms Scenario.host (Scenario.tester 10)
                             "10.0.0.1"
                             (Scenario.start false None Scenario.all_ips)
        | Ok NoReply | Ok PingFalse =>
            latency = elapsed_ms Scenario.host (Scenario.tester 10)
                        "10.0.0.1"
                        (Scenario.start false None Scenario.all_ips)
        end.
Proof.
  split; [reflexivity|].
  apply (get_ping_outcomes Scenario.host (Scenario.tester 10) "10.0.0.1"
           (Scenario.start false None Scenario.all_ips)).
  reflexivity.
Defined.

Example get_ping_cases :
  let run ip := (get_ping Scenario.host (Scenario.tester 10) ip
                   (Scenario.start false None Scenario.all_ips)).1 in
  run "8.8.8.8" = Ok 10 ∧ run "9.9.9.9" = Ok 100 ∧ run "10.0.0.1" = Ok (-1).
Proof. vm_compute. done. Qed.

(** C4, as first stated, fails: the probe of [9.9.9.9] times out, yet the
    candidate is ranked, with latency 100. *)
Lemma timed_out_candidate_ranked :
  ¬ ranking_excludes_unanswered Scenario.host (Scenario.tester 10)
      ["9.9.9.9"] (Scenario.start false None Scenario.all_ips).
Proof.
  intros H.
  apply (H "9.9.9.9" (Scenario.start false None Scenario.all_ips)).
  - simpl. left.
  - vm_compute. exact I.
  - assert ((ranked_of (filter_ips_by_ping Scenario.host (Scenario.tester 10)
               ["9.9.9.9"] (Scenario.start false None Scenario.all_ips)).1).*1
            = ["9.9.9.9"]) as -> by (vm_compute; reflexivity).
    left.
Qed.

Lemma filter_ips_by_ping_size_witness :
  0 ≤ max_ips (Scenario.tester 2)
  ∧ ∃ ranked s',
      filter_ips_by_ping Scenario.host (Scenario.tester 2)
        ["1.1.1.1"; "8.8.8.8"; "9.9.9.9"; "1.0.0.1"; "10.0.0.1"]
        (Scenario.start false None Scenario.all_ips) = (Ok ranked, s')
      ∧ Z.of_nat (length ranked)
        = Z.min (max_ips (Scenario.tester 2))
            (Z.of_nat (length
               (latency_pass Scenario.host (Scenario.tester 2)
                  ["1.1.1.1"; "8.8.8.8"; "9.9.9.9"; "1.0.0.1"; "10.0.0.1"]
                  (Scenario.start false None Scenario.all_ips))))
      ∧ StronglySorted (λ a b, a.2 ≤ b.2) ranked.
Proof.
  split; [simpl; lia|].
  apply (filter_ips_by_ping_size Scenario.host (Scenario.tester 2)
           ["1.1.1.1"; "8.8.8.8"; "9.9.9.9"; "1.0.0.1"; "10.0.0.1"]
           (Scenario.start false None Scenario.all_ips)).
  simpl. lia.
Defined.

Example filter_ips_by_ping_top2 :
  (filter_ips_by_ping Scenario.host (Scenario.tester 2)
     ["1.1.1.1"; "8.8.8.8"; "9.9.9.9"; "1.0.0.1"; "10.0.0.1"]
     (Scenario.start false None Scenario.all_ips)).1
  = Ok [("8.8.8.8", 10); ("1.1.1.1", 30)]
  ∧ latency_pass Scenario.host (Scenario.tester 2)
      ["1.1.1.1"; "8.8.8.8"; "9.9.9.9"; "1.0.0.1"; "10.0.0.1"]
      (Scenario.start false None Scenario.all_ips)
    = [("1.1.1.1", 30); ("8.8.8.8", 10); ("9.9.9.9", 100); ("1.0.0.1", 30)].
Proof. vm_compute. done. Qed.

(** C6, as first stated, fails: the file lists [1.1.1.1] before [1.0.0.1],
    both answer in 30 ms, the shuffle reverses the list, and the ranking
    has [1.0.0.1] first. *)
Lemma ranking_not_in_file_order :
  ¬ ties_in_file_order Scenario.host (Scenario.tester 10)
      (Scenario.start true None ["1.1.1.1"; "1.0.0.1"]).
Proof.
  intros H. specialize (H ["1.1.1.1"; "1.0.0.1"] 30).
  assert ((filter (λ entry : string * Z, entry.2 = 30)
             (ranked_of (ranking_stage Scenario.host (Scenario.tester 10)
                (Scenario.start true None ["1.1.1.1"; "1.0.0.1"])).1)).*1
          = ["1.0.0.1"; "1.1.1.1"]) as Hranked by (vm_compute; reflexivity).
  rewrite Hranked in H.
  assert (["1.0.0.1"; "1.1.1.1"] `sublist_of` ["1.1.1.1"; "1.0.0.1"]) as Hsub
    by (apply H; vm_compute; reflexivity).
  apply sublist_cons_r in Hsub as [Hsub | (l' & Heq & _)].
  - apply sublist_length in Hsub. simpl in Hsub. lia.
  - discriminate.
Qed.

(** C2, as first stated, fails: with [max_ips = 1] and the two addresses
    that both answer in 30 ms, the run whose shuffle keeps the order
    returns [1.1.1.1] and the run whose shuffle reverses it returns
    [1.0.0.1]; the file and the probe responses are the same. *)
Lemma run_tests_depends_on_shuffle :
  ¬ same_output Scenario.host (Scenario.tester 1)
      (Scenario.start false None ["1.1.1.1"; "1.0.0.1"])
      (Scenario.start true None ["1.1.1.1"; "1.0.0.1"]).
Proof. unfold same_output. vm_compute. discriminate. Qed.

Example run_tests_two_shuffles :
  ip <$> returned
           (run_tests Scenario.host (Scenario.tester 1)
              (Scenario.start false None ["1.1.1.1"; "1.0.0.1"])).1
  = ["1.1.1.1"]
  ∧ ip <$> returned
             (run_tests Scenario.host (Scenario.tester 1)
                (Scenario.start true None ["1.1.1.1"; "1.0.0.1"])).1
    = ["1.0.0.1"].
Proof. vm_compute. done. Qed.

(** ** Reading the candidate file *)

Section ReadIps.
Context {W : Type} (host : Host W).

(** A line that yields no candidate: blank, or not an address. *)
Definition invalid_line (line : string) : Prop :=
  Py.strip line = "" ∨ ipaddress_ip_address host (Py.strip line) = false.

(** Reading [path] meets no I/O error. *)
Definition readable (path : string) : Prop :=
  ∀ w, (io_fault host (OpOpenRead path) w).1 = None
       ∧ (io_fault host (OpReadLine path) w).1 = None.

Lemma io_check_ok op s :
  (io_fault host op (world s)).1 = None →
  ∃ s', io_check host op s = (Ok (), s') ∧ disk s' = disk s.
Proof.
  unfold io_check, bind, ask. destruct (io_fault host op (world s)) as [f w].
  simpl. intros ->. by eexists.
Qed.

Lemma read_ips_lines_invalid path file s :
  readable path → Forall invalid_line file →
  ∃ s', read_ips_lines host path file [] s = (Ok [], s').
Proof.
  intros Hread Hfile. revert s.
  induction Hfile as [|line rest Hline _ IH]; intros s; simpl.
  - by eexists.
  - unfold bind at 1.
    destruct (io_check_ok (OpReadLine path) s) as (s1 & -> & _);
      [apply Hread|].
    unfold bind at 1. case_bool_decide as Hblank; simpl.
    + apply IH.
    + destruct Hline as [?|Hline]; [done|].
      unfold validate_ip. rewrite Hline. simpl. apply IH.
Qed.


(** Whatever happens, [read_ips] returns a non-empty list or raises
    [FileNotFoundError]. *)
Lemma read_ips_raises_FileNotFoundError path s :
  match (read_ips host path s).1 with
  | Ok ips => ips ≠ []
  | Raise e => exn_cls e = FileNotFoundError
  end.
Proof.
  unfold read_ips, try_except.
  destruct (bind _ _ s) as [[ips|e] s1] eqn:E.
  - eapply (returns_bind _ _ (λ _, True) (λ l, l ≠ [])); [done| |exact E].
    intros ips' _. cbn beta. case_bool_decide; [apply returns_raise|].
    by apply returns_ret.
  - unfold dispatch.
    destruct (issubclass (exn_cls e) FileNotFoundError); reflexivity.
Qed.
End ReadIps.

Lemma mock_readable (sc : Mock.Script) (path : string) :
  readable (Mock.host sc) path.
Proof. intros w. simpl. unfold Mock.fault. by destruct (Mock.write_budget w) as [[]|]. Qed.


(** ** Running without [ping3] *)

Definition capability_error : Exn :=
  mkExn RuntimeError
    "Ping functionality unavailable. Install the ping3 library.".

(** The warning the loop of [filter_ips_by_ping] logs for a candidate
    whose [get_ping] raised the capability error. *)
Definition capability_warning (ip : string) : LogRecord :=
  Log WARNING ("Ping test failed for " +:+ ip +:+ ": " +:+
               exn_msg capability_error).

Definition add_logs {W} (s : State W) (records : list LogRecord) : State W :=
  mkState (world s) (logs s ++ records) (stdout s) (disk s).

(** A record logged by the [except] clause of [filter_ips_by_ping]. *)
Definition is_candidate_failure (r : LogRecord) : bool :=
  match r with
  | Log WARNING msg => Py.startswith "Ping test failed for " msg
  | _ => false
  end.

Definition per_candidate_failures (records : list LogRecord)
    : list LogRecord :=
  filter (λ r, is_candidate_failure r) records.

(** "Without [ping3] the run fails with the capability error, and the
    error is not handled per candidate." *)
Definition capability_fatal_at_start {W} (outcome : Res () * State W)
    : Prop :=
  outcome.1 = Raise capability_error
  ∧ per_candidate_failures (logs outcome.2) = [].

Section Capability.
Context {W : Type} (host : Host W) (self : Config).
Hypothesis no_ping3 : PING_AVAILABLE host = false.

Lemma add_logs_nil (s : State W) : add_logs s [] = s.
Proof. destruct s. unfold add_logs. simpl. by rewrite app_nil_r. Qed.

Lemma add_logs_cons (s : State W) r records :
  add_logs (add_logs s [r]) records = add_logs s (r :: records).
Proof. unfold add_logs. simpl. by rewrite <- app_assoc. Qed.

Lemma ping_iteration_unavailable ip acc s :
  ping_iteration host self ip acc s
  = (Ok acc, add_logs s [capability_warning ip]).
Proof.
  unfold ping_iteration, try_except, bind.
  by rewrite (get_ping_unavailable host self ip s no_ping3).
Qed.

Lemma ping_loop_unavailable ip_list acc s :
  ping_loop host self ip_list acc s
  = (Ok acc, add_logs s (capability_warning <$> ip_list)).
Proof.
  revert s. induction ip_list as [|ip rest IH]; intros s; simpl.
  - by rewrite add_logs_nil.
  - unfold bind. rewrite ping_iteration_unavailable, IH.
    by rewrite add_logs_cons.
Qed.

Lemma filter_ips_by_ping_unavailable ip_list s :
  filter_ips_by_ping host self ip_list s
  = (Ok [], add_logs s (capability_warning <$> ip_list)).
Proof.
  unfold filter_ips_by_ping, bind. rewrite ping_loop_unavailable.
  unfold ret, Py.slice_to. simpl.
  destruct (0 <=? max_ips self); by rewrite take_nil.
Qed.

(** C7 (amended). Without [ping3], a warning is logged once when the
    module is loaded; every call of [get_ping] raises the capability
    error; [filter_ips_by_ping] catches it for each candidate, logs one
    warning per candidate and returns an empty ranking; and [run_tests]
    then fails, with the "No IPs passed the ping filter." error (or with
    the [ValueError] of a candidate file that could not be read), not
    with the capability error. *)
Theorem ping_unavailable_handled_per_candidate :
  (∀ s, import_ping3 host s
        = (Ok (), add_logs s
             [Log WARNING
                "ping3 module not found. Ping functionality will be limited."]))
  ∧ (∀ ip s, get_ping host self ip s = (Raise capability_error, s))
  ∧ (∀ ip_list s,
       filter_ips_by_ping host self ip_list s
       = (Ok [], add_logs s (capability_warning <$> ip_list)))
  ∧ (∀ s, ∃ e s',
       run_tests host self s = (Raise e, s')
       ∧ (exn_cls e = ValueError
          ∨ e = mkExn RuntimeError "No IPs passed the ping filter.")).
Proof.
  split_and!.
  - intros s. unfold import_ping3. by rewrite no_ping3.
  - intros ip s. by apply get_ping_unavailable.
  - apply filter_ips_by_ping_unavailable.
  - intros s. unfold run_tests.
    set (reading := try_except _ _). unfold bind.
    destruct (reading s) as [[ip_list|e] s1] eqn:E.
    + simpl. rewrite filter_ips_by_ping_unavailable. eauto.
    + exists e, s1. split; [done|]. left.
      unfold reading, try_except in E.
      destruct (bind _ _ s) as [[?|e'] s']; [done|].
      simpl in E. by injection E as <- _.
Qed.
End Capability.

(** C7, as first stated, fails: without [ping3] the run of the scenario
    ends with "No IPs passed the ping filter.", after one warning for each
    of the five candidates. *)
Lemma capability_error_not_fatal :
  ¬ capability_fatal_at_start
      (script (Mock.host (Scenario.script false 10))
         (Scenario.start false None Scenario.all_ips)).
Proof. intros [Hraise _]. vm_compute in Hraise. discriminate. Qed.

Example run_without_ping3 :
  let outcome := script (Mock.host (Scenario.script false 10))
                   (Scenario.start false None Scenario.all_ips) in
  outcome.1 = Raise (mkExn RuntimeError "No IPs passed the ping filter.")
  ∧ per_candidate_failures (logs outcome.2)
    = capability_warning <$>
        ["1.1.1.1"; "8.8.8.8"; "9.9.9.9"; "1.0.0.1"; "10.0.0.1"].
Proof. vm_compute. done. Qed.

Lemma ping_unavailable_handled_per_candidate_witness :
  PING_AVAILABLE (Mock.host (Scenario.script false 10)) = false
  ∧ ∃ e s',
      run_tests (Mock.host (Scenario.script false 10)) (Scenario.tester 10)
        (Scenario.start false None Scenario.all_ips) = (Raise e, s')
      ∧ (exn_cls e = ValueError
         ∨ e = mkExn RuntimeError "No IPs passed the ping filter.").
Proof.
  split; [reflexivity|].
  apply (ping_unavailable_handled_per_candidate
           (Mock.host (Scenario.script false 10)) (Scenario.tester 10)).
  reflexivity.
Defined.

(** ** The output file *)

Section Frame.
Context {W : Type} (host : Host W).

Lemma unchanged_io_check op : unchanged_disk (io_check host op).
Proof. unfold io_check. frame. Qed.
Hint Resolve unchanged_io_check : frame.

Lemma unchanged_open_read path : unchanged_disk (open_read host path).
Proof. unfold open_read. frame. Qed.
Hint Resolve unchanged_open_read : frame.

Lemma unchanged_validate_ip ip : unchanged_disk (validate_ip host ip).
Proof. unfold validate_ip. frame. Qed.
Hint Resolve unchanged_validate_ip : frame.

Lemma unchanged_read_ips_lines path file ips :
  unchanged_disk (read_ips_lines host path file ips).
Proof. revert ips. induction file; intros ips; simpl; frame. Qed.
Hint Resolve unchanged_read_ips_lines : frame.

Lemma unchanged_read_ips path : unchanged_disk (read_ips host path).
Proof. unfold read_ips. frame. Qed.
Hint Resolve unchanged_read_ips : frame.

Lemma unchanged_raise_for_status response :
  unchanged_disk (raise_for_status (W:=W) response).
Proof. unfold raise_for_status. frame. Qed.
Hint Resolve unchanged_raise_for_status : frame.

Lemma unchanged_fetch : unchanged_disk (fetch_cloudflare_colo_data host).
Proof. unfold fetch_cloudflare_colo_data. frame. Qed.
Hint Resolve unchanged_fetch : frame.

Lemma unchanged_index1 l : unchanged_disk (index1 (W:=W) l).
Proof. unfold index1. frame. Qed.
Hint Resolve unchanged_index1 : frame.

Lemma unchanged_find_colo lines : unchanged_disk (find_colo (W:=W) lines).
Proof. induction lines; simpl; frame. Qed.
Hint Resolve unchanged_find_colo : frame.

Context (self : Config).

Lemma unchanged_get_colo_from_ip ip :
  unchanged_disk (get_colo_from_ip host self ip).
Proof. unfold get_colo_from_ip. frame. Qed.
Hint Resolve unchanged_get_colo_from_ip : frame.

Lemma unchanged_get_ping ip : unchanged_disk (get_ping host self ip).
Proof. unfold get_ping. frame. Qed.
Hint Resolve unchanged_get_ping : frame.

Lemma unchanged_mbps size seconds : unchanged_disk (mbps host size seconds).
Proof. unfold mbps. frame. Qed.
Hint Resolve unchanged_mbps : frame.

Lemma unchanged_get_download_speed ip :
  unchanged_disk (get_download_speed host self ip).
Proof. unfold get_download_speed. frame. Qed.
Hint Resolve unchanged_get_download_speed : frame.

Lemma unchanged_get_upload_speed ip :
  unchanged_disk (get_upload_speed host self ip).
Proof. unfold get_upload_speed. frame. Qed.
Hint Resolve unchanged_get_upload_speed : frame.

Lemma unchanged_ping_loop ip_list acc :
  unchanged_disk (ping_loop host self ip_list acc).
Proof.
  revert acc. induction ip_list; intros acc; simpl; [frame|].
  apply unchanged_bind; [unfold ping_iteration; frame | done].
Qed.
Hint Resolve unchanged_ping_loop : frame.

Lemma unchanged_filter_ips_by_ping ip_list :
  unchanged_disk (filter_ips_by_ping host self ip_list).
Proof. unfold filter_ips_by_ping. frame. Qed.
Hint Resolve unchanged_filter_ips_by_ping : frame.

Lemma unchanged_test_loop colo_data ranked acc :
  unchanged_disk (test_loop host self colo_data ranked acc).
Proof.
  revert acc. induction ranked as [|[ip ping] rest IH]; intros acc; simpl;
    [frame|].
  apply unchanged_bind; [unfold test_iteration; frame | done].
Qed.
Hint Resolve unchanged_test_loop : frame.

Lemma unchanged_run_tests : unchanged_disk (run_tests host self).
Proof. unfold run_tests. frame. Qed.
End Frame.

Section ExportFile.
Context {W : Type} (host : Host W) (self : Config).

(** [outcome m s Qok Qraise]: run in [s], [m] returns a value and a state
    that satisfy [Qok], or raises an exception in a state that satisfy
    [Qraise]. *)
Definition outcome {A} (m : M W A) (s : State W)
    (Qok : A → State W → Prop) (Qraise : Exn → State W → Prop) : Prop :=
  match m s with
  | (Ok a, s') => Qok a s'
  | (Raise e, s') => Qraise e s'
  end.

Lemma outcome_bind {A B} (m : M W A) (k : A → M W B) s Qok Qraise :
  outcome m s (λ a s', outcome (k a) s' Qok Qraise) Qraise →
  outcome (bind m k) s Qok Qraise.
Proof. unfold outcome, bind. by destruct (m s) as [[a|e] s']. Qed.

Lemma outcome_try {A} (body : M W A) clauses s Qok Qraise :
  outcome body s Qok (λ e s', outcome (dispatch clauses e) s' Qok Qraise) →
  outcome (try_except body clauses) s Qok Qraise.
Proof. unfold outcome, try_except. by destruct (body s) as [[a|e] s']. Qed.

Lemma outcome_weaken {A} (m : M W A) s (Qok Qok' : A → State W → Prop)
    (Qraise Qraise' : Exn → State W → Prop) :
  outcome m s Qok Qraise →
  (∀ a s', Qok a s' → Qok' a s') →
  (∀ e s', Qraise e s' → Qraise' e s') →
  outcome m s Qok' Qraise'.
Proof. unfold outcome. destruct (m s) as [[a|e] s']; auto. Qed.

Lemma outcome_io_check op s :
  outcome (io_check host op) s
    (λ _ s', disk s' = disk s) (λ _ s', disk s' = disk s).
Proof.
  unfold outcome, io_check, bind, ask.
  destruct (io_fault host op (world s)) as [[e|] w]; done.
Qed.

Lemma outcome_writerow path row s :
  outcome (writerow host path row) s
    (λ _ s', disk s' = alter (λ lines, lines ++ [Csv.line row]) path (disk s))
    (λ _ s', disk s' = disk s).
Proof.
  unfold writerow. apply outcome_bind.
  eapply outcome_weaken; [apply outcome_io_check| |done].
  intros [] s1 Hs1. unfold outcome, bind, get_disk, set_disk. simpl.
  by rewrite Hs1.
Qed.

(** The header row of the output file. *)
Definition header_row : list string :=
  ["IP"; "Region"; "Ping (ms)"; "Upload (Mbps)"; "Download (Mbps)"].

(** The lines of the output file for the given results. *)
Definition result_lines (results : list IPPerformanceMetrics) : list string :=
  (λ result, Csv.line (to_csv_row result)) <$> results.

Definition output_lines (results : list IPPerformanceMetrics) : list string :=
  Csv.line header_row :: result_lines results.

(** The output file holds the first [k] of the given lines; every other
    file is as in [before]. *)
Definition holds_first (k : nat) (lines : list string)
    (before after : gmap string (list string)) : Prop :=
  after = <[output_file self := take k lines]> before.

Lemma outcome_write_results results s before written :
  disk s = <[output_file self := written]> before →
  outcome (write_results host self results) s
    (λ _ s', disk s'
             = <[output_file self := written ++ result_lines results]> before)
    (λ _ s', ∃ k, (k < length results)%nat
                  ∧ disk s' = <[output_file self :=
                                  written ++ take k (result_lines results)]>
                                before).
Proof.
  revert s written.
  induction results as [|result rest IH]; intros s written Hs; simpl.
  - unfold outcome, ret. simpl. by rewrite app_nil_r.
  - apply outcome_bind.
    eapply outcome_weaken; [apply outcome_writerow|..].
    + intros [] s1 Hs1. simpl.
      rewrite Hs, alter_insert_eq in Hs1.
      eapply outcome_weaken; [apply (IH _ _ Hs1)|..].
      * intros _ s2 ->. by rewrite <- app_assoc.
      * intros _ s2 (k & Hk & ->). exists (S k). split; [lia|].
        simpl. by rewrite <- app_assoc.
    + intros e s1 Hs1. simpl in *. exists 0%nat. split; [lia|].
      by rewrite Hs1, Hs, take_0, app_nil_r.
Qed.

Lemma outcome_export_results results s :
  outcome (export_results host self results) s
    (λ _ s', holds_first (length (output_lines results))
               (output_lines results) (disk s) (disk s'))
    (λ e s', exn_cls e = OSError
             ∧ (disk s' = disk s
                ∨ ∃ k, (k ≤ length (output_lines results))%nat
                       ∧ holds_first k (output_lines results)
                           (disk s) (disk s'))).
Proof.
  unfold export_results. apply outcome_try, outcome_bind.
  unfold with_output_file. apply outcome_bind.
  unfold open_write at 1. apply outcome_bind.
  eapply outcome_weaken; [apply outcome_io_check|..]; simpl.
  2: { intros e s1 Hs1. unfold outcome, raise. simpl. auto. }
  intros [] s1 Hs1. unfold outcome at 1, bind, get_disk, set_disk. simpl.
  set (s2 := mkState _ _ _ _).
  assert (disk s2 = <[output_file self := []]> (disk s)) as Hs2
    by (simpl; by rewrite Hs1).
  clearbody s2.
  assert (∀ e s', (∃ k, (k ≤ length (output_lines results))%nat
                     ∧ holds_first k (output_lines results) (disk s) (disk s')) →
          outcome (dispatch
            [(Exception, λ e,
                raise (W:=W) (A:=()) OSError
                  ("Critical error: Failed to export results: " +:+ exn_msg e))]
            e) s'
            (λ _ s', holds_first (length (output_lines results))
                       (output_lines results) (disk s) (disk s'))
            (λ e s', exn_cls e = OSError
                     ∧ (disk s' = disk s
                        ∨ ∃ k, (k ≤ length (output_lines results))%nat
                               ∧ holds_first k (output_lines results)
                                   (disk s) (disk s')))) as Hfail.
  { intros e s' Hk. unfold outcome, raise. simpl. auto. }
  apply outcome_bind, outcome_try, outcome_bind.
  eapply outcome_weaken; [apply outcome_writerow|..]; simpl.
  - intros [] s3 Hs3. rewrite Hs2, alter_insert_eq in Hs3. simpl in Hs3.
    eapply outcome_weaken; [apply (outcome_write_results _ _ _ _ Hs3)|..];
      simpl.
    + intros [] s4 Hs4.
      eapply outcome_weaken; [apply outcome_io_check|..]; simpl.
      * intros [] s5 Hs5. unfold outcome, logging. simpl.
        unfold holds_first. rewrite Hs5, Hs4.
        unfold output_lines. simpl. by rewrite firstn_all.
      * intros e s5 Hs5. apply Hfail.
        exists (length (output_lines results)). split; [done|].
        unfold holds_first. rewrite Hs5, Hs4.
        unfold output_lines. simpl. by rewrite firstn_all.
    + intros e s4 (k & Hk & Hs4).
      apply outcome_bind.
      eapply outcome_weaken; [apply outcome_io_check|..]; simpl.
      * intros [] s5 Hs5. unfold outcome at 1, reraise. apply Hfail.
        exists (S k). unfold output_lines, result_lines in *. simpl.
        rewrite length_fmap. split; [lia|].
        unfold holds_first. by rewrite Hs5, Hs4.
      * intros e' s5 Hs5. apply Hfail.
        exists (S k). unfold output_lines, result_lines in *. simpl.
        rewrite length_fmap. split; [lia|].
        unfold holds_first. by rewrite Hs5, Hs4.
  - intros e s3 Hs3.
    apply outcome_bind.
    eapply outcome_weaken; [apply outcome_io_check|..]; simpl.
    + intros [] s5 Hs5. unfold outcome at 1, reraise. apply Hfail.
      exists 0%nat. split; [lia|].
      unfold holds_first. by rewrite Hs5, Hs3, Hs2, take_0.
    + intros e' s5 Hs5. apply Hfail.
      exists 0%nat. split; [lia|].
      unfold holds_first. by rewrite Hs5, Hs3, Hs2, take_0.
Qed.
End ExportFile.

Section Main.
Context {W : Type} (host : Host W).

Lemma unchanged_print p : unchanged_disk (print (W:=W) p).
Proof. done. Qed.

Lemma unchanged_print_results results :
  unchanged_disk (print_results (W:=W) results).
Proof.
  induction results; simpl; [done|].
  apply unchanged_bind; [apply unchanged_print | done].
Qed.

End Main.

(** "When the export fails, the output file does not hold a part of the
    result rows." *)
Definition export_all_or_nothing {W} (outcome : Res () * State W)
    (output_file : string) (results : list IPPerformanceMetrics) : Prop :=
  ∀ e k,
    outcome.1 = Raise e →
    (0 < k < length results)%nat →
    disk outcome.2 !! output_file
    ≠ Some (Csv.line header_row :: take k (result_lines results)).


Example export_partial_file :
  let outcome :=
    script Scenario.host
      (Scenario.start false (Some 2%nat) Scenario.all_ips) in
  outcome.1
  = Raise (mkExn OSError
      "Critical error: Failed to export results: [Errno 28] No space left on device")
  ∧ disk outcome.2 !! "ip_performance.csv"
    = Some [ "IP,Region,Ping (ms),Upload (Mbps),Download (Mbps)" +:+
               String "013" Scenario.nl;
             "1.1.1.1,Europe,30,4.19,8.39" +:+ String "013" Scenario.nl ].
Proof. vm_compute. done. Qed.

Example no_file_without_ranking :
  let outcome :=
    script Scenario.host (Scenario.start false None ["10.0.0.1"]) in
  outcome.1 = Raise (mkExn RuntimeError "No IPs passed the ping filter.")
  ∧ disk outcome.2 !! "ip_performance.csv" = None.
Proof. vm_compute. done. Qed.

(** ** Repeating a run *)

Section Repeat.
Context {W : Type} (host : Host W) (self : Config).

(** The result of [m] does not depend on the state it runs in. *)
Definition frozen {A} (m : M W A) : Prop :=
  ∀ s1 s2, (m s1).1 = (m s2).1.

(** Every probe answer is fixed. *)
Record frozen_responses : Prop := {
  frozen_ping : ∀ ip, frozen (get_ping host self ip);
  frozen_table : frozen (fetch_cloudflare_colo_data host);
  frozen_colo : ∀ ip, frozen (get_colo_from_ip host self ip);
  frozen_download : ∀ ip, frozen (get_download_speed host self ip);
  frozen_upload : ∀ ip, frozen (get_upload_speed host self ip);
}.

(** The candidate list after [random.shuffle], in the run from [s]. *)
Definition shuffled (s : State W) : list string :=
  match read_ips host (ip_file self) s with
  | (Ok ip_list, s') => (random_shuffle host ip_list (world s')).1
  | (Raise _, _) => []
  end.

(** No two different candidates pass the latency filter with the same
    ping. *)
Definition no_ties (s : State W) (ip_list : list string) : Prop :=
  ∀ a b latency,
    a ∈ ip_list → b ∈ ip_list →
    (get_ping host self a s).1 = Ok latency →
    (get_ping host self b s).1 = Ok latency →
    passes self latency = true →
    a = b.

(** What the detailed tests add to the output for one ranked candidate,
    given the answers of the three probes. *)
Definition detail_entry (colo_data : list (gmap string (option string)))
    (ip : string) (ping : Z) (colo : Res (option string))
    (download upload : Res Q) : list IPPerformanceMetrics :=
  match colo with
  | Ok None | Ok (Some EmptyString) | Raise _ => []
  | Ok (Some colo) =>
      match get_region_from_colo colo colo_data with
      | Raise _ => []
      | Ok region =>
          if bool_decide (region ∉ regions self) then []
          else
            match download, upload with
            | Ok download_speed, Ok upload_speed =>
                if Py.lt_float download_speed (min_download_speed self)
                   || Py.lt_float upload_speed (min_upload_speed self)
                then []
                else [ {| ip := ip; region := region; ping := ping;
                          upload_speed := upload_speed;
                          download_speed := download_speed |} ]
            | _, _ => []
            end
      end
  end.

Lemma test_iteration_run colo_data ip ping acc s :
  ∃ s1 s2 s3 s',
    test_iteration host self colo_data ip ping acc s
    = (Ok (acc ++ detail_entry colo_data ip ping
                    (get_colo_from_ip host self ip s1).1
                    (get_download_speed host self ip s2).1
                    (get_upload_speed host self ip s3).1), s').
Proof.
  unfold test_iteration, bind at 1. simpl.
  set (s1 := mkState _ _ _ _). exists s1.
  unfold try_except, bind at 1, detail_entry.
  destruct (get_colo_from_ip host self ip s1) as [[colo|e] s2]; simpl.
  2: { exists s, s. eexists. by rewrite app_nil_r. }
  destruct colo as [[|c colo]|]; simpl;
    [exists s, s; eexists; by rewrite app_nil_r| |
     exists s, s; eexists; by rewrite app_nil_r].
  unfold bind at 1, of_res.
  destruct (get_region_from_colo _ colo_data) as [region|e]; simpl;
    [|exists s, s; eexists; by rewrite app_nil_r].
  case_bool_decide; simpl;
    [exists s, s; eexists; by rewrite app_nil_r|].
  exists s2. unfold bind at 1.
  destruct (get_download_speed host self ip s2) as [[download|e] s3]; simpl.
  2: { exists s. eexists. by rewrite app_nil_r. }
  exists s3. unfold bind at 1.
  destruct (get_upload_speed host self ip s3) as [[upload|e] s4]; simpl.
  2: { eexists. by rewrite app_nil_r. }
  destruct (_ || _); simpl; eexists; by rewrite ?app_nil_r.
Qed.

Context (Hfrozen : frozen_responses).

(** One state in which every probe is asked, to name its fixed answer. *)
Context (s0 : State W).

Definition fixed_entry (ip : string) : list (string * Z) :=
  ping_entry self ip (get_ping host self ip s0).1.

Definition fixed_detail (colo_data : list (gmap string (option string)))
    (entry : string * Z) : list IPPerformanceMetrics :=
  detail_entry colo_data entry.1 entry.2
    (get_colo_from_ip host self entry.1 s0).1
    (get_download_speed host self entry.1 s0).1
    (get_upload_speed host self entry.1 s0).1.

(** The output as a function of the shuffled candidate list. *)
Definition fixed_output (ip_list : list string)
    : Res (list IPPerformanceMetrics) :=
  match Py.slice_to (max_ips self)
          (Py.sort_by snd (ip_list ≫= fixed_entry)) with
  | [] => Raise (mkExn RuntimeError "No IPs passed the ping filter.")
  | ranked =>
      match (fetch_cloudflare_colo_data host s0).1 with
      | Ok [] =>
          Raise (mkExn RuntimeError
                   "Critical error: Failed to fetch Cloudflare colo data.")
      | Ok colo_data => Ok (ranked ≫= fixed_detail colo_data)
      | Raise e => Raise e
      end
  end.

Lemma latency_pass_frozen ip_list s :
  latency_pass host self ip_list s = ip_list ≫= fixed_entry.
Proof.
  unfold latency_pass. revert s.
  induction ip_list as [|ip rest IH]; intros s; [done|].
  cbn [ping_calls]. rewrite !bind_cons. cbn [fst snd]. f_equal; [|apply IH].
  unfold fixed_entry. by rewrite (frozen_ping Hfrozen ip s s0).
Qed.

Lemma test_loop_frozen colo_data ranked acc s :
  ∃ s', test_loop host self colo_data ranked acc s
        = (Ok (acc ++ (ranked ≫= fixed_detail colo_data)), s').
Proof.
  revert acc s. induction ranked as [|[ip ping] rest IH]; intros acc s.
  - exists s. simpl. by rewrite app_nil_r.
  - cbn [test_loop]. unfold bind at 1.
    destruct (test_iteration_run colo_data ip ping acc s)
      as (s1 & s2 & s3 & s' & ->).
    destruct (IH (acc ++ detail_entry colo_data ip ping
                           (get_colo_from_ip host self ip s1).1
                           (get_download_speed host self ip s2).1
                           (get_upload_speed host self ip s3).1) s')
      as [s'' ->].
    exists s''. rewrite bind_cons, <- app_assoc. unfold fixed_detail at 2.
    simpl.
    by rewrite (frozen_colo Hfrozen ip s1 s0),
      (frozen_download Hfrozen ip s2 s0), (frozen_upload Hfrozen ip s3 s0).
Qed.

Lemma run_tests_frozen s :
  (run_tests host self s).1
  = match (read_ips host (ip_file self) s).1 with
    | Ok _ => fixed_output (shuffled s)
    | Raise e =>
        Raise (mkExn ValueError ("Failed to read 'ip_list': " +:+ exn_msg e))
    end.
Proof.
  unfold run_tests, shuffled, fixed_output.
  unfold bind, try_except, ask, logging.
  destruct (read_ips host (ip_file self) s) as [[ip_list|e] sr]; [|done].
  destruct (random_shuffle host ip_list (world sr)) as [l w].
  cbn [fst snd]. set (s1 := mkState _ _ _ _).
  destruct (filter_ips_by_ping_run host self l s1) as [s2 ->].
  rewrite latency_pass_frozen.
  destruct (Py.slice_to _ _) as [|entry ranked]; [done|].
  set (s3 := mkState _ _ _ _).
  rewrite <- (frozen_table Hfrozen s3 s0).
  destruct (fetch_cloudflare_colo_data host s3) as [[colo_data|e] s4];
    [|done].
  destruct colo_data as [|row colo_data]; [done|].
  destruct (test_loop_frozen (row :: colo_data) (entry :: ranked) [] s4)
    as [s5 ->].
  done.
Qed.
End Repeat.

Section Repeatable.
Context {W : Type} (host : Host W) (self : Config).

Lemma shuffled_perm s ip_list :
  (read_ips host (ip_file self) s).1 = Ok ip_list →
  shuffled host self s ≡ₚ ip_list.
Proof.
  unfold shuffled.
  destruct (read_ips host (ip_file self) s) as [[l|e] s']; simpl; [|done].
  intros [= ->]. apply random_shuffle_perm.
Qed.

(** C2 (amended). Two runs that read the same candidate list and get the
    same probe responses return the same list, rows in the same order,
    provided [random.shuffle] leaves the candidates in the same order in
    both runs, or no two different candidates pass the latency filter
    with the same ping. *)
Theorem run_tests_repeatable (s1 s2 : State W) :
  frozen_responses host self →
  (read_ips host (ip_file self) s1).1 = (read_ips host (ip_file self) s2).1 →
  (∀ ip_list,
     (read_ips host (ip_file self) s1).1 = Ok ip_list →
     shuffled host self s1 = shuffled host self s2
     ∨ no_ties host self s1 ip_list) →
  (run_tests host self s1).1 = (run_tests host self s2).1.
Proof.
  intros Hfrozen Hfile Hcond.
  rewrite (run_tests_frozen host self Hfrozen s1 s1),
    (run_tests_frozen host self Hfrozen s1 s2), <- Hfile.
  destruct (read_ips host (ip_file self) s1).1 as [ip_list|e] eqn:Hread;
    [|done].
  destruct (Hcond ip_list eq_refl) as [->|Hties]; [done|].
  unfold fixed_output.
  rewrite (sort_by_shuffle snd
             (shuffled host self s1 ≫= fixed_entry host self s1)
             (shuffled host self s2 ≫= fixed_entry host self s1)); [done|..].
  - apply bind_Permutation.
    rewrite (shuffled_perm s1 ip_list Hread).
    symmetry. apply shuffled_perm. by rewrite <- Hfile.
  - intros [a p] [b q] Ha Hb Hkey. simpl in Hkey. subst q.
    apply list_elem_of_bind in Ha as (a' & Ha & Ha').
    apply list_elem_of_bind in Hb as (b' & Hb & Hb').
    rewrite (shuffled_perm s1 ip_list Hread) in Ha', Hb'.
    unfold fixed_entry, ping_entry in Ha, Hb.
    destruct (get_ping host self a' s1).1 as [pa|] eqn:Ea;
      [|by apply elem_of_nil in Ha].
    destruct (get_ping host self b' s1).1 as [pb|] eqn:Eb;
      [|by apply elem_of_nil in Hb].
    destruct (passes self pa) eqn:Hpa; [|by apply elem_of_nil in Ha].
    destruct (passes self pb) eqn:Hpb; [|by apply elem_of_nil in Hb].
    apply list_elem_of_singleton in Ha as [= -> ->].
    apply list_elem_of_singleton in Hb as [= -> ->].
    f_equal. by apply (Hties a' b' pb).
Qed.
End Repeatable.

(** *** The scripted host gives fixed responses *)

Lemma mock_elapsed (c d : Q) : (Qred (c + d) - c == d)%Q.
Proof. rewrite Qred_correct. ring. Qed.

Section FrozenRules.
Context {W : Type}.

Lemma frozen_ret {A} (a : A) : frozen (W:=W) (ret a).
Proof. done. Qed.

Lemma frozen_raise {A} c msg : frozen (W:=W) (raise (A:=A) c msg).
Proof. done. Qed.

Lemma frozen_reraise {A} e : frozen (W:=W) (reraise (A:=A) e).
Proof. done. Qed.

Lemma frozen_of_res {A} r : frozen (W:=W) (of_res (A:=A) r).
Proof. done. Qed.

Lemma frozen_logging r : frozen (W:=W) (logging r).
Proof. done. Qed.

Lemma frozen_ask_res {A} (f : W → Res A * W) :
  (∀ w1 w2, (f w1).1 = (f w2).1) → frozen (ask_res f).
Proof.
  intros Hf s1 s2. unfold ask_res. specialize (Hf (world s1) (world s2)).
  by destruct (f (world s1)), (f (world s2)).
Qed.

Lemma frozen_bind {A B} (m : M W A) (k : A → M W B) :
  frozen m → (∀ a, frozen (k a)) → frozen (bind m k).
Proof.
  intros Hm Hk s1 s2. unfold bind. specialize (Hm s1 s2).
  destruct (m s1) as [[a1|e1] s1'], (m s2) as [[a2|e2] s2'];
    simpl in Hm; simplify_eq; [apply Hk | done].
Qed.

Lemma frozen_dispatch {A} (clauses : list (ExnClass * (Exn → M W A))) e :
  Forall (λ clause, ∀ e, frozen (clause.2 e)) clauses →
  frozen (dispatch clauses e).
Proof.
  induction 1 as [|[c h] clauses Hh _ IH]; simpl; [done|].
  destruct (issubclass _ _); [apply Hh | apply IH].
Qed.

Lemma frozen_try {A} (body : M W A) clauses :
  frozen body →
  Forall (λ clause, ∀ e, frozen (clause.2 e)) clauses →
  frozen (try_except body clauses).
Proof.
  intros Hb Hc s1 s2. unfold try_except. specialize (Hb s1 s2).
  destruct (body s1) as [[a1|e1] s1'], (body s2) as [[a2|e2] s2'];
    simpl in Hb; simplify_eq; [done|].
  by apply frozen_dispatch.
Qed.

Lemma frozen_find_colo lines : frozen (W:=W) (find_colo lines).
Proof.
  induction lines as [|line rest IH]; [done|]. cbn [find_colo].
  destruct (Py.startswith "colo=" line); [|exact IH].
  unfold index1.
  destruct (Py.split_char "=" line !! 1%nat); [|done].
  repeat (apply frozen_bind; [done|]; intros ?). done.
Qed.

Lemma frozen_raise_for_status response :
  frozen (W:=W) (raise_for_status response).
Proof. unfold raise_for_status. by destruct (_ && _). Qed.
End FrozenRules.

Section MockFrozen.
Context (sc : Mock.Script) (self : Config).

Lemma mbps_Qeq size (t1 t2 : Q) (s1 s2 : State Mock.World) :
  (t1 == t2)%Q →
  (mbps (Mock.host sc) size t1 s1).1 = (mbps (Mock.host sc) size t2 s2).1.
Proof.
  intros Ht. unfold mbps.
  assert (Qeq_bool t1 0 = Qeq_bool t2 0) as ->.
  { destruct (Qeq_bool t2 0) eqn:E.
    - apply Qeq_bool_iff. rewrite Ht. by apply Qeq_bool_iff.
    - apply not_true_is_false. intros E'. apply Qeq_bool_iff in E'.
      rewrite Ht in E'. apply Qeq_bool_iff in E'. congruence. }
  destruct (Qeq_bool t2 0); simpl; [done|]. f_equal.
  apply round2_Qeq. by rewrite Ht.
Qed.

Lemma speed_report_Qeq label size (t1 t2 : Q) (s1 s2 : State Mock.World) :
  (t1 == t2)%Q →
  ((shown ← mbps (Mock.host sc) size t1;
    logging (LogNum INFO label shown " Mbps");;
    mbps (Mock.host sc) size t1) s1).1
  = ((shown ← mbps (Mock.host sc) size t2;
      logging (LogNum INFO label shown " Mbps");;
      mbps (Mock.host sc) size t2) s2).1.
Proof.
  intros Ht. pose proof (mbps_Qeq size t1 t2 s1 s2 Ht) as H.
  unfold bind, mbps in *.
  destruct (Qeq_bool t1 0), (Qeq_bool t2 0); simpl in *; done.
Qed.

Lemma mock_get_answer req w1 w2 :
  (Mock.get sc req w1).1 = (Mock.get sc req w2).1.
Proof.
  unfold Mock.get, Mock.timed.
  destruct (Py.startswith "https://raw.githubusercontent.com/" (url req));
    [reflexivity|].
  destruct (Py.startswith "https://speed.cloudflare.com/cdn-cgi/trace"
              (url req)); [reflexivity|].
  destruct (Mock.p_down_secs (Mock.profile sc (Mock.target req)));
    reflexivity.
Qed.

Lemma mock_get_ping_frozen ip : frozen (get_ping (Mock.host sc) self ip).
Proof.
  intros s1 s2. unfold get_ping. simpl.
  destruct (Mock.ping_available sc); simpl; [|done].
  unfold try_except, bind, ask, ask_res, logging, ret. simpl.
  destruct (Mock.p_ping (Mock.profile sc ip)) as [[t| |]|e];
    cbn [fst snd world Mock.advance Mock.clock dispatch];
    [destruct (Py.Qltb 0 t); [done|]|..|done];
    cbn [fst snd world Mock.advance Mock.clock];
    f_equal; apply int_Qeq; by rewrite !mock_elapsed.
Qed.

Lemma mock_fetch_frozen : frozen (fetch_cloudflare_colo_data (Mock.host sc)).
Proof.
  unfold fetch_cloudflare_colo_data.
  apply frozen_try; [|by repeat constructor].
  apply frozen_bind; [apply frozen_ask_res, mock_get_answer|].
  intros response. apply frozen_bind; [apply frozen_raise_for_status|done].
Qed.

Lemma mock_get_colo_frozen ip :
  frozen (get_colo_from_ip (Mock.host sc) self ip).
Proof.
  unfold get_colo_from_ip.
  apply frozen_try; [|by repeat constructor].
  apply frozen_bind; [apply frozen_ask_res, mock_get_answer|].
  intros response. apply frozen_bind; [apply frozen_raise_for_status|].
  intros _. apply frozen_find_colo.
Qed.

Lemma mock_timed_shape r :
  ∃ answer d, ∀ w,
    (Mock.timed r w).1 = answer
    ∧ (Mock.clock (Mock.timed r w).2 - Mock.clock w == d)%Q.
Proof.
  unfold Mock.timed. destruct r as [secs|e].
  - exists (Ok {| status_code := 200; text := "" |}), secs.
    intros w. split; [done|]. apply mock_elapsed.
  - exists (Raise e), 0%Q. intros w. split; [done|]. simpl. ring.
Qed.

(** A request gets a fixed answer, and advances the clock by a fixed
    duration. *)
Lemma mock_get_shape req :
  ∃ answer d, ∀ w,
    (Mock.get sc req w).1 = answer
    ∧ (Mock.clock (Mock.get sc req w).2 - Mock.clock w == d)%Q.
Proof.
  unfold Mock.get.
  destruct (Py.startswith "https://raw.githubusercontent.com/" (url req)).
  { exists (Mock.colo_csv sc), 0%Q. intros w. split; [done|]. simpl. ring. }
  destruct (Py.startswith "https://speed.cloudflare.com/cdn-cgi/trace"
              (url req)).
  { exists (Mock.p_trace (Mock.profile sc (Mock.target req))), 0%Q.
    intros w. split; [done|]. simpl. ring. }
  apply mock_timed_shape.
Qed.

Lemma mock_post_shape req :
  ∃ answer d, ∀ w,
    (Mock.post sc req w).1 = answer
    ∧ (Mock.clock (Mock.post sc req w).2 - Mock.clock w == d)%Q.
Proof. apply mock_timed_shape. Qed.

(** A probe timed on a simulated clock: when the request gets a fixed
    answer in a fixed time, and what follows depends on the measured time
    only, the result is fixed. *)
Lemma timed_block_frozen {W A B} (host : Host W) (now : W → Q)
    (request : M W A) (k : Q → M W B) :
  (∀ w, time_time host w = (now w, w)) →
  (∃ answer d, ∀ s,
     (request s).1 = answer
     ∧ (now (world (request s).2) - now (world s) == d)%Q) →
  (∀ t1 t2 s1 s2, (t1 == t2)%Q → (k t1 s1).1 = (k t2 s2).1) →
  frozen (start_time ← ask (time_time host);
          _ ← request;
          now ← ask (time_time host);
          k (now - start_time)%Q).
Proof.
  intros Htime (answer & d & Hreq) Hk.
  assert (∀ s, ask (time_time host) s = (Ok (now (world s)), s)) as Hask.
  { intros [w l o dk]. unfold ask. simpl. by rewrite Htime. }
  intros s1 s2. unfold bind. rewrite !Hask.
  destruct (Hreq s1) as [Ha1 Hd1], (Hreq s2) as [Ha2 Hd2].
  destruct (request s1) as [r1 s1'], (request s2) as [r2 s2'].
  simpl in *. subst r1 r2. destruct answer as [a|e]; [|done].
  rewrite !Hask. apply Hk. by rewrite Hd1, Hd2.
Qed.

Lemma mock_ask_shape {A} (f : Mock.World → Res A * Mock.World) :
  (∃ answer d, ∀ w,
     (f w).1 = answer ∧ (Mock.clock (f w).2 - Mock.clock w == d)%Q) →
  ∃ answer d, ∀ s : State Mock.World,
    (ask_res f s).1 = answer
    ∧ (Mock.clock (world (ask_res f s).2) - Mock.clock (world s) == d)%Q.
Proof.
  intros (answer & d & Hf). exists answer, d. intros s.
  unfold ask_res. specialize (Hf (world s)). by destruct (f (world s)).
Qed.

Lemma mock_download_frozen ip :
  frozen (get_download_speed (Mock.host sc) self ip).
Proof.
  unfold get_download_speed.
  apply frozen_try; [|by repeat constructor].
  apply (timed_block_frozen (Mock.host sc) Mock.clock
           (ask_res (requests_get (Mock.host sc) _))
           (λ t, shown ← mbps (Mock.host sc) (test_size self * 1024) t;
                 logging (LogNum INFO "Download speed: " shown " Mbps");;
                 mbps (Mock.host sc) (test_size self * 1024) t)).
  - done.
  - apply mock_ask_shape, mock_get_shape.
  - intros. by apply speed_report_Qeq.
Qed.

Lemma mock_upload_frozen ip :
  frozen (get_upload_speed (Mock.host sc) self ip).
Proof.
  unfold get_upload_speed.
  apply frozen_try; [|by repeat constructor].
  apply (timed_block_frozen (Mock.host sc) Mock.clock
           (ask_res (requests_post (Mock.host sc) _))
           (λ t, shown ← mbps (Mock.host sc) (test_size self * 1024) t;
                 logging (LogNum INFO "Upload speed: " shown " Mbps");;
                 mbps (Mock.host sc) (test_size self * 1024) t)).
  - done.
  - apply mock_ask_shape, mock_post_shape.
  - intros. by apply speed_report_Qeq.
Qed.

(** The scripted host answers every probe the same way in every state. *)
Lemma mock_frozen_responses : frozen_responses (Mock.host sc) self.
Proof.
  split.
  - apply mock_get_ping_frozen.
  - apply mock_fetch_frozen.
  - apply mock_get_colo_frozen.
  - apply mock_download_frozen.
  - apply mock_upload_frozen.
Qed.
End MockFrozen.

(** Two runs of the scenario on three candidates of different latencies:
    one whose shuffle keeps the order of the file, one whose shuffle
    reverses it. *)
Lemma run_tests_repeatable_witness :
  (run_tests Scenario.host (Scenario.tester 10)
     (Scenario.start false None ["1.1.1.1"; "8.8.8.8"; "9.9.9.9"])).1
  = (run_tests Scenario.host (Scenario.tester 10)
       (Scenario.start true None ["1.1.1.1"; "8.8.8.8"; "9.9.9.9"])).1.
Proof.
  apply (run_tests_repeatable Scenario.host (Scenario.tester 10)
           (Scenario.start false None ["1.1.1.1"; "8.8.8.8"; "9.9.9.9"])
           (Scenario.start true None ["1.1.1.1"; "8.8.8.8"; "9.9.9.9"])).
  - apply mock_frozen_responses.
  - vm_compute. reflexivity.
  - intros ip_list Hread. right.
    vm_compute in Hread. injection Hread as <-.
    intros a b latency Ha Hb Hpa Hpb _.
    repeat (apply elem_of_cons in Ha as [->|Ha]);
      try (by apply elem_of_nil in Ha);
      repeat (apply elem_of_cons in Hb as [->|Hb]);
      try (by apply elem_of_nil in Hb);
      vm_compute in Hpa, Hpb; congruence.
Defined.

Example run_tests_both_orders :
  ip <$> returned
           (run_tests Scenario.host (Scenario.tester 10)
              (Scenario.start true None ["1.1.1.1"; "8.8.8.8"; "9.9.9.9"])).1
  = ["1.1.1.1"; "9.9.9.9"]
  ∧ shuffled Scenario.host (Scenario.tester 10)
      (Scenario.start true None ["1.1.1.1"; "8.8.8.8"; "9.9.9.9"])
    = ["9.9.9.9"; "8.8.8.8"; "1.1.1.1"].
Proof. vm_compute. done. Qed.

(** * Further properties *)

(** ** The shape of the output *)

Section Output.
Context {W : Type} (host : Host W) (self : Config).

(** The candidate and the latency a record was measured for. *)
Definition ranking_key (m : IPPerformanceMetrics) : string * Z :=
  (ip m, ping m).

(** The region name holds no space. *)
Definition spaceless (name : string) : Prop :=
  ∀ n, String.get n name ≠ Some " "%char.

Lemma StronglySorted_sublist {A} (R : relation A) (l k : list A) :
  l `sublist_of` k → StronglySorted R k → StronglySorted R l.
Proof.
  induction 1 as [|x l k Hsub IH|x l k Hsub IH]; intros Hk.
  - constructor.
  - apply StronglySorted_inv in Hk as [Hk Hx]. constructor; [by apply IH|].
    rewrite Forall_forall in *. intros y Hy. apply Hx.
    by eapply elem_of_sublist.
  - apply StronglySorted_inv in Hk as [Hk _]. by apply IH.
Qed.

Lemma StronglySorted_by_key {A B} (f : A → B) (R : relation B) (l : list A) :
  StronglySorted R (f <$> l) → StronglySorted (λ a b, R (f a) (f b)) l.
Proof.
  induction l as [|x l IH]; intros Hl; [constructor|].
  rewrite fmap_cons in Hl.
  apply StronglySorted_inv in Hl as [Hl Hx]. constructor; [by apply IH|].
  rewrite Forall_fmap in Hx. exact Hx.
Qed.

Lemma detail_entry_shape colo_data ip ping colo download upload :
  ranking_key <$> detail_entry self colo_data ip ping colo download upload
    `sublist_of` [(ip, ping)]
  ∧ Forall (λ m, spaceless (region m))
      (detail_entry self colo_data ip ping colo download upload).
Proof.
  unfold detail_entry.
  assert (([] : list (string * Z)) `sublist_of` [(ip, ping)]) as Hnil
    by apply sublist_nil_l.
  destruct colo as [[[|c colo]|]|e]; simpl; try done.
  destruct (get_region_from_colo _ colo_data) as [name|e] eqn:Hname;
    [|done].
  case_bool_decide; simpl; [done|].
  destruct download as [d|e]; simpl; [|done].
  destruct upload as [u|e]; simpl; [|done].
  destruct (_ || _); simpl; [done|]. split; [done|].
  repeat constructor. simpl. intros n.
  by apply (get_region_from_colo_no_space _ _ _ _ Hname).
Qed.

Lemma test_loop_shape colo_data ranked acc s :
  ∃ accepted s',
    test_loop host self colo_data ranked acc s = (Ok (acc ++ accepted), s')
    ∧ ranking_key <$> accepted `sublist_of` ranked
    ∧ Forall (λ m, spaceless (region m)) accepted.
Proof.
  revert acc s. induction ranked as [|[ip ping] rest IH]; intros acc s.
  - exists [], s. simpl. by rewrite app_nil_r.
  - cbn [test_loop]. unfold bind at 1.
    destruct (test_iteration_run host self colo_data ip ping acc s)
      as (s1 & s2 & s3 & s' & ->).
    destruct (detail_entry_shape colo_data ip ping
                (get_colo_from_ip host self ip s1).1
                (get_download_speed host self ip s2).1
                (get_upload_speed host self ip s3).1) as [Hkey Hregion].
    destruct (IH (acc ++ detail_entry self colo_data ip ping
                           (get_colo_from_ip host self ip s1).1
                           (get_download_speed host self ip s2).1
                           (get_upload_speed host self ip s3).1) s')
      as (accepted & s'' & -> & Hsub & Hregions).
    eexists (_ ++ accepted), s''. rewrite app_assoc. split; [done|]. split.
    + rewrite fmap_app. by apply (sublist_app _ [(ip, ping)] _ rest).
    + by apply Forall_app.
Qed.

(** X1. The detailed-test loop never raises, whatever the probes do: it
    returns the records it was given followed by the records it accepts,
    which follow the order of the ranking and carry its latencies. *)
Theorem test_loop_never_raises (colo_data : list (gmap string (option string)))
    (ranked : list (string * Z)) (acc : list IPPerformanceMetrics)
    (s : State W) :
  ∃ accepted s',
    test_loop host self colo_data ranked acc s = (Ok (acc ++ accepted), s')
    ∧ ranking_key <$> accepted `sublist_of` ranked.
Proof.
  destruct (test_loop_shape colo_data ranked acc s)
    as (accepted & s' & Hrun & Hsub & _).
  by exists accepted, s'.
Qed.

(** A valid address literal. *)
Definition valid_ip (ip : string) : Prop :=
  ipaddress_ip_address host ip = true.

Lemma read_ips_lines_valid path file ips :
  Forall valid_ip ips →
  returns (read_ips_lines host path file ips) (Forall valid_ip).
Proof.
  revert ips. induction file as [|line rest IH]; intros ips Hips; simpl.
  - by apply returns_ret.
  - apply returns_seq.
    apply returns_bind
      with (Q := λ keep : bool, keep = true → valid_ip (Py.strip line)).
    + case_bool_decide; [by apply returns_ret|].
      unfold validate_ip, valid_ip.
      destruct (ipaddress_ip_address host (Py.strip line));
        [by apply returns_ret|].
      by apply returns_seq, returns_ret.
    + intros [] Hkeep; apply IH; [|done].
      apply Forall_app. split; [done|]. constructor; auto.
Qed.

Lemma read_ips_valid path :
  returns (read_ips host path) (Forall valid_ip).
Proof.
  unfold read_ips. apply returns_try.
  - apply returns_bind with (Q := Forall valid_ip).
    + apply returns_bind with (Q := λ _, True); [done|].
      intros file _. by apply read_ips_lines_valid.
    + intros ips Hips. cbn beta.
      case_bool_decide; [apply returns_raise | by apply returns_ret].
  - repeat constructor; simpl; intros e; apply returns_raise.
Qed.

(** What a run that returns went through: the shuffled candidates, all
    valid, and the ranking the records were accepted from. *)
Lemma run_tests_shape s results s' :
  run_tests host self s = (Ok results, s') →
  ∃ ip_list s1,
    Forall valid_ip ip_list
    ∧ ranking_key <$> results
        `sublist_of`
        Py.slice_to (max_ips self)
          (Py.sort_by snd (latency_pass host self ip_list s1))
    ∧ Forall (λ m, spaceless (region m)) results.
Proof.
  unfold run_tests. unfold bind, try_except, ask, logging.
  pose proof (read_ips_valid (ip_file self) s) as Hvalid.
  destruct (read_ips host (ip_file self) s) as [[ip_list|e] sr]; [|done].
  specialize (Hvalid ip_list sr eq_refl).
  pose proof (random_shuffle_perm host ip_list (world sr)) as Hperm.
  destruct (random_shuffle host ip_list (world sr)) as [l w].
  cbn [fst snd] in *. set (s1 := mkState _ _ _ _).
  destruct (filter_ips_by_ping_run host self l s1) as [s2 ->].
  destruct (Py.slice_to _ _) as [|entry ranked] eqn:Hranked; [done|].
  set (s3 := mkState _ _ _ _).
  destruct (fetch_cloudflare_colo_data host s3) as [[colo_data|e] s4];
    [|done].
  destruct colo_data as [|row colo_data]; [done|].
  destruct (test_loop_shape (row :: colo_data) (entry :: ranked) [] s4)
    as (accepted & s5 & -> & Hsub & Hregions).
  intros [= <- <-]. exists l, s1. split_and!.
  - rewrite Hperm. exact Hvalid.
  - by rewrite Hranked.
  - done.
Qed.
End Output.

Section OutputOrder.
Context {W : Type} (host : Host W) (self : Config).

(** X2. The list [run_tests] returns is in ascending order of ping: the
    records follow the ranking, which is sorted, and are not re-sorted. *)
Theorem run_tests_sorted (s s' : State W)
    (results : list IPPerformanceMetrics) :
  run_tests host self s = (Ok results, s') →
  StronglySorted (λ a b, ping a ≤ ping b) results.
Proof.
  intros Hrun.
  destruct (run_tests_shape host self s results s' Hrun)
    as (ip_list & s1 & _ & Hsub & _).
  apply (StronglySorted_by_key ranking_key (λ a b, a.2 ≤ b.2)).
  eapply StronglySorted_sublist; [exact Hsub|].
  eapply StronglySorted_sublist; [apply slice_to_sublist|].
  apply (sort_by_sorted snd).
Qed.

(** X3. With a non-negative [max_ips], [run_tests] returns at most
    [max_ips] records. *)
Theorem run_tests_bounded (s s' : State W)
    (results : list IPPerformanceMetrics) :
  0 ≤ max_ips self →
  run_tests host self s = (Ok results, s') →
  Z.of_nat (length results) ≤ max_ips self.
Proof.
  intros Hmax Hrun.
  destruct (run_tests_shape host self s results s' Hrun)
    as (ip_list & s1 & _ & Hsub & _).
  apply sublist_length in Hsub. rewrite length_fmap in Hsub.
  pose proof (slice_to_length (max_ips self)
                (Py.sort_by snd (latency_pass host self ip_list s1)) Hmax).
  lia.
Qed.

(** X4. Every record [run_tests] returns is for an address that
    [ipaddress.ip_address] accepts. *)
Theorem run_tests_valid_addresses (s s' : State W)
    (results : list IPPerformanceMetrics) :
  run_tests host self s = (Ok results, s') →
  ∀ m, m ∈ results → ipaddress_ip_address host (ip m) = true.
Proof.
  intros Hrun m Hm.
  destruct (run_tests_shape host self s results s' Hrun)
    as (ip_list & s1 & Hvalid & Hsub & _).
  rewrite Forall_forall in Hvalid. apply Hvalid.
  eapply elem_of_sublist; [|apply (latency_pass_candidates host self)].
  assert (ranking_key m ∈ latency_pass host self ip_list s1) as Hkey.
  { rewrite <- (sort_by_perm snd).
    eapply elem_of_sublist; [|apply slice_to_sublist].
    eapply elem_of_sublist; [|exact Hsub].
    by apply list_elem_of_fmap_2. }
  by apply (list_elem_of_fmap_2 fst) in Hkey.
Qed.

(** X5. No record [run_tests] returns has a space in its region name, so
    a desired region that holds a space is never matched. *)
Theorem run_tests_region_spaceless (s s' : State W)
    (results : list IPPerformanceMetrics) :
  run_tests host self s = (Ok results, s') →
  ∀ m n, m ∈ results → String.get n (region m) ≠ Some " "%char.
Proof.
  intros Hrun m n Hm.
  destruct (run_tests_shape host self s results s' Hrun)
    as (ip_list & s1 & _ & _ & Hregions).
  rewrite Forall_forall in Hregions. by apply Hregions.
Qed.
End OutputOrder.

(** The run of the scenario on the file of five addresses. *)
Definition scenario_start : State Mock.World :=
  Scenario.start false None Scenario.all_ips.

Definition scenario_results : list IPPerformanceMetrics :=
  returned (run_tests Scenario.host (Scenario.tester 10) scenario_start).1.

Lemma scenario_run :
  run_tests Scenario.host (Scenario.tester 10) scenario_start
  = (Ok scenario_results,
     (run_tests Scenario.host (Scenario.tester 10) scenario_start).2).
Proof.
  apply (run_eq (run_tests Scenario.host (Scenario.tester 10))).
  vm_compute. reflexivity.
Qed.

Lemma run_tests_sorted_witness :
  StronglySorted (λ a b, ping a ≤ ping b) scenario_results.
Proof.
  exact (run_tests_sorted Scenario.host (Scenario.tester 10) scenario_start
           _ scenario_results scenario_run).
Defined.

Lemma run_tests_bounded_witness :
  Z.of_nat (length scenario_results) ≤ 10.
Proof.
  refine (run_tests_bounded Scenario.host (Scenario.tester 10) scenario_start
            _ scenario_results _ scenario_run).
  simpl. lia.
Defined.

Lemma run_tests_valid_addresses_witness :
  Forall (λ m, Mock.ipv4 (ip m) = true) scenario_results.
Proof.
  apply Forall_forall.
  exact (run_tests_valid_addresses Scenario.host (Scenario.tester 10)
           scenario_start _ scenario_results scenario_run).
Defined.

Lemma run_tests_region_spaceless_witness :
  Forall (λ m, spaceless (region m)) scenario_results.
Proof.
  apply Forall_forall. intros m Hm n.
  exact (run_tests_region_spaceless Scenario.host (Scenario.tester 10)
           scenario_start _ scenario_results scenario_run m n Hm).
Defined.

(** ** More on the ranking *)

Section RankingEdges.
Context {W : Type} (host : Host W) (self : Config).

(** X6. The ranking holds the lowest pings: the passing candidates are
    the ranked ones together with the dropped ones, and no dropped
    candidate has a lower ping than a ranked one. *)
Theorem filter_ips_by_ping_lowest (ip_list : list string) (s : State W) :
  ∃ ranked dropped s',
    filter_ips_by_ping host self ip_list s = (Ok ranked, s')
    ∧ ranked ++ dropped ≡ₚ latency_pass host self ip_list s
    ∧ ∀ entry entry',
        entry ∈ ranked → entry' ∈ dropped → entry.2 ≤ entry'.2.
Proof.
  destruct (filter_ips_by_ping_run host self ip_list s) as [s' Hrun].
  destruct (slice_to_prefix (max_ips self)
              (Py.sort_by snd (latency_pass host self ip_list s)))
    as [dropped Hsplit].
  eexists _, dropped, s'. split; [exact Hrun|]. split.
  - by rewrite <- Hsplit, sort_by_perm.
  - intros entry entry' Hin Hin'.
    pose proof (sort_by_sorted snd (latency_pass host self ip_list s)) as Hs.
    rewrite Hsplit in Hs.
    by apply (StronglySorted_app_1_elem_of _ _ _ _ _ Hs).
Qed.

(** X7. With a negative [max_ips] the slice counts from the end: the
    ranking drops the [-max_ips] highest pings, and is empty when fewer
    candidates pass. *)
Theorem filter_ips_by_ping_negative_max (ip_list : list string)
    (s : State W) :
  max_ips self < 0 →
  ∃ ranked s',
    filter_ips_by_ping host self ip_list s = (Ok ranked, s')
    ∧ Z.of_nat (length ranked)
      = Z.max 0 (Z.of_nat (length (latency_pass host self ip_list s))
                 + max_ips self).
Proof.
  intros Hmax.
  destruct (filter_ips_by_ping_run host self ip_list s) as [s' Hrun].
  eexists _, s'. split; [exact Hrun|].
  unfold Py.slice_to. destruct (Z.leb_spec 0 (max_ips self)); [lia|].
  rewrite length_take, sort_by_length. lia.
Qed.

(** X8. A reply quicker than one millisecond is discarded: [get_ping]
    truncates the delay to 0 ms (a positive number below 0.001, times
    1000, is below 1.0 on the platform), which fails the test
    [ping_time > 0]. *)
Theorem sub_millisecond_reply_dropped (ip : string) (s : State W)
    (seconds : Q) :
  PING_AVAILABLE host = true →
  ping3_outcome host self ip s = Ok (Delay seconds) →
  (0 < seconds)%Q → (seconds < 1 # 1000)%Q →
  (get_ping host self ip s).1 = Ok 0
  ∧ (filter_ips_by_ping host self [ip] s).1 = Ok [].
Proof.
  intros Hav Hreply Hpos Hfast.
  destruct (get_ping_available host self ip s Hav) as (latency & Hping & Hcase).
  rewrite Hreply in Hcase.
  assert (Py.Qltb 0 seconds = true) as Hlt.
  { unfold Py.Qltb. apply negb_true_iff, not_true_is_false.
    intros Hle%Qle_bool_iff. by apply Qle_not_lt in Hle. }
  rewrite Hlt in Hcase.
  assert (latency = 0) as ->.
  { rewrite Hcase. by apply float_mul_below_one. }
  split; [done|].
  destruct (filter_ips_by_ping_run host self [ip] s) as [s' ->].
  unfold latency_pass. simpl. rewrite Hping. simpl.
  unfold Py.slice_to. simpl. by destruct (0 <=? max_ips self); rewrite take_nil.
Qed.
End RankingEdges.

(** A second script: [127.0.0.1] answers the ping in half a millisecond
    and its transfers take no time on the clock; the trace request to
    [192.0.2.1] fails outside the [requests] library; [203.0.113.1]
    answers from Tokyo; the region table, which also lists Tokyo, is
    answered with the given status.  Other addresses are as in the
    scenario. *)
Module Edge.

Definition profile (ip : string) : Mock.Profile :=
  if bool_decide (ip = "127.0.0.1") then
    {| Mock.p_ping := Ok (Delay (1 # 2000)); Mock.p_ping_secs := 1 # 2000;
       Mock.p_trace := Scenario.ok200 ("colo=LHR" +:+ Scenario.nl);
       Mock.p_down_secs := Ok 0%Q; Mock.p_up_secs := Ok 0%Q |}
  else if bool_decide (ip = "192.0.2.1") then
    {| Mock.p_ping := Ok (Delay (20 # 1000)); Mock.p_ping_secs := 20 # 1000;
       Mock.p_trace :=
         Raise (mkExn ValueError "check_hostname requires server_hostname");
       Mock.p_down_secs := Ok 1%Q; Mock.p_up_secs := Ok 1%Q |}
  else if bool_decide (ip = "203.0.113.1") then
    {| Mock.p_ping := Ok (Delay (40 # 1000)); Mock.p_ping_secs := 40 # 1000;
       Mock.p_trace := Scenario.ok200 ("colo=NRT" +:+ Scenario.nl);
       Mock.p_down_secs := Ok 1%Q; Mock.p_up_secs := Ok 1%Q |}
  else Scenario.profile ip.

Definition colo_table : string :=
  Scenario.colo_table +:+ "NRT,Asia Pacific" +:+ Scenario.nl.

Definition script (colo_status : Z) : Mock.Script := {|
  Mock.ping_available := true;
  Mock.profile := profile;
  Mock.colo_csv := Ok {| status_code := colo_status; text := colo_table |};
  Mock.config := Ok (Scenario.tester 10);
|}.

Definition host : Host Mock.World := Mock.host (script 200).

(** A region table with a field of 131073 characters. *)
Definition long_field : string :=
  Nat.iter (2 ^ 17 + 1) (String "A") "".

Definition long_script : Mock.Script := {|
  Mock.ping_available := true;
  Mock.profile := profile;
  Mock.colo_csv :=
    Scenario.ok200 ("colo,region" +:+ Scenario.nl +:+ long_field +:+ ",Europe"
                    +:+ Scenario.nl);
  Mock.config := Ok (Scenario.tester 10);
|}.

End Edge.

Lemma filter_ips_by_ping_negative_max_witness :
  max_ips (Scenario.tester (-1)) < 0
  ∧ ∃ ranked s',
      filter_ips_by_ping Scenario.host (Scenario.tester (-1))
        ["1.1.1.1"; "8.8.8.8"; "9.9.9.9"; "1.0.0.1"; "10.0.0.1"]
        scenario_start = (Ok ranked, s')
      ∧ Z.of_nat (length ranked)
        = Z.max 0
            (Z.of_nat (length
               (latency_pass Scenario.host (Scenario.tester (-1))
                  ["1.1.1.1"; "8.8.8.8"; "9.9.9.9"; "1.0.0.1"; "10.0.0.1"]
                  scenario_start))
             + max_ips (Scenario.tester (-1))).
Proof.
  split; [simpl; lia|].
  apply (filter_ips_by_ping_negative_max Scenario.host (Scenario.tester (-1))
           ["1.1.1.1"; "8.8.8.8"; "9.9.9.9"; "1.0.0.1"; "10.0.0.1"]
           scenario_start).
  simpl. lia.
Defined.

Example filter_ips_by_ping_drop_last :
  (filter_ips_by_ping Scenario.host (Scenario.tester (-1))
     ["1.1.1.1"; "8.8.8.8"; "9.9.9.9"; "1.0.0.1"; "10.0.0.1"]
     scenario_start).1
  = Ok [("8.8.8.8", 10); ("1.1.1.1", 30); ("1.0.0.1", 30)].
Proof. vm_compute. reflexivity. Qed.

Lemma sub_millisecond_reply_dropped_witness :
  (get_ping Edge.host (Scenario.tester 10) "127.0.0.1" scenario_start).1
  = Ok 0
  ∧ (filter_ips_by_ping Edge.host (Scenario.tester 10) ["127.0.0.1"]
       scenario_start).1 = Ok [].
Proof.
  apply (sub_millisecond_reply_dropped Edge.host (Scenario.tester 10)
           "127.0.0.1" scenario_start (1 # 2000)).
  - reflexivity.
  - vm_compute. reflexivity.
  - reflexivity.
  - reflexivity.
Defined.

(** ** The per-candidate stages *)

Section Stages.
Context {W : Type} (host : Host W) (self : Config).

(** X9. A candidate whose region is not desired is skipped right after
    the region lookup: the iteration returns the records unchanged in the
    state the trace request left, with one more log record, so no
    throughput request is made for it. *)
Theorem wrong_region_skips_throughput
    (colo_data : list (gmap string (option string))) (ip : string) (ping : Z)
    (acc : list IPPerformanceMetrics) (s s2 : State W)
    (colo region : string) :
  get_colo_from_ip host self ip (add_logs s [Log INFO ("Testing IP: " +:+ ip)])
  = (Ok (Some colo), s2) →
  colo ≠ "" →
  get_region_from_colo colo colo_data = Ok region →
  region ∉ regions self →
  test_iteration host self colo_data ip ping acc s
  = (Ok acc,
     add_logs s2 [Log INFO ("IP " +:+ ip +:+ " not in desired regions")]).
Proof.
  intros Hcolo Hne Hname Hregion.
  unfold test_iteration, try_except. unfold bind at 1. simpl.
  unfold add_logs in Hcolo. unfold bind at 1. rewrite Hcolo.
  destruct colo as [|c colo]; [done|].
  unfold bind at 1, of_res. rewrite Hname.
  by rewrite bool_decide_eq_true_2.
Qed.

(** The request of [get_download_speed]. *)
Definition download_request (ip : string) : Request :=
  {| url := "https://speed.cloudflare.com/__down?bytes=" +:+
            pretty (test_size self * 1024);
     headers := [("Host", "speed.cloudflare.com")];
     params := probe_params self ip;
     files := None;
     timeout := 30 |}.

(** The request of [get_upload_speed]. *)
Definition upload_request (ip : string) : Request :=
  {| url := "https://speed.cloudflare.com/__up";
     headers := [("Content-Type", "multipart/form-data");
                 ("Host", "speed.cloudflare.com")];
     params := probe_params self ip;
     files := Some ("file", "sample.bin", test_size self * 1024);
     timeout := 30 |}.


(** X11. When the download request raises a [RequestException],
    [get_download_speed] returns 0.0 and raises nothing. *)
Theorem get_download_speed_request_error (ip : string) (s : State W)
    (start_time : Q) (w1 w2 : W) (e : Exn) :
  time_time host (world s) = (start_time, w1) →
  requests_get host (download_request ip) w1 = (Raise e, w2) →
  issubclass (exn_cls e) RequestException = true →
  get_download_speed host self ip s
  = (Ok 0%Q, mkState w2 (logs s) (stdout s) (disk s)).
Proof.
  intros Hstart Hget Hclass.
  unfold get_download_speed, try_except, bind, ask, ask_res.
  fold (download_request ip). rewrite Hstart. cbn [world].
  rewrite Hget. cbn [dispatch]. by rewrite Hclass.
Qed.

(** X12. [get_upload_speed] fails the way [get_download_speed] does: a
    [RequestException] of the upload request gives 0.0 with nothing
    logged, and equal clock readings around an answered request raise
    [ZeroDivisionError], which its [except] clause does not name. *)
Theorem get_upload_speed_failures (ip : string) (s : State W)
    (start_time : Q) (w1 : W) :
  time_time host (world s) = (start_time, w1) →
  (∀ e w2,
     requests_post host (upload_request ip) w1 = (Raise e, w2) →
     issubclass (exn_cls e) RequestException = true →
     get_upload_speed host self ip s
     = (Ok 0%Q, mkState w2 (logs s) (stdout s) (disk s)))
  ∧ (∀ response w2 now w3,
       requests_post host (upload_request ip) w1 = (Ok response, w2) →
       time_time host w2 = (now, w3) →
       (now - start_time == 0)%Q →
       (get_upload_speed host self ip s).1
       = Raise (mkExn ZeroDivisionError "float division by zero")).
Proof.
  intros Hstart. split.
  - intros e w2 Hpost Hclass.
    unfold get_upload_speed, try_except, bind, ask, ask_res.
    fold (upload_request ip). rewrite Hstart. cbn [world].
    rewrite Hpost. cbn [dispatch]. by rewrite Hclass.
  - intros response w2 now w3 Hpost Hnow Hzero.
    unfold get_upload_speed, try_except, bind, ask, ask_res.
    fold (upload_request ip). rewrite Hstart. simpl.
    rewrite Hpost. simpl. rewrite Hnow. simpl.
    assert (now == start_time)%Q as Hsame.
    { destruct now, start_time. unfold Qeq in *. simpl in *. lia. }
    apply (float_sub_diag host), Qeq_bool_iff in Hsame.
    unfold mbps. by rewrite Hsame.
Qed.

End Stages.

(** [8.8.8.8] answers from San Jose, which is in North America: its
    iteration ends after the region lookup. *)
Lemma wrong_region_skips_throughput_witness :
  test_iteration Scenario.host (Scenario.tester 10)
    (returned (Mock.dict_reader Scenario.colo_table)) "8.8.8.8" 10 []
    scenario_start
  = (Ok [],
     add_logs
       (get_colo_from_ip Scenario.host (Scenario.tester 10) "8.8.8.8"
          (add_logs scenario_start [Log INFO "Testing IP: 8.8.8.8"])).2
       [Log INFO "IP 8.8.8.8 not in desired regions"]).
Proof.
  apply (wrong_region_skips_throughput Scenario.host (Scenario.tester 10)
           (returned (Mock.dict_reader Scenario.colo_table)) "8.8.8.8" 10 []
           scenario_start
           (get_colo_from_ip Scenario.host (Scenario.tester 10) "8.8.8.8"
              (add_logs scenario_start [Log INFO "Testing IP: 8.8.8.8"])).2
           "SJC" "North_America").
  - apply (run_eq (get_colo_from_ip Scenario.host (Scenario.tester 10)
                     "8.8.8.8")).
    vm_compute. reflexivity.
  - discriminate.
  - vm_compute. reflexivity.
  - apply (bool_decide_unpack _). vm_compute. exact I.
Defined.


(** [10.0.0.1] refuses the connection. *)
Lemma get_download_speed_request_error_witness :
  get_download_speed Scenario.host (Scenario.tester 10) "10.0.0.1"
    scenario_start
  = (Ok 0%Q, scenario_start).
Proof.
  apply (get_download_speed_request_error Scenario.host (Scenario.tester 10)
           "10.0.0.1" scenario_start 0
           (world scenario_start) (world scenario_start)
           (mkExn RequestException "Connection refused")).
  - reflexivity.
  - vm_compute. reflexivity.
  - reflexivity.
Defined.

(** The upload to [127.0.0.1] takes no time on the clock. *)
Lemma get_upload_speed_failures_witness :
  (get_upload_speed Edge.host (Scenario.tester 10) "127.0.0.1"
     scenario_start).1
  = Raise (mkExn ZeroDivisionError "float division by zero").
Proof.
  apply (proj2 (get_upload_speed_failures Edge.host (Scenario.tester 10)
                  "127.0.0.1" scenario_start 0 (world scenario_start)
                  eq_refl)
           {| status_code := 200; text := "" |}
           (Mock.advance 0 (world scenario_start)) 0%Q
           (Mock.advance 0 (world scenario_start))).
  - vm_compute. reflexivity.
  - reflexivity.
  - reflexivity.
Defined.

(** The upload to [10.0.0.1] is refused. *)
Example get_upload_speed_refused :
  get_upload_speed Scenario.host (Scenario.tester 10) "10.0.0.1"
    scenario_start
  = (Ok 0%Q, scenario_start).
Proof. vm_compute. reflexivity. Qed.

(** ** Parsing the trace and fetching the region table *)

Lemma startswith_app (p s : string) :
  Py.startswith p s = true → ∃ tail, s = p +:+ tail.
Proof.
  revert s. induction p as [|a p IH]; intros s; simpl.
  - by exists s.
  - destruct s as [|b s]; [done|].
    intros [Hab Hp]%andb_true_iff. apply Ascii.eqb_eq in Hab as ->.
    destruct (IH s Hp) as [tail ->]. by exists tail.
Qed.

(** The first piece of [s.split(sep)] is the text of [s] up to its first
    separator. *)
Lemma split_char_head (sep : ascii) (s : string) :
  ∃ piece rest tail,
    Py.split_char sep s = piece :: rest
    ∧ s = piece +:+ tail
    ∧ (tail = "" ∨ Py.startswith (String sep "") tail = true)
    ∧ ∀ n, String.get n piece ≠ Some sep.
Proof.
  induction s as [|c s IH]; simpl.
  - exists "", [], "". split_and!; [done|done|by left|by intros []].
  - destruct (Ascii.eqb_spec c sep) as [->|Hc].
    + exists "", (Py.split_char sep s), (String sep s).
      split_and!; [done|done| |by intros []].
      right. simpl. by rewrite Ascii.eqb_refl.
    + destruct IH as (piece & rest & tail & -> & -> & Htail & Hpiece).
      exists (String c piece), rest, tail. split_and!; try done.
      intros [|n]; simpl; [congruence|apply Hpiece].
Qed.

Lemma split_char_colo (value : string) :
  Py.split_char "=" ("colo=" +:+ value) = "colo" :: Py.split_char "=" value.
Proof. reflexivity. Qed.

Section Trace.
Context {W : Type} (host : Host W) (self : Config).

(** What [find_colo] logs when it returns [r]. *)
Definition colo_log (r : option string) : list LogRecord :=
  match r with
  | Some colo => [Log INFO ("Colo: " +:+ colo)]
  | None => []
  end.

(** [colo] is what the first line starting with ["colo="] holds between
    that prefix and the next ["="] (or the end of the line). *)
Definition colo_of_lines (lines : list string) (colo : string) : Prop :=
  ∃ before tail after,
    Forall (λ line, Py.startswith "colo=" line = false) before
    ∧ lines = before ++ ("colo=" +:+ colo +:+ tail) :: after
    ∧ (tail = "" ∨ Py.startswith "=" tail = true)
    ∧ ∀ n, String.get n colo ≠ Some "="%char.

Lemma find_colo_returns (lines : list string) (s : State W) :
  ∃ r s', find_colo lines s = (Ok r, s').
Proof.
  induction lines as [|line rest IH]; cbn [find_colo].
  - by eexists _, _.
  - destruct (Py.startswith "colo=" line) eqn:Hline; [|apply IH].
    destruct (startswith_app _ _ Hline) as [value ->].
    destruct (split_char_head "=" value) as (colo & pieces & _ & Hsplit & _).
    unfold bind, index1. rewrite split_char_colo, Hsplit. by eexists _, _.
Qed.

(** X13. Reading the colo out of a trace never fails: a line that starts
    with ["colo="] always has a second piece, so [line.split("=")[1]]
    raises no [IndexError].  The code returned is the text between
    ["colo="] and the next ["="] of the first such line, it is logged
    once, and [None] is returned exactly when no line starts with
    ["colo="]. *)
Theorem find_colo_parses (lines : list string) (s : State W) :
  ∃ r,
    find_colo lines s = (Ok r, add_logs s (colo_log r))
    ∧ match r with
      | Some colo => colo_of_lines lines colo
      | None => Forall (λ line, Py.startswith "colo=" line = false) lines
      end.
Proof.
  induction lines as [|line rest IH]; cbn [find_colo].
  - exists None. split; [|constructor].
    destruct s. unfold add_logs, ret. simpl. by rewrite app_nil_r.
  - destruct (Py.startswith "colo=" line) eqn:Hline.
    + destruct (startswith_app _ _ Hline) as [value ->].
      destruct (split_char_head "=" value)
        as (colo & pieces & tail & Hsplit & -> & Htail & Hcolo).
      exists (Some colo). split.
      * unfold bind, index1. rewrite split_char_colo, Hsplit. reflexivity.
      * exists [], tail, rest. split_and!; try done.
    + destruct IH as (r & -> & Hr). exists r. split; [done|].
      destruct r as [colo|].
      * destruct Hr as (before & tail & after & Hbefore & -> & Htail & Hcolo).
        exists (line :: before), tail, after. split_and!; try done.
        by constructor.
      * by constructor.
Qed.

(** The request of [get_colo_from_ip]. *)
Definition trace_request (ip : string) : Request :=
  {| url := "https://speed.cloudflare.com/cdn-cgi/trace";
     headers := [("Host", "speed.cloudflare.com")];
     params := probe_params self ip;
     files := None;
     timeout := 10 |}.

(** X14. The only exceptions that leave [get_colo_from_ip] are those the
    trace request raises outside [RequestException]: a request error and
    an HTTP error status are logged and answered with [None], and the
    parsing raises nothing. *)
Theorem get_colo_from_ip_raises (ip : string) (s : State W) (e : Exn) :
  (get_colo_from_ip host self ip s).1 = Raise e →
  (requests_get host (trace_request ip) (world s)).1 = Raise e
  ∧ issubclass (exn_cls e) RequestException = false.
Proof.
  unfold get_colo_from_ip, try_except, bind, ask_res.
  fold (trace_request ip).
  destruct (requests_get host (trace_request ip) (world s))
    as [[response|e'] w]; cbn [fst snd].
  - unfold raise_for_status. destruct (_ && _); [done|]. cbn.
    set (s1 := mkState _ _ _ _).
    by destruct (find_colo_returns (Py.splitlines (text response)) s1)
      as (r & s2 & ->).
  - cbn [dispatch]. destruct (issubclass (exn_cls e') RequestException) eqn:E.
    + done.
    + by intros [= ->].
Qed.

(** The request of [fetch_cloudflare_colo_data]. *)
Definition colo_request : Request :=
  {| url := "https://raw.githubusercontent.com/Netrvin/cloudflare-colo-list/refs/heads/main/DC-Colos.csv";
     headers := []; params := []; files := None; timeout := 10 |}.

Lemma fetch_raises (s : State W) (e : Exn) :
  (fetch_cloudflare_colo_data host s).1 = Raise e →
  issubclass (exn_cls e) RequestException = false
  ∧ ((requests_get host colo_request (world s)).1 = Raise e
     ∨ ∃ response,
         (requests_get host colo_request (world s)).1 = Ok response
         ∧ csv_DictReader host (text response) = Raise e).
Proof.
  unfold fetch_cloudflare_colo_data, try_except, bind, ask_res.
  fold colo_request.
  destruct (requests_get host colo_request (world s))
    as [[response|e'] w]; cbn [fst snd].
  - unfold raise_for_status. destruct (_ && _); [done|]. cbn [ret].
    unfold of_res.
    destruct (csv_DictReader host (text response)) as [rows|e'] eqn:Hrows;
      [done|].
    cbn [dispatch]. destruct (issubclass (exn_cls e') RequestException) eqn:E.
    + done.
    + intros [= ->]. split; [done|]. right. by exists response.
  - cbn [dispatch]. destruct (issubclass (exn_cls e') RequestException) eqn:E.
    + done.
    + intros [= ->]. split; [done|]. by left.
Qed.

(** X15. When the server answers the request for the region table with an
    error status (400 to 599), [fetch_cloudflare_colo_data] logs one error
    and returns the empty table: the body of the answer is not read. *)
Theorem fetch_http_error_empty_table (s : State W) (response : Response)
    (w : W) :
  requests_get host colo_request (world s) = (Ok response, w) →
  400 ≤ status_code response < 600 →
  ∃ msg,
    fetch_cloudflare_colo_data host s
    = (Ok [],
       mkState w
         (logs s ++ [Log ERROR ("Error fetching Cloudflare colo data: " +:+ msg)])
         (stdout s) (disk s)).
Proof.
  intros Hget Hstatus.
  unfold fetch_cloudflare_colo_data, try_except, bind, ask_res.
  fold colo_request. rewrite Hget. unfold raise_for_status.
  assert ((400 <=? status_code response) && (status_code response <? 600)
          = true) as ->.
  { apply andb_true_iff. split; [apply Z.leb_le | apply Z.ltb_lt]; lia. }
  by eexists.
Qed.

(** X16. Whatever happens, an exception that leaves [run_tests] is one of
    five: a [ValueError] for the candidate file, the [RuntimeError] for
    an empty ranking, the [RuntimeError] for an empty region table, or an
    exception outside [RequestException] raised by the request for the
    region table or by the reading of its answer as CSV ([csv.Error]).
    No probe of a candidate makes [run_tests] raise. *)
Theorem run_tests_raises (s : State W) (e : Exn) :
  (run_tests host self s).1 = Raise e →
  (∃ msg, e = mkExn ValueError ("Failed to read 'ip_list': " +:+ msg))
  ∨ e = mkExn RuntimeError "No IPs passed the ping filter."
  ∨ e = mkExn RuntimeError
          "Critical error: Failed to fetch Cloudflare colo data."
  ∨ (issubclass (exn_cls e) RequestException = false
     ∧ ((∃ w, (requests_get host colo_request w).1 = Raise e)
        ∨ ∃ text, csv_DictReader host text = Raise e)).
Proof.
  unfold run_tests. unfold bind, try_except, ask, logging.
  destruct (read_ips host (ip_file self) s) as [[ip_list|e0] sr].
  2: { cbn. intros [= <-]. left. by eexists. }
  destruct (random_shuffle host ip_list (world sr)) as [l w].
  cbn [fst snd]. set (s1 := mkState _ _ _ _).
  destruct (filter_ips_by_ping_run host self l s1) as [s2 ->].
  destruct (Py.slice_to _ _) as [|entry ranked].
  { cbn. intros [= <-]. right. by left. }
  set (s3 := mkState _ _ _ _).
  pose proof (fetch_raises s3) as Hfetch.
  destruct (fetch_cloudflare_colo_data host s3) as [[colo_data|e1] s4].
  2: { cbn [fst]. intros [= <-].
       destruct (Hfetch e1 eq_refl) as [Hcls [Hget|(response & _ & Hcsv)]];
         do 3 right; (split; [done|]).
       - left. by exists (world s3).
       - right. by exists (text response). }
  destruct colo_data as [|row colo_data].
  { cbn. intros [= <-]. right. right. by left. }
  by destruct (test_loop_shape host self (row :: colo_data) (entry :: ranked)
                 [] s4) as (accepted & s5 & -> & _).
Qed.

(** X17. With [max_ips] set to 0 the ranking is empty whatever the
    candidates answer, and [run_tests] cannot return: it raises the
    [ValueError] of the candidate file or ["No IPs passed the ping
    filter."]. *)
Theorem run_tests_max_ips_zero (s : State W) :
  max_ips self = 0 →
  ∃ e,
    (run_tests host self s).1 = Raise e
    ∧ ((∃ msg, e = mkExn ValueError ("Failed to read 'ip_list': " +:+ msg))
       ∨ e = mkExn RuntimeError "No IPs passed the ping filter.").
Proof.
  intros Hmax. unfold run_tests. unfold bind, try_except, ask, logging.
  destruct (read_ips host (ip_file self) s) as [[ip_list|e0] sr].
  2: { cbn. eexists. split; [done|]. left. by eexists. }
  destruct (random_shuffle host ip_list (world sr)) as [l w].
  cbn [fst snd]. set (s1 := mkState _ _ _ _).
  destruct (filter_ips_by_ping_run host self l s1) as [s2 ->].
  rewrite Hmax. unfold Py.slice_to. cbn. rewrite take_0.
  eexists. split; [done|]. by right.
Qed.
End Trace.

(** The trace request to [192.0.2.1] raises a [ValueError]. *)
Lemma get_colo_from_ip_raises_witness :
  (requests_get Edge.host (trace_request (Scenario.tester 10) "192.0.2.1")
     (world scenario_start)).1
  = Raise (mkExn ValueError "check_hostname requires server_hostname")
  ∧ issubclass ValueError RequestException = false.
Proof.
  apply (get_colo_from_ip_raises Edge.host (Scenario.tester 10) "192.0.2.1"
           scenario_start
           (mkExn ValueError "check_hostname requires server_hostname")).
  vm_compute. reflexivity.
Defined.

(** The region table answered with status 404. *)
Lemma fetch_http_error_empty_table_witness :
  ∃ msg,
    fetch_cloudflare_colo_data (Mock.host (Edge.script 404)) scenario_start
    = (Ok [],
       mkState (world scenario_start)
         (logs scenario_start
          ++ [Log ERROR ("Error fetching Cloudflare colo data: " +:+ msg)])
         (stdout scenario_start) (disk scenario_start)).
Proof.
  apply (fetch_http_error_empty_table (Mock.host (Edge.script 404))
           scenario_start
           {| status_code := 404; text := Edge.colo_table |}
           (world scenario_start)).
  - reflexivity.
  - simpl. lia.
Defined.

(** With status 404 for the region table the run ends in the
    [RuntimeError] of the empty table. *)
Example run_tests_without_region_table :
  (run_tests (Mock.host (Edge.script 404)) (Scenario.tester 10)
     scenario_start).1
  = Raise (mkExn RuntimeError
             "Critical error: Failed to fetch Cloudflare colo data.").
Proof. vm_compute. reflexivity. Qed.

(** A region table with a field longer than the limit of the [csv]
    module. *)
Lemma run_tests_raises_witness :
  (∃ msg,
     mkExn CsvError "field larger than field limit (131072)"
     = mkExn ValueError ("Failed to read 'ip_list': " +:+ msg))
  ∨ mkExn CsvError "field larger than field limit (131072)"
    = mkExn RuntimeError "No IPs passed the ping filter."
  ∨ mkExn CsvError "field larger than field limit (131072)"
    = mkExn RuntimeError
        "Critical error: Failed to fetch Cloudflare colo data."
  ∨ (issubclass CsvError RequestException = false
     ∧ ((∃ w, (requests_get (Mock.host Edge.long_script) colo_request w).1
              = Raise (mkExn CsvError "field larger than field limit (131072)"))
        ∨ ∃ text,
            csv_DictReader (Mock.host Edge.long_script) text
            = Raise (mkExn CsvError "field larger than field limit (131072)"))).
Proof.
  apply (run_tests_raises (Mock.host Edge.long_script) (Scenario.tester 10)
           scenario_start
           (mkExn CsvError "field larger than field limit (131072)")).
  vm_compute. reflexivity.
Defined.

(** A candidate file without a line. *)
Example run_tests_without_candidates :
  (run_tests Scenario.host (Scenario.tester 10)
     (Scenario.start false None [])).1
  = Raise (mkExn ValueError
      "Failed to read 'ip_list': Error reading IP file: No valid IP addresses found in the file").
Proof. vm_compute. reflexivity. Qed.

(** The scenario with [max_ips = 0]. *)
Lemma run_tests_max_ips_zero_witness :
  max_ips (Scenario.tester 0) = 0
  ∧ ∃ e,
      (run_tests Scenario.host (Scenario.tester 0) scenario_start).1 = Raise e
      ∧ ((∃ msg, e = mkExn ValueError ("Failed to read 'ip_list': " +:+ msg))
         ∨ e = mkExn RuntimeError "No IPs passed the ping filter.").
Proof.
  split; [reflexivity|].
  apply (run_tests_max_ips_zero Scenario.host (Scenario.tester 0)
           scenario_start).
  reflexivity.
Defined.

(** ** Reading the candidates *)

Section Reading.
Context {W : Type} (host : Host W).

(** The list comprehension of [read_ips], read as a filter: the stripped
    lines that are not empty and that [ipaddress.ip_address] accepts. *)
Definition candidates (file : list string) : list string :=
  filter (λ ip, ip ≠ "" ∧ ipaddress_ip_address host ip = true)
         (Py.strip <$> file).

(** The warnings of [validate_ip] for the lines that are not blank and
    not an address. *)
Definition rejected (file : list string) : list LogRecord :=
  (λ ip, Log WARNING ("Invalid IP address: " +:+ ip)) <$>
  filter (λ ip, ip ≠ "" ∧ ipaddress_ip_address host ip = false)
         (Py.strip <$> file).

Lemma io_check_quiet op s :
  (io_fault host op (world s)).1 = None →
  ∃ s', io_check host op s = (Ok (), s')
        ∧ logs s' = logs s ∧ stdout s' = stdout s ∧ disk s' = disk s.
Proof.
  unfold io_check, bind, ask. destruct (io_fault host op (world s)) as [f w].
  simpl. intros ->. by eexists.
Qed.

Lemma read_ips_lines_run path file ips s :
  readable host path →
  ∃ s', read_ips_lines host path file ips s
        = (Ok (ips ++ candidates file), s')
        ∧ logs s' = logs s ++ rejected file
        ∧ disk s' = disk s.
Proof.
  intros Hread. revert ips s.
  induction file as [|line rest IH]; intros ips s; cbn [read_ips_lines].
  - exists s. unfold candidates, rejected. simpl. by rewrite !app_nil_r.
  - unfold bind at 1.
    destruct (io_check_quiet (OpReadLine path) s) as (s1 & -> & Hl & _ & Hd);
      [apply Hread|].
    unfold bind at 1. unfold candidates, rejected.
    rewrite fmap_cons, !filter_cons.
    fold (candidates rest). fold (rejected rest).
    case_bool_decide as Hblank.
    + cbn [ret]. destruct (IH ips s1) as (s' & -> & Hl' & Hd').
      exists s'. rewrite !decide_False by (intros [? _]; done).
      split_and!; [done|by rewrite Hl', Hl|by rewrite Hd', Hd].
    + unfold validate_ip.
      destruct (ipaddress_ip_address host (Py.strip line)) eqn:Hvalid.
      * cbn [ret].
        destruct (IH (ips ++ [Py.strip line]) s1) as (s' & -> & Hl' & Hd').
        exists s'. rewrite decide_True by done.
        rewrite decide_False by (intros [_ ?]; done).
        rewrite <- app_assoc.
        split_and!; [done|by rewrite Hl', Hl|by rewrite Hd', Hd].
      * unfold bind, logging. cbn [ret].
        set (s2 := mkState _ _ _ _).
        destruct (IH ips s2) as (s' & -> & Hl' & Hd').
        exists s'. rewrite decide_False by (intros [_ ?]; done).
        rewrite decide_True by done.
        split_and!; [done| |by rewrite Hd'; simpl].
        rewrite Hl'. subst s2. cbn [logs].
        rewrite Hl, fmap_cons, <- app_assoc. reflexivity.
Qed.

End Reading.


Example read_ips_scenario :
  candidates Scenario.host ((λ l, l +:+ Scenario.nl) <$> Scenario.all_ips)
  = ["1.1.1.1"; "8.8.8.8"; "9.9.9.9"; "1.0.0.1"; "10.0.0.1"]
  ∧ rejected Scenario.host ((λ l, l +:+ Scenario.nl) <$> Scenario.all_ips)
    = [Log WARNING "Invalid IP address: bad-ip"].
Proof. vm_compute. done. Qed.

(** ** A complete export *)

Section Complete.
Context {W : Type} (host : Host W) (self : Config).

(** Writing [path] meets no I/O error. *)
Definition writable (path : string) : Prop :=
  ∀ w, (io_fault host (OpOpenWrite path) w).1 = None
       ∧ (io_fault host (OpWrite path) w).1 = None
       ∧ (io_fault host (OpClose path) w).1 = None.

Lemma writerow_quiet path row s :
  writable path →
  ∃ s', writerow host path row s = (Ok (), s')
        ∧ logs s' = logs s ∧ stdout s' = stdout s
        ∧ disk s' = alter (λ lines, lines ++ [Csv.line row]) path (disk s).
Proof.
  intros Hw. unfold writerow, bind.
  destruct (io_check_quiet host (OpWrite path) s) as (s1 & -> & Hl & Ho & Hd);
    [apply Hw|].
  eexists. split; [reflexivity|]. simpl. by rewrite Hd.
Qed.

Lemma write_results_quiet results s before written :
  writable (output_file self) →
  disk s = <[output_file self := written]> before →
  ∃ s', write_results host self results s = (Ok (), s')
        ∧ logs s' = logs s ∧ stdout s' = stdout s
        ∧ disk s'
          = <[output_file self := written ++ result_lines results]> before.
Proof.
  intros Hw. revert s written.
  induction results as [|result rest IH]; intros s written Hs;
    cbn [write_results].
  - exists s. unfold result_lines. simpl. by rewrite app_nil_r.
  - unfold bind at 1.
    destruct (writerow_quiet (output_file self) (to_csv_row result) s Hw)
      as (s1 & -> & Hl & Ho & Hd).
    rewrite Hs, alter_insert_eq in Hd.
    destruct (IH s1 _ Hd) as (s2 & -> & Hl2 & Ho2 & Hd2).
    exists s2. split_and!; [done|congruence|congruence|].
    rewrite Hd2. unfold result_lines. rewrite fmap_cons.
    by rewrite <- app_assoc.
Qed.

Lemma bind_ok {A B} (m : M W A) (k : A → M W B) s a s' :
  m s = (Ok a, s') → bind m k s = k a s'.
Proof. unfold bind. by intros ->. Qed.

Lemma try_ok {A} (body : M W A) clauses s a s' :
  body s = (Ok a, s') → try_except body clauses s = (Ok a, s').
Proof. unfold try_except. by intros ->. Qed.

Lemma open_write_quiet path s :
  writable path →
  ∃ s', open_write host path s = (Ok (), s')
        ∧ logs s' = logs s ∧ stdout s' = stdout s
        ∧ disk s' = <[path := []]> (disk s).
Proof.
  intros Hw. unfold open_write.
  destruct (io_check_quiet host (OpOpenWrite path) s) as (s1 & Hopen & Hl & Ho & Hd);
    [apply Hw|].
  rewrite (bind_ok _ _ _ _ _ Hopen).
  eexists. split; [reflexivity|]. simpl. by rewrite Hd.
Qed.

(** X19. When opening, writing and closing the output file meet no I/O
    error, [export_results] returns: the output file then holds the
    header line followed by one line per result, in the order of the
    results, whatever it held before; every other file is untouched, one
    record is logged and nothing is printed. *)
Theorem export_results_complete (results : list IPPerformanceMetrics)
    (s : State W) :
  writable (output_file self) →
  ∃ s', export_results host self results s = (Ok (), s')
        ∧ disk s' = <[output_file self := output_lines results]> (disk s)
        ∧ logs s'
          = logs s ++ [Log INFO ("Results exported to " +:+ output_file self)]
        ∧ stdout s' = stdout s.
Proof.
  intros Hw.
  destruct (open_write_quiet (output_file self) s Hw)
    as (s2 & Hopen & Hl2 & Ho2 & Hd2).
  destruct (writerow_quiet (output_file self) header_row s2 Hw)
    as (s3 & Hrow & Hl3 & Ho3 & Hd3).
  rewrite Hd2, alter_insert_eq in Hd3.
  destruct (write_results_quiet results s3 _ _ Hw Hd3)
    as (s4 & Hrows & Hl4 & Ho4 & Hd4).
  destruct (io_check_quiet host (OpClose (output_file self)) s4)
    as (s5 & Hclose & Hl5 & Ho5 & Hd5); [apply Hw|].
  eexists. split.
  - unfold export_results. apply try_ok.
    erewrite bind_ok; [reflexivity|].
    unfold with_output_file.
    rewrite (bind_ok _ _ _ _ _ Hopen).
    erewrite bind_ok; [exact Hclose|].
    apply try_ok. fold header_row.
    rewrite (bind_ok _ _ _ _ _ Hrow). exact Hrows.
  - unfold logging. cbn [disk logs stdout]. split_and!.
    + by rewrite Hd5, Hd4.
    + by rewrite Hl5, Hl4, Hl3, Hl2.
    + by rewrite Ho5, Ho4, Ho3, Ho2.
Qed.
End Complete.

(** The scenario on a disk that never fails. *)
Definition quiet_host : Host Mock.World := {|
  PING_AVAILABLE := true;
  ipaddress_ip_address := Mock.ipv4;
  ping3_ping := ping3_ping Scenario.host;
  time_time := time_time Scenario.host;
  requests_get := requests_get Scenario.host;
  requests_post := requests_post Scenario.host;
  csv_DictReader := Mock.dict_reader;
  random_shuffle := Mock.shuffle;
  random_shuffle_perm := Mock.shuffle_perm;
  io_fault := λ _ w, (None, w);
  read_config := read_config Scenario.host;
  float_sub := Qminus;
  float_mul := Qmult;
  float_div := Qdiv;
  float_round2 := Py.round2;
  float_sub_diag := exact_sub_diag;
  float_mul_below_one := exact_mul_below_one;
  float_round2_idem := round2_idem;
  float_round2_0 := round2_0;
|}.

Lemma export_results_complete_witness :
  ∃ s', export_results quiet_host (Scenario.tester 10) scenario_results
          scenario_start = (Ok (), s')
        ∧ disk s'
          = <["ip_performance.csv" := output_lines scenario_results]>
              (disk scenario_start)
        ∧ logs s'
          = logs scenario_start
            ++ [Log INFO "Results exported to ip_performance.csv"]
        ∧ stdout s' = stdout scenario_start.
Proof.
  apply (export_results_complete quiet_host (Scenario.tester 10)
           scenario_results scenario_start).
  intros w. simpl. done.
Defined.

Example export_scenario :
  output_lines scenario_results
  = [ "IP,Region,Ping (ms),Upload (Mbps),Download (Mbps)" +:+
        String "013" Scenario.nl;
      "1.1.1.1,Europe,30,4.19,8.39" +:+ String "013" Scenario.nl;
      "1.0.0.1,Europe,30,8.39,16.78" +:+ String "013" Scenario.nl;
      "9.9.9.9,Europe,100,8.39,8.39" +:+ String "013" Scenario.nl ].
Proof. vm_compute. reflexivity. Qed.

(** ** What is logged and printed *)

Definition level (r : LogRecord) : Level :=
  match r with
  | Log lvl _ | LogNum lvl _ _ _ => lvl
  end.

Definition not_critical (r : LogRecord) : Prop := level r ≠ CRITICAL.

Section Records.
Context {W : Type}.

(** [appends m]: running [m] adds records below [CRITICAL] to the log,
    removes none, and prints nothing. *)
Definition appends {A} (m : M W A) : Prop :=
  ∀ s, ∃ records,
    logs (m s).2 = logs s ++ records
    ∧ Forall not_critical records
    ∧ stdout (m s).2 = stdout s.

Lemma appends_nothing {A} (m : M W A) :
  (∀ s, logs (m s).2 = logs s ∧ stdout (m s).2 = stdout s) → appends m.
Proof.
  intros Hm s. exists []. destruct (Hm s) as [-> ->].
  by rewrite app_nil_r.
Qed.

Lemma appends_ret {A} (a : A) : appends (ret (W:=W) a).
Proof. by apply appends_nothing. Qed.

Lemma appends_raise {A} c msg : appends (raise (W:=W) (A:=A) c msg).
Proof. by apply appends_nothing. Qed.

Lemma appends_reraise {A} e : appends (reraise (W:=W) (A:=A) e).
Proof. by apply appends_nothing. Qed.

Lemma appends_of_res {A} r : appends (of_res (W:=W) (A:=A) r).
Proof. by apply appends_nothing. Qed.

Lemma appends_get_disk : appends (get_disk (W:=W)).
Proof. by apply appends_nothing. Qed.

Lemma appends_set_disk d : appends (set_disk (W:=W) d).
Proof. by apply appends_nothing. Qed.

Lemma appends_ask {A} (f : W → A * W) : appends (ask f).
Proof. apply appends_nothing. intros s. unfold ask. by destruct (f _). Qed.

Lemma appends_ask_res {A} (f : W → Res A * W) : appends (ask_res f).
Proof. apply appends_nothing. intros s. unfold ask_res. by destruct (f _). Qed.

Lemma appends_logging r : not_critical r → appends (logging (W:=W) r).
Proof. intros Hr s. exists [r]. simpl. by repeat constructor. Qed.

Lemma appends_bind {A B} (m : M W A) (k : A → M W B) :
  appends m → (∀ a, appends (k a)) → appends (bind m k).
Proof.
  intros Hm Hk s. unfold bind. destruct (Hm s) as (r1 & Hl1 & Hr1 & Ho1).
  destruct (m s) as [[a|e] s1]; simpl in *; [|by exists r1].
  destruct (Hk a s1) as (r2 & Hl2 & Hr2 & Ho2).
  exists (r1 ++ r2). rewrite Hl2, Hl1, Ho2, Ho1, app_assoc.
  split_and!; [done| |done]. by apply Forall_app.
Qed.

Lemma appends_dispatch {A} (clauses : list (ExnClass * (Exn → M W A))) e :
  Forall (λ clause, ∀ e, appends (clause.2 e)) clauses →
  appends (dispatch clauses e).
Proof.
  induction 1 as [|[c h] clauses Hh _ IH]; simpl; [apply appends_reraise|].
  destruct (issubclass _ _); [apply Hh | apply IH].
Qed.

Lemma appends_try {A} (body : M W A) clauses :
  appends body →
  Forall (λ clause, ∀ e, appends (clause.2 e)) clauses →
  appends (try_except body clauses).
Proof.
  intros Hb Hc s. unfold try_except. destruct (Hb s) as (r1 & Hl1 & Hr1 & Ho1).
  destruct (body s) as [[a|e] s1]; simpl in *; [by exists r1|].
  destruct (appends_dispatch clauses e Hc s1) as (r2 & Hl2 & Hr2 & Ho2).
  exists (r1 ++ r2). rewrite Hl2, Hl1, Ho2, Ho1, app_assoc.
  split_and!; [done| |done]. by apply Forall_app.
Qed.
End Records.

Create HintDb records.
#[local] Hint Resolve appends_ret appends_raise appends_reraise
  appends_of_res appends_get_disk appends_set_disk appends_ask appends_ask_res : records.
#[local] Hint Extern 1 (appends (logging _)) =>
  (apply appends_logging; unfold not_critical; simpl; discriminate) : records.

Ltac records_step :=
  first
    [ apply appends_bind; [|intros ?]
    | apply appends_try; [|repeat constructor; simpl; intros ?]
    | solve [auto with records]
    | case_match ].
Ltac records := repeat records_step.

Section RecordsOf.
Context {W : Type} (host : Host W).

Lemma appends_io_check op : appends (io_check host op).
Proof. unfold io_check. records. Qed.
Hint Resolve appends_io_check : records.

Lemma appends_open_read path : appends (open_read host path).
Proof. unfold open_read. records. Qed.
Hint Resolve appends_open_read : records.

Lemma appends_open_write path : appends (open_write host path).
Proof. unfold open_write. records. Qed.
Hint Resolve appends_open_write : records.

Lemma appends_writerow path row : appends (writerow host path row).
Proof. unfold writerow. records. Qed.
Hint Resolve appends_writerow : records.

Lemma appends_close path : appends (close host path).
Proof. unfold close. records. Qed.
Hint Resolve appends_close : records.

Lemma appends_validate_ip ip : appends (validate_ip host ip).
Proof. unfold validate_ip. records. Qed.
Hint Resolve appends_validate_ip : records.

Lemma appends_read_ips_lines path file ips :
  appends (read_ips_lines host path file ips).
Proof. revert ips. induction file; intros ips; simpl; records. Qed.
Hint Resolve appends_read_ips_lines : records.

Lemma appends_read_ips path : appends (read_ips host path).
Proof. unfold read_ips. records. Qed.
Hint Resolve appends_read_ips : records.

Lemma appends_raise_for_status response :
  appends (raise_for_status (W:=W) response).
Proof. unfold raise_for_status. records. Qed.
Hint Resolve appends_raise_for_status : records.

Lemma appends_fetch : appends (fetch_cloudflare_colo_data host).
Proof. unfold fetch_cloudflare_colo_data. records. Qed.
Hint Resolve appends_fetch : records.

Lemma appends_index1 l : appends (index1 (W:=W) l).
Proof. unfold index1. records. Qed.
Hint Resolve appends_index1 : records.

Lemma appends_find_colo lines : appends (find_colo (W:=W) lines).
Proof. induction lines; simpl; records. Qed.
Hint Resolve appends_find_colo : records.

Context (self : Config).

Lemma appends_get_colo_from_ip ip : appends (get_colo_from_ip host self ip).
Proof. unfold get_colo_from_ip. records. Qed.
Hint Resolve appends_get_colo_from_ip : records.

Lemma appends_get_ping ip : appends (get_ping host self ip).
Proof. unfold get_ping. records. Qed.
Hint Resolve appends_get_ping : records.

Lemma appends_mbps size seconds : appends (mbps host size seconds).
Proof. unfold mbps. records. Qed.
Hint Resolve appends_mbps : records.

Lemma appends_get_download_speed ip :
  appends (get_download_speed host self ip).
Proof. unfold get_download_speed. records. Qed.
Hint Resolve appends_get_download_speed : records.

Lemma appends_get_upload_speed ip : appends (get_upload_speed host self ip).
Proof. unfold get_upload_speed. records. Qed.
Hint Resolve appends_get_upload_speed : records.

Lemma appends_ping_loop ip_list acc :
  appends (ping_loop host self ip_list acc).
Proof.
  revert acc. induction ip_list; intros acc; simpl; [records|].
  apply appends_bind; [unfold ping_iteration; records | done].
Qed.
Hint Resolve appends_ping_loop : records.

Lemma appends_filter_ips_by_ping ip_list :
  appends (filter_ips_by_ping host self ip_list).
Proof. unfold filter_ips_by_ping. records. Qed.
Hint Resolve appends_filter_ips_by_ping : records.

Lemma appends_test_loop colo_data ranked acc :
  appends (test_loop host self colo_data ranked acc).
Proof.
  revert acc. induction ranked as [|[ip ping] rest IH]; intros acc; simpl;
    [records|].
  apply appends_bind; [unfold test_iteration; records | done].
Qed.
Hint Resolve appends_test_loop : records.

Lemma appends_run_tests : appends (run_tests host self).
Proof. unfold run_tests. records. Qed.

Lemma appends_write_results results :
  appends (write_results host self results).
Proof. induction results; simpl; records. Qed.
Hint Resolve appends_write_results : records.

Lemma appends_export_results results :
  appends (export_results host self results).
Proof. unfold export_results, with_output_file. records. Qed.
End RecordsOf.

Section Report.
Context {W : Type} (host : Host W).

(** What [main] prints for the given results. *)
Definition printed (results : list IPPerformanceMetrics) : list Printed :=
  match results with
  | [] => [PrintStr "No suitable IPs found."]
  | _ :: _ =>
      PrintStr (String "010" "Successful IPs:")
      :: (PrintMetrics "  - " <$> results)
  end.

Lemma print_results_run results (s : State W) :
  print_results results s
  = (Ok (), mkState (world s) (logs s)
              (stdout s ++ (PrintMetrics "  - " <$> results)) (disk s)).
Proof.
  revert s. induction results as [|result rest IH]; intros s;
    cbn [print_results].
  - unfold ret. destruct s. simpl. by rewrite app_nil_r.
  - unfold bind, print. rewrite IH. cbn [world logs stdout disk].
    by rewrite fmap_cons, <- app_assoc.
Qed.

End Report.

(** The scenario run as a program: three records are printed after the
    heading. *)
Example script_prints :
  stdout (script Scenario.host scenario_start).2
  = printed scenario_results.
Proof. vm_compute. reflexivity. Qed.

(** ** The configuration *)

Section ConfigProps.
Context {W : Type}.
Context (config : gmap string (gmap string string)).
Context (py_int : string → option Z) (py_float : string → option Py.float).
Context (interpolate : gmap string string → string → string + string).

(** X21. When the parser has no section [cfRegTest] (for one, when
    [config.ini] does not exist), [__init__] raises at the first option it
    asks for: the [except] clauses of the getters name [NoOptionError] and
    [ValueError], not [NoSectionError], so no default is used, nothing is
    logged and no tester is built. *)
Theorem init_without_section (openssl : bool) (s : State W) :
  config !! "cfRegTest" = None →
  __init__ config py_int py_float interpolate openssl s
  = (Raise (mkExn Exception "No section: 'cfRegTest'"), s).
Proof.
  intros Hsection.
  unfold __init__, bind, _get_config_int, config_getint, config_get.
  by rewrite Hsection.
Qed.

(** The warnings a getter logs are of level [WARNING]. *)
Definition is_warning (r : LogRecord) : Prop := level r = WARNING.

(** [getter] returns [value], logging at most warnings and changing
    nothing else. *)
Definition yields {A} (getter : M W A) (value : A) : Prop :=
  ∀ s, ∃ warnings,
    getter s = (Ok value, add_logs s warnings) ∧ Forall is_warning warnings.

(** [getter] raises the error of an interpolation, changing nothing. *)
Definition aborts {A} (getter : M W A) : Prop :=
  ∃ msg, ∀ s, getter s = (Raise (mkExn Exception msg), s).

(** [m] raises an exception no handler names. *)
Definition fails {A} (m : M W A) : Prop :=
  ∀ s, ∃ e s', m s = (Raise e, s') ∧ exn_cls e = Exception.

Lemma yields_bind {A B} (m : M W A) (k : A → M W B) a b :
  yields m a → yields (k a) b → yields (bind m k) b.
Proof.
  intros Hm Hk s. destruct (Hm s) as (w1 & Hrun1 & Hw1).
  destruct (Hk (add_logs s w1)) as (w2 & Hrun2 & Hw2).
  exists (w1 ++ w2). unfold bind. rewrite Hrun1, Hrun2.
  split; [|by apply Forall_app].
  unfold add_logs. cbn [world logs stdout disk]. by rewrite app_assoc.
Qed.

Lemma yields_ret {A} (a : A) : yields (ret a) a.
Proof.
  intros s. exists []. split; [|constructor].
  destruct s. unfold add_logs, ret. simpl. by rewrite app_nil_r.
Qed.

Lemma yields_warning {A} msg (a : A) :
  yields (logging (Log WARNING msg);; ret a) a.
Proof. intros s. exists [Log WARNING msg]. split; [done|]. by repeat constructor. Qed.

Lemma fails_aborts {A B} (m : M W A) (k : A → M W B) :
  aborts m → fails (bind m k).
Proof. intros [msg Hm] s. unfold bind. rewrite Hm. by eexists _, _. Qed.

Lemma fails_later {A B} (m : M W A) (k : A → M W B) a :
  yields m a → fails (k a) → fails (bind m k).
Proof.
  intros Hm Hk s. destruct (Hm s) as (w & Hrun & _).
  unfold bind. rewrite Hrun. apply Hk.
Qed.

(** The settings [__init__] asks for. *)
Definition settings : list string :=
  [ "max_ips"; "max_ping"; "test_size"; "min_download_speed";
    "min_upload_speed"; "regions"; "output_file"; "file_ips" ].

(** What [get] returns for an option that is there and interpolates. *)
Definition value_of (options : gmap string string) (key : string)
    : option string :=
  options !! key ≫= λ raw,
    match interpolate options raw with
    | inr value => Some value
    | inl _ => None
    end.

(** The option is there and its interpolation fails. *)
Definition broken (options : gmap string string) (key : string) : Prop :=
  ∃ raw msg, options !! key = Some raw ∧ interpolate options raw = inl msg.

Section WithSection.
Context (options : gmap string string).
Hypothesis Hsection : config !! "cfRegTest" = Some options.

Lemma broken_not_settled key :
  broken options key →
  ¬ (is_Some (value_of options key) ∨ options !! key = None).
Proof.
  intros (raw & msg & Hraw & Hmsg). unfold value_of. rewrite Hraw. simpl.
  rewrite Hmsg. by intros [[? [=]]|[=]].
Qed.

Lemma config_get_settles key :
  match config_get config interpolate "cfRegTest" key with
  | inr value => value_of options key = Some value
  | inl (NoOptionError _ _) => options !! key = None
  | inl (InterpolationError msg) => broken options key
  | inl _ => False
  end.
Proof.
  unfold config_get, value_of, broken. rewrite Hsection.
  destruct (options !! key) as [raw|]; [|done]. simpl.
  destruct (interpolate options raw) as [msg|value] eqn:Hvalue; [|done].
  by eexists _, _.
Qed.

Lemma value_of_missing key : options !! key = None → value_of options key = None.
Proof. unfold value_of. by intros ->. Qed.

Lemma get_config_int_settles key fallback :
  if decide (is_Some (value_of options key) ∨ options !! key = None)
  then yields (_get_config_int config py_int interpolate "cfRegTest" key fallback)
         (default fallback (value_of options key ≫= py_int))
  else broken options key
       ∧ aborts (_get_config_int config py_int interpolate "cfRegTest" key
                   fallback).
Proof.
  pose proof (config_get_settles key) as Hget.
  unfold _get_config_int, config_getint.
  destruct (config_get config interpolate "cfRegTest" key)
    as [[sec|opt sec|v|msg]|value]; [done| |done| |].
  - rewrite decide_True by by right.
    rewrite (value_of_missing key Hget). apply yields_warning.
  - rewrite decide_False by by apply broken_not_settled.
    split; [done|by exists msg].
  - rewrite decide_True by (left; by rewrite Hget). rewrite Hget. simpl.
    destruct (py_int value); simpl;
      first [apply yields_ret | apply yields_warning].
Qed.

Lemma get_config_float_settles key fallback :
  if decide (is_Some (value_of options key) ∨ options !! key = None)
  then yields (_get_config_float config py_float interpolate "cfRegTest" key
                 fallback)
         (default (Py.Finite fallback) (value_of options key ≫= py_float))
  else broken options key
       ∧ aborts (_get_config_float config py_float interpolate "cfRegTest"
                   key fallback).
Proof.
  pose proof (config_get_settles key) as Hget.
  assert (∀ a : Py.float,
    yields (logging (W:=W)
              (LogNum WARNING "Using default value " fallback (" for " +:+ key));;
            ret a) a) as Hwarn.
  { intros a s. eexists [_]. split; [done|]. by repeat constructor. }
  unfold _get_config_float, config_getfloat.
  destruct (config_get config interpolate "cfRegTest" key)
    as [[sec|opt sec|v|msg]|value]; [done| |done| |].
  - rewrite decide_True by by right.
    rewrite (value_of_missing key Hget). apply Hwarn.
  - rewrite decide_False by by apply broken_not_settled.
    split; [done|by exists msg].
  - rewrite decide_True by (left; by rewrite Hget). rewrite Hget. simpl.
    destruct (py_float value); simpl; first [apply yields_ret | apply Hwarn].
Qed.

Lemma get_config_str_settles key fallback :
  if decide (is_Some (value_of options key) ∨ options !! key = None)
  then yields (_get_config_str config interpolate "cfRegTest" key fallback)
         (default fallback (value_of options key))
  else broken options key
       ∧ aborts (_get_config_str config interpolate "cfRegTest" key fallback).
Proof.
  pose proof (config_get_settles key) as Hget.
  unfold _get_config_str.
  destruct (config_get config interpolate "cfRegTest" key)
    as [[sec|opt sec|v|msg]|value]; [done| |done| |].
  - rewrite decide_True by by right.
    rewrite (value_of_missing key Hget). apply yields_warning.
  - rewrite decide_False by by apply broken_not_settled.
    split; [done|by exists msg].
  - rewrite decide_True by (left; by rewrite Hget). rewrite Hget.
    apply yields_ret.
Qed.

Lemma get_config_list_settles key fallback :
  if decide (is_Some (value_of options key) ∨ options !! key = None)
  then yields (_get_config_list config interpolate "cfRegTest" key fallback)
         (default fallback (strip_regions <$> value_of options key))
  else broken options key
       ∧ aborts (_get_config_list config interpolate "cfRegTest" key fallback).
Proof.
  pose proof (config_get_settles key) as Hget.
  unfold _get_config_list.
  destruct (config_get config interpolate "cfRegTest" key)
    as [[sec|opt sec|v|msg]|value]; [done| |done| |].
  - rewrite decide_True by by right.
    rewrite (value_of_missing key Hget). apply yields_warning.
  - rewrite decide_False by by apply broken_not_settled.
    split; [done|by exists msg].
  - rewrite decide_True by (left; by rewrite Hget). rewrite Hget.
    apply yields_ret.
Qed.
End WithSection.

(** The tester [__init__] builds from the options of the section. *)
Definition tester_of (options : gmap string string) (openssl : bool)
    : Config :=
  {| max_ips := default 10 (value_of options "max_ips" ≫= py_int);
     max_ping := default 100 (value_of options "max_ping" ≫= py_int);
     test_size := default 1024 (value_of options "test_size" ≫= py_int);
     min_download_speed :=
       default (Py.Finite 5)
         (value_of options "min_download_speed" ≫= py_float);
     min_upload_speed :=
       default (Py.Finite 2)
         (value_of options "min_upload_speed" ≫= py_float);
     regions :=
       default ["Europe, "; "Asia_Pacific"]
         (strip_regions <$> value_of options "regions");
     output_file :=
       default "ip_performance.csv" (value_of options "output_file");
     ip_file := default "ips.txt" (value_of options "file_ips");
     openssl_available := openssl |}.

End ConfigProps.

(** A parser for the examples: [int] on a string of decimal digits,
    [float] on such a string or on ["nan"], the interpolation of a value
    without references, and a file with a section [cfRegTest] in which
    [max_ping] does not parse and four options are missing. *)
Module Ini.

Definition digits (s : string) : option Z :=
  match mapM Ascii.is_nat (list_ascii_of_string s) with
  | Some (d :: ds) =>
      Some (Z.of_nat (foldl (λ acc x, 10 * acc + x)%nat 0%nat (d :: ds)))
  | _ => None
  end.

Definition number (s : string) : option Py.float :=
  if bool_decide (s = "nan") then Some Py.NaN
  else (λ n, Py.Finite (inject_Z n)) <$> digits s.

(** [%%] stands for a percent sign; a [%] before anything else is a
    syntax error (a reference [%(name)s] is not resolved here). *)
Fixpoint basic (value : string) : string + string :=
  match value with
  | EmptyString => inr EmptyString
  | String "%" (String "%" rest) =>
      match basic rest with
      | inr rest' => inr (String "%" rest')
      | inl msg => inl msg
      end
  | String "%" rest =>
      inl ("'%' must be followed by '%' or '(', found: '%" +:+ rest +:+ "'")
  | String c rest =>
      match basic rest with
      | inr rest' => inr (String c rest')
      | inl msg => inl msg
      end
  end.

Definition interpolate (_ : gmap string string) (raw : string)
    : string + string :=
  basic raw.

Definition options : gmap string string :=
  list_to_map
    [ ("max_ips", "3"); ("max_ping", "fast"); ("min_upload_speed", "1");
      ("regions", " Europe , ,Asia_Pacific,"); ("file_ips", "ips.txt") ].

Definition file : gmap string (gmap string string) :=
  {[ "cfRegTest" := options ]}.

(** The same options with an output file named [50%.csv]. *)
Definition percent_options : gmap string string :=
  <["output_file" := "50%.csv"]> options.

End Ini.

Lemma init_without_section_witness :
  __init__ ∅ Ini.digits Ini.number Ini.interpolate true scenario_start
  = (Raise (mkExn Exception "No section: 'cfRegTest'"), scenario_start).
Proof.
  apply (init_without_section ∅ Ini.digits Ini.number Ini.interpolate true
           scenario_start).
  reflexivity.
Defined.


(** The tester built from that file, and the warnings for the settings
    left at their defaults. *)
Example init_scenario :
  __init__ Ini.file Ini.digits Ini.number Ini.interpolate true scenario_start
  = (Ok {| max_ips := 3; max_ping := 100; test_size := 1024;
           min_download_speed := Py.Finite 5;
           min_upload_speed := Py.Finite 1;
           regions := ["Europe"; "Asia_Pacific"];
           output_file := "ip_performance.csv"; ip_file := "ips.txt";
           openssl_available := true |},
     add_logs scenario_start
       [ Log WARNING "Using default value 100 for max_ping";
         Log WARNING "Using default value 1024 for test_size";
         LogNum WARNING "Using default value " 5 " for min_download_speed";
         Log WARNING
           "Using default value ip_performance.csv for output_file" ]).
Proof. vm_compute. reflexivity. Qed.

(** With [output_file = 50%.csv] the section is there and [__init__]
    raises; with [min_download_speed = nan] the threshold is NaN. *)
Example init_percent :
  __init__ {[ "cfRegTest" := Ini.percent_options ]} Ini.digits Ini.number
    Ini.interpolate true scenario_start
  = (Raise (mkExn Exception
       "'%' must be followed by '%' or '(', found: '%.csv'"),
     add_logs scenario_start
       [ Log WARNING "Using default value 100 for max_ping";
         Log WARNING "Using default value 1024 for test_size";
         LogNum WARNING "Using default value " 5 " for min_download_speed" ]).
Proof. vm_compute. reflexivity. Qed.

Example init_nan :
  match (__init__ {[ "cfRegTest" := {[ "min_download_speed" := "nan" ]} ]}
           Ini.digits Ini.number Ini.interpolate true scenario_start).1 with
  | Ok tester => min_download_speed tester = Py.NaN
  | Raise _ => False
  end.
Proof. vm_compute. reflexivity. Qed.

(** ** Regions and speeds of the output *)

Section Records2.
Context {W : Type} (host : Host W) (self : Config).

Lemma run_tests_all_accepted :
  returns (run_tests host self) (Forall (accepted self)).
Proof.
  unfold run_tests.
  apply returns_bind with (Q := λ _, True); [done|]. intros ip_list _.
  apply returns_seq.
  eapply returns_bind; [apply filter_ips_by_ping_in_range|].
  intros ranked Hranked.
  destruct ranked as [|entry ranked]; [apply returns_raise|].
  apply returns_seq.
  apply returns_bind with (Q := λ _, True); [done|]. intros colo_data _.
  destruct colo_data; [apply returns_raise|].
  by apply test_loop_accepted.
Qed.

(** X23. With the default region list ['Europe, ', 'Asia_Pacific'], every
    record [run_tests] returns is in the region Asia_Pacific: the entry
    ['Europe, '] holds a space and a comma, which no region name that
    [get_region_from_colo] returns can match, so a candidate in Europe is
    never accepted under the defaults. *)
Theorem run_tests_default_regions (s s' : State W)
    (results : list IPPerformanceMetrics) :
  regions self = ["Europe, "; "Asia_Pacific"] →
  run_tests host self s = (Ok results, s') →
  Forall (λ m, region m = "Asia_Pacific") results.
Proof.
  intros Hregions Hrun.
  pose proof (run_tests_all_accepted s results s' Hrun) as Haccepted.
  destruct (run_tests_shape host self s results s' Hrun)
    as (ip_list & s1 & _ & _ & Hspaceless).
  rewrite Forall_forall in *. intros m Hm.
  destruct (Haccepted m Hm) as (_ & Hregion & _).
  rewrite Hregions in Hregion.
  apply elem_of_cons in Hregion as [Heurope|Hregion].
  - specialize (Hspaceless m Hm 7%nat). by rewrite Heurope in Hspaceless.
  - by apply list_elem_of_singleton in Hregion.
Qed.

(** A number that [round(x, 2)] leaves as it is. *)
Definition two_decimals (x : Q) : Prop :=
  (float_round2 host x == x)%Q.

Lemma mbps_two_decimals size seconds :
  returns (mbps host size seconds) two_decimals.
Proof.
  unfold mbps. destruct (Qeq_bool seconds 0); [apply returns_raise|].
  apply returns_ret, float_round2_idem.
Qed.

Lemma two_decimals_0 : two_decimals 0.
Proof. apply float_round2_0. Qed.

Lemma get_download_speed_two_decimals ip :
  returns (get_download_speed host self ip) two_decimals.
Proof.
  unfold get_download_speed. apply returns_try.
  - cbv zeta.
    repeat (apply returns_bind with (Q := λ _, True); [done|]; intros ? _).
    apply mbps_two_decimals.
  - repeat constructor. simpl. intros e. apply returns_ret, two_decimals_0.
Qed.

Lemma get_upload_speed_two_decimals ip :
  returns (get_upload_speed host self ip) two_decimals.
Proof.
  unfold get_upload_speed. apply returns_try.
  - cbv zeta.
    repeat (apply returns_bind with (Q := λ _, True); [done|]; intros ? _).
    apply mbps_two_decimals.
  - repeat constructor. simpl. intros e. apply returns_ret, two_decimals_0.
Qed.

(** The speeds of a record have at most two decimals. *)
Definition rounded (m : IPPerformanceMetrics) : Prop :=
  two_decimals (download_speed m) ∧ two_decimals (upload_speed m).

Lemma test_iteration_rounded colo_data ip ping acc :
  Forall rounded acc →
  returns (test_iteration host self colo_data ip ping acc) (Forall rounded).
Proof.
  intros Hacc. unfold test_iteration.
  apply returns_seq, returns_try.
  2: { repeat constructor. simpl. intros e. by apply returns_seq, returns_ret. }
  apply returns_bind with (Q := λ _, True); [done|]. intros colo _.
  assert (returns (logging (W:=W)
      (Log INFO ("Could not determine colo for IP " +:+ ip));; ret acc)
    (Forall rounded)) as Hskip by by apply returns_seq, returns_ret.
  destruct colo as [[|c colo]|]; [done| |done].
  apply returns_bind with (Q := λ _, True); [done|]. intros region _.
  case_bool_decide as Hregion; [by apply returns_seq, returns_ret|].
  eapply returns_bind; [apply get_download_speed_two_decimals|].
  intros download Hdown.
  eapply returns_bind; [apply get_upload_speed_two_decimals|].
  intros upload Hup.
  destruct (_ || _); [by apply returns_seq, returns_ret|].
  apply returns_ret, Forall_app. split; [done|].
  by repeat constructor.
Qed.

Lemma test_loop_rounded colo_data ranked acc :
  Forall rounded acc →
  returns (test_loop host self colo_data ranked acc) (Forall rounded).
Proof.
  revert acc. induction ranked as [|[ip ping] rest IH]; intros acc Hacc; simpl.
  - by apply returns_ret.
  - eapply returns_bind; [by apply test_iteration_rounded|]. apply IH.
Qed.

End Records2.

(** The tester [__init__] builds from a section without options. *)
Definition default_tester : Config := {|
  max_ips := 10;
  max_ping := 100;
  test_size := 1024;
  min_download_speed := Py.Finite 5;
  min_upload_speed := Py.Finite 2;
  regions := ["Europe, "; "Asia_Pacific"];
  output_file := "ip_performance.csv";
  ip_file := "ips.txt";
  openssl_available := true;
|}.

Example init_defaults :
  (__init__ {[ "cfRegTest" := ∅ ]} Ini.digits Ini.number Ini.interpolate
     true scenario_start).1
  = Ok default_tester.
Proof. vm_compute. reflexivity. Qed.

(** A run under the defaults on a candidate in London and one in Tokyo. *)
Definition tokyo_start : State Mock.World :=
  Scenario.start false None ["1.1.1.1"; "203.0.113.1"].

Definition tokyo_results : list IPPerformanceMetrics :=
  returned (run_tests Edge.host default_tester tokyo_start).1.

Lemma tokyo_run :
  run_tests Edge.host default_tester tokyo_start
  = (Ok tokyo_results, (run_tests Edge.host default_tester tokyo_start).2).
Proof.
  apply (run_eq (run_tests Edge.host default_tester)).
  vm_compute. reflexivity.
Qed.

Lemma run_tests_default_regions_witness :
  Forall (λ m, region m = "Asia_Pacific") tokyo_results.
Proof.
  apply (run_tests_default_regions Edge.host default_tester tokyo_start
           (run_tests Edge.host default_tester tokyo_start).2 tokyo_results).
  - reflexivity.
  - exact tokyo_run.
Defined.

(** Only the candidate in Tokyo is accepted. *)
Example tokyo_accepted :
  (λ m, (ip m, region m, ping m)) <$> tokyo_results
  = [("203.0.113.1", "Asia_Pacific", 40)].
Proof. vm_compute. reflexivity. Qed.


(** ** No qualifying candidate is lost *)

Section Complete2.
Context {W : Type} (host : Host W) (self : Config).

(** X25. When every probe answers the same way in every state, no
    qualifying candidate is lost: a candidate of the ranking whose colo is
    found, whose region is desired and whose two speeds reach the
    thresholds has its record in the list [run_tests] returns, with the
    ping of the ranking and the measured speeds. *)
Theorem run_tests_keeps_qualifying (s s' : State W)
    (results : list IPPerformanceMetrics)
    (colo_data : list (gmap string (option string)))
    (ip : string) (latency : Z) (colo region : string)
    (download upload : Q) :
  frozen_responses host self →
  run_tests host self s = (Ok results, s') →
  (ip, latency)
    ∈ ranked_of (filter_ips_by_ping host self (shuffled host self s) s).1 →
  (fetch_cloudflare_colo_data host s).1 = Ok colo_data →
  (get_colo_from_ip host self ip s).1 = Ok (Some colo) →
  colo ≠ "" →
  get_region_from_colo colo colo_data = Ok region →
  region ∈ regions self →
  (get_download_speed host self ip s).1 = Ok download →
  (get_upload_speed host self ip s).1 = Ok upload →
  Py.ge_float download (min_download_speed self) = true →
  Py.ge_float upload (min_upload_speed self) = true →
  {| ip := ip; region := region;
     ping := latency; upload_speed := upload; download_speed := download |}
  ∈ results.
Proof.
  intros Hfrozen Hrun Hranked Hfetch Hcolo Hne Hname Hregion Hdown Hup Hd Hu.
  pose proof (run_tests_frozen host self Hfrozen s s) as Hout.
  rewrite Hrun in Hout. cbn [fst] in Hout.
  destruct (read_ips host (ip_file self) s).1 as [ip_list|e]; [|done].
  unfold fixed_output in Hout.
  destruct (filter_ips_by_ping_run host self (shuffled host self s) s)
    as [s2 Hfilter].
  rewrite Hfilter in Hranked. cbn [fst ranked_of] in Hranked.
  rewrite (latency_pass_frozen host self Hfrozen s) in Hranked.
  destruct (Py.slice_to _ _) as [|entry ranked]; [done|].
  rewrite Hfetch in Hout. destruct colo_data as [|row colo_data]; [done|].
  assert (results
          = (entry :: ranked) ≫= fixed_detail host self s (row :: colo_data))
    as -> by congruence.
  apply list_elem_of_bind. exists (ip, latency). split; [|done].
  unfold fixed_detail, detail_entry. cbn [fst snd].
  rewrite Hcolo, Hdown, Hup.
  destruct colo as [|c colo]; [done|].
  rewrite Hname.
  rewrite bool_decide_eq_false_2 by (intros Hn; by apply Hn).
  rewrite (ge_float_true _ _ Hd), (ge_float_true _ _ Hu).
  by apply list_elem_of_singleton.
Qed.
End Complete2.

(** [1.1.1.1] in the run of the scenario. *)
Lemma run_tests_keeps_qualifying_witness :
  {| ip := "1.1.1.1"; region := "Europe";
     ping := 30; upload_speed := 419 # 100; download_speed := 839 # 100 |}
  ∈ scenario_results.
Proof.
  apply (run_tests_keeps_qualifying Scenario.host (Scenario.tester 10)
           scenario_start
           (run_tests Scenario.host (Scenario.tester 10) scenario_start).2
           scenario_results
           (returned (Mock.dict_reader Scenario.colo_table))
           "1.1.1.1" 30 "LHR" "Europe" (839 # 100) (419 # 100)).
  - apply mock_frozen_responses.
  - exact scenario_run.
  - apply (bool_decide_unpack _). vm_compute. exact I.
  - vm_compute. reflexivity.
  - vm_compute. reflexivity.
  - discriminate.
  - vm_compute. reflexivity.
  - apply (bool_decide_unpack _). vm_compute. exact I.
  - vm_compute. reflexivity.
  - vm_compute. reflexivity.
  - reflexivity.
  - reflexivity.
Defined.
